(** * ZaphWork x402 SDK: a shallow embedding of [src/client.ts]

    The client is a thin layer over an HTTP transport.  Its behaviour is a
    function of what the transport answers, so the embedding threads a
    [World] through every method: the two mutable fields of the client
    object (the session state) and the trace of everything that crossed the
    boundary to the outside (fetches with their answers, clock readings,
    sleeps).  The outside itself is an [Environment]: a server and a clock,
    both arbitrary functions of the trace so far.

    A method is a function from the world to a [Result] and the world it
    leaves: a returned value, a thrown error, or [OutOfFuel].  Fuel is
    needed in two places only, the self-call of [request] on a 401 and the
    [while] loop of [waitForTaskStatus]; neither is bounded in the source.

    The external libraries (bs58, tweetnacl, web3.js key handling, number,
    date and JSON printing) are a [Platform] the development is parametric
    in.  A request body is the JSON document whose text is sent, numbers are
    binary64 floats, header sets are finite maps (their order is not
    modelled), and the parameter records carry the types of
    [src/types.ts]. *)

From Stdlib Require Import ZArith Floats Lia Ascii String.
From stdpp Require Import gmap strings pretty.

Local Set Warnings "-register-all".
Local Open Scope string_scope.
Local Open Scope Z_scope.

(** ** JSON documents and the JavaScript values read from them *)

Inductive Json : Type :=
| JNull
| JBool (b : bool)
| JNum (x : float)
| JStr (s : string)
| JArr (items : list Json)
| JObj (fields : list (string * Json)).

(** A JavaScript value obtained from a parsed document is [Some j], or
    [None] for [undefined]. *)
Definition JsValue : Type := option Json.

(** Own-property lookup in a parsed object.  [JSON.parse] keeps the last of
    several equal keys. *)
Fixpoint obj_get (k : string) (fields : list (string * Json)) : option Json :=
  match fields with
  | [] => None
  | (k', v) :: rest =>
      match obj_get k rest with
      | Some v' => Some v'
      | None => if String.eqb k k' then Some v else None
      end
  end.

(** JavaScript truthiness, as used by [||] and [if]. *)
Definition number_truthy (x : float) : bool :=
  negb (PrimFloat.is_zero x || PrimFloat.is_nan x).

Definition string_truthy (s : string) : bool :=
  negb (String.eqb s "").

Definition truthy (v : JsValue) : bool :=
  match v with
  | None => false
  | Some JNull => false
  | Some (JBool b) => b
  | Some (JNum x) => number_truthy x
  | Some (JStr s) => string_truthy s
  | Some (JArr _) => true
  | Some (JObj _) => true
  end.

(** [a || b] *)
Definition js_or (a : JsValue) (b : Json) : Json :=
  match a with
  | Some j => if truthy a then j else b
  | None => b
  end.

(** ** Errors: [src/errors.ts] and the engine's own *)

(** [class ZaphWorkError extends Error]: every subclass constructor sets
    [this.name] to its class name and passes a fixed status code up. *)
Record ZaphWorkError : Type := MkZaphWorkError {
  name : string;
  message : string;
  statusCode : option Z
}.

Definition new_ZaphWorkError (msg : string) (status : option Z) : ZaphWorkError :=
  {| name := "ZaphWorkError"; message := msg; statusCode := status |}.

Definition new_AuthenticationError (msg : string) : ZaphWorkError :=
  {| name := "AuthenticationError"; message := msg; statusCode := Some 401 |}.

Definition new_ValidationError (msg : string) : ZaphWorkError :=
  {| name := "ValidationError"; message := msg; statusCode := Some 400 |}.

Definition new_NotFoundError (resource : string) : ZaphWorkError :=
  {| name := "NotFoundError"; message := resource ++ " not found"; statusCode := Some 404 |}.

Definition new_InsufficientFundsError (msg : string) : ZaphWorkError :=
  {| name := "InsufficientFundsError"; message := msg; statusCode := Some 400 |}.

(** An error raised by the engine or a library rather than by the SDK
    ([TypeError], [SyntaxError], [RangeError]). *)
Record NativeError : Type := MkNativeError {
  native_name : string;
  native_message : string
}.

Inductive Exn : Type :=
| Zaph (e : ZaphWorkError)
| Native (e : NativeError).

(** [error instanceof ZaphWorkError] *)
Definition instanceof_ZaphWorkError (e : Exn) : bool :=
  match e with Zaph _ => true | Native _ => false end.

(** [`${error}`]: [Error.prototype.toString]. *)
Definition error_toString (e : Exn) : string :=
  let (n, m) := match e with
                | Zaph z => (name z, message z)
                | Native x => (native_name x, native_message x)
                end in
  if String.eqb m "" then n
  else if String.eqb n "" then m
  else n ++ ": " ++ m.

(** Reading a property of [null] or [undefined] (V8's wording). *)
Definition TypeError_read (of_value key : string) : Exn :=
  Native {| native_name := "TypeError";
            native_message := "Cannot read properties of " ++ of_value
                              ++ " (reading '" ++ key ++ "')" |}.

(** Converting to a primitive an object that offers none (V8's wording). *)
Definition TypeError_primitive : Exn :=
  Native {| native_name := "TypeError";
            native_message := "Cannot convert object to primitive value" |}.

(** [v.key] for the keys the client reads ([error], [task], [status],
    [payment]); none of them is inherited from a prototype, so only objects
    can have them. *)
Definition get_prop (v : JsValue) (key : string) : Exn + JsValue :=
  match v with
  | None => inl (TypeError_read "undefined" key)
  | Some JNull => inl (TypeError_read "null" key)
  | Some (JObj fields) => inr (obj_get key fields)
  | Some _ => inr None
  end.

(** ** The HTTP boundary *)

(** What [response.json()] will find in the body. *)
Inductive Body : Type :=
| Parsed (j : Json)
| Malformed (e : NativeError).

Record Response : Type := MkResponse {
  status : Z;
  statusText : string;
  set_cookie : option string;      (* headers.get('set-cookie') *)
  body : Body
}.

(** [response.ok] *)
Definition ok (r : Response) : bool :=
  (200 <=? status r) && (status r <=? 299).

(** The [RequestInit] handed to a dispatcher.  A body is the JSON document
    whose text is sent. *)
Record RequestInit : Type := MkRequestInit {
  method : option string;
  headers : option (gmap string string);
  req_body : option Json
}.

(** The default [options = {}]. *)
Definition no_options : RequestInit :=
  {| method := None; headers := None; req_body := None |}.

(** One call of [fetch(url, init)]. *)
Record HttpCall : Type := MkHttpCall {
  url : string;
  call_method : option string;
  call_headers : gmap string string;
  call_body : option Json
}.

Inductive FetchResult : Type :=
| Rejected (e : NativeError)
| Resolved (r : Response).

Inductive Event : Type :=
| EvFetch (c : HttpCall) (r : FetchResult)
| EvNow (t : Z)
| EvSleep (ms : Z).

(** The outside world: what the server answers to a call and what the
    clock shows, given everything that happened before (latest first). *)
Record Environment : Type := MkEnvironment {
  server : list Event -> HttpCall -> FetchResult;
  clock : list Event -> Z
}.

(** ** The client object *)

Inductive Network : Type := devnet | mainnet_beta.

Record Keypair : Type := MkKeypair {
  publicKey : list Byte.byte;
  secretKey : list Byte.byte
}.

Record ZaphWorkConfig : Type := MkZaphWorkConfig {
  cfg_apiUrl : string;
  cfg_privateKey : string;
  cfg_network : option Network;
  cfg_useX402 : option bool;
  cfg_platformWallet : option string
}.

(** The fields assigned once, by the constructor. *)
Record ZaphWorkClient : Type := MkZaphWorkClient {
  apiUrl : string;
  keypair : Keypair;
  network : Network;
  useX402 : bool;
  platformWallet : option string
}.

(** The same client with the [useX402] flag set to [b]. *)
Definition with_useX402 (b : bool) (self : ZaphWorkClient) : ZaphWorkClient :=
  {| apiUrl := apiUrl self; keypair := keypair self; network := network self;
     useX402 := b; platformWallet := platformWallet self |}.

(** The fields assigned afterwards. *)
Record SessionState : Type := MkSessionState {
  sessionCookie : option string;
  authenticated : bool
}.

Record World : Type := MkWorld {
  session : SessionState;
  trace : list Event
}.

(** ** Parameter records of [src/types.ts] *)

(** A [Date] holds a time value in milliseconds, or none when it is an
    "Invalid Date". *)
Record Date : Type := MkDate { time_value : option Z }.

Record CreateTaskParams : Type := MkCreateTaskParams {
  title : string;
  description : string;
  category : string;
  paymentAmount : float;
  currency : option string;
  deadline : option Date;
  workersNeeded : option float
}.

(** The values that occur in the object literals the client serialises. *)
Inductive Literal : Type :=
| Undefined
| Str (s : string)
| Num (x : float).

(** [JSON.stringify] of a number: [NaN] and the infinities become [null],
    and the sign of zero is dropped. *)
Definition JSON_number (x : float) : Json :=
  if PrimFloat.is_finite x then
    if PrimFloat.is_zero x then JNum 0%float else JNum x
  else JNull.

(** [JSON.stringify] of an object literal: a property whose value is
    [undefined] is left out. *)
Definition stringify_property (kv : string * Literal) : option (string * Json) :=
  match kv with
  | (_, Undefined) => None
  | (k, Str s) => Some (k, JStr s)
  | (k, Num x) => Some (k, JSON_number x)
  end.

Definition JSON_stringify (o : list (string * Literal)) : Json :=
  JObj (omap stringify_property o).

(** [a || b] on an optional string and on an optional number. *)
Definition or_string (a : option string) (b : string) : string :=
  match a with
  | Some s => if string_truthy s then s else b
  | None => b
  end.

Definition or_number (a : option float) (b : float) : float :=
  match a with
  | Some x => if number_truthy x then x else b
  | None => b
  end.

Definition optional (f : string -> Literal) (a : option string) : Literal :=
  match a with
  | Some s => f s
  | None => Undefined
  end.

(** ** External libraries *)

Class Platform : Type := MkPlatform {
  bs58_decode : string -> option (list Byte.byte);       (* throws on bad input *)
  bs58_encode : list Byte.byte -> string;
  Keypair_fromSecretKey : list Byte.byte -> option Keypair;  (* throws on a bad key *)
  nacl_sign_detached : list Byte.byte -> list Byte.byte -> list Byte.byte;
  TextEncoder_encode : string -> list Byte.byte;
  Number_toString : float -> string;
  JSON_text : Json -> string;
  Date_toISOString : Z -> string
}.

(** The text decodes and the bytes are accepted as a secret key. *)
Definition well_formed_key {P : Platform} (s : string) : Prop :=
  exists secretKey keypair,
    bs58_decode s = Some secretKey /\ Keypair_fromSecretKey secretKey = Some keypair.

(** ** The monad of client methods *)

(** How a method ends: with a value, with a thrown error, or not within
    the fuel it was given. *)
Inductive Result (A : Type) : Type :=
| Return (a : A)
| Throw (e : Exn)
| OutOfFuel.
Arguments Return {A} a.
Arguments Throw {A} e.
Arguments OutOfFuel {A}.

Definition M (A : Type) : Type := World -> Result A * World.

Definition ret {A} (a : A) : M A := fun w => (Return a, w).

Definition bind {A B} (m : M A) (k : A -> M B) : M B :=
  fun w =>
    match m w with
    | (Return a, w') => k a w'
    | (Throw e, w') => (Throw e, w')
    | (OutOfFuel, w') => (OutOfFuel, w')
    end.

Definition throw {A} (e : Exn) : M A := fun w => (Throw e, w).

Definition out_of_fuel {A} : M A := fun w => (OutOfFuel, w).

(** [try { m } catch (error) { handler error }] *)
Definition try_catch {A} (m : M A) (handler : Exn -> M A) : M A :=
  fun w =>
    match m w with
    | (Throw e, w') => handler e w'
    | other => other
    end.

Definition lift {A} (x : Exn + A) : M A :=
  match x with
  | inl e => throw e
  | inr a => ret a
  end.

Declare Scope client_scope.
Delimit Scope client_scope with client.
Notation "'let*' x := m 'in' k" := (bind m (fun x => k))
  (at level 10, x name, m at level 100, k at level 200) : client_scope.
Notation "m >> k" := (bind m (fun _ => k))
  (at level 100, k at level 200, right associativity) : client_scope.
Local Open Scope client_scope.

Definition get_session : M SessionState := fun w => (Return (session w), w).

Definition set_authenticated (b : bool) : M unit :=
  fun w => (Return tt,
            {| session := {| sessionCookie := sessionCookie (session w); authenticated := b |};
               trace := trace w |}).

Definition set_sessionCookie (c : option string) : M unit :=
  fun w => (Return tt,
            {| session := {| sessionCookie := c; authenticated := authenticated (session w) |};
               trace := trace w |}).

Definition log (ev : Event) (w : World) : World :=
  {| session := session w; trace := ev :: trace w |}.

Section Client.
Context {P : Platform}.
Variable env : Environment.

(** [await fetch(url, init)] *)
Definition fetch (c : HttpCall) : M Response :=
  fun w =>
    let r := server env (trace w) c in
    match r with
    | Rejected e => (Throw (Native e), log (EvFetch c r) w)
    | Resolved resp => (Return resp, log (EvFetch c r) w)
    end.

(** [Date.now()] *)
Definition Date_now : M Z :=
  fun w => let t := clock env (trace w) in (Return t, log (EvNow t) w).

(** [await new Promise(resolve => setTimeout(resolve, ms))] *)
Definition sleep (ms : Z) : M unit :=
  fun w => (Return tt, log (EvSleep ms) w).

(** [await response.json()] *)
Definition response_json (r : Response) : M Json :=
  match body r with
  | Parsed j => ret j
  | Malformed e => throw (Native e)
  end.

Variable self : ZaphWorkClient.

(** [getAddress()]: [PublicKey.toBase58] is the base58 text of the key bytes. *)
Definition getAddress : string :=
  bs58_encode (publicKey (keypair self)).

Definition json_headers : gmap string string :=
  {[ "Content-Type" := "application/json" ]}.

Definition nl : string := String (Ascii.ascii_of_nat 10) "".

(** [setCookie.match(/session=([^;]+)/)[1]]: the leftmost place where
    [session=] is followed by at least one character other than [;], and
    the longest run of such characters there. *)
Fixpoint until_semicolon (s : string) : string :=
  match s with
  | EmptyString => EmptyString
  | String c rest =>
      if Ascii.eqb c ";"%char then EmptyString else String c (until_semicolon rest)
  end.

Fixpoint strip_prefix (p s : string) : option string :=
  match p, s with
  | EmptyString, _ => Some s
  | String a p', String b s' => if Ascii.eqb a b then strip_prefix p' s' else None
  | String _ _, EmptyString => None
  end.

Definition session_at (s : string) : option string :=
  match strip_prefix "session=" s with
  | Some rest =>
      let v := until_semicolon rest in
      if String.eqb v "" then None else Some v
  | None => None
  end.

Fixpoint match_session (s : string) : option string :=
  match session_at s with
  | Some v => Some v
  | None =>
      match s with
      | EmptyString => None
      | String _ rest => match_session rest
      end
  end.

(** The text [String(v)] gives, which is what [new Error(v)] stores as its
    message and what a template puts in place of [${v}]; [None] when the
    conversion throws.  An object is converted by the [toString] it
    inherits, unless it has a [toString] property of its own: in a parsed
    document that is never a function, the inherited [valueOf] returns the
    object itself, and the conversion throws a [TypeError].  An array joins
    the texts of its items, [null] counting as the empty text, and throws
    when an item does. *)
Fixpoint js_toString (j : Json) : option string :=
  match j with
  | JNull => Some "null"
  | JBool true => Some "true"
  | JBool false => Some "false"
  | JNum x => Some (Number_toString x)
  | JStr s => Some s
  | JArr items =>
      (fix join (l : list Json) : option string :=
         match l with
         | [] => Some ""
         | [x] => match x with JNull => Some "" | _ => js_toString x end
         | x :: rest =>
             match (match x with JNull => Some "" | _ => js_toString x end) with
             | Some s =>
                 match join rest with
                 | Some t => Some (s ++ "," ++ t)
                 | None => None
                 end
             | None => None
             end
         end) items
  | JObj fields =>
      match obj_get "toString" fields with
      | Some _ => None
      | None => Some "[object Object]"
      end
  end.

(** [ToString(v)]: the text, or the [TypeError] of the conversion. *)
Definition ToString (j : Json) : Exn + string :=
  match js_toString j with
  | Some s => inr s
  | None => inl TypeError_primitive
  end.

(** [authenticate()] *)
Definition authenticate : M unit :=
  try_catch
    (let walletAddress := getAddress in
     (* Step 1: connect wallet *)
     let* connectResponse :=
       fetch {| url := apiUrl self ++ "/api/auth/wallet/connect";
                call_method := Some "POST";
                call_headers := json_headers;
                call_body := Some (JObj [("walletAddress", JStr walletAddress);
                                         ("walletType", JStr "phantom")]) |} in
     if negb (ok connectResponse) then
       throw (Zaph (new_AuthenticationError "Failed to connect wallet"))
     else
     (* Step 2: create session *)
     let* now := Date_now in
     let message := "Sign this message to authenticate with ZaphWork." ++ nl ++ nl
                    ++ "Wallet: " ++ walletAddress ++ nl
                    ++ "Timestamp: " ++ pretty now in
     let messageBytes := TextEncoder_encode message in
     let signature := nacl_sign_detached messageBytes (secretKey (keypair self)) in
     let signatureBase58 := bs58_encode signature in
     let* sessionResponse :=
       fetch {| url := apiUrl self ++ "/api/auth/session";
                call_method := Some "POST";
                call_headers := json_headers;
                call_body := Some (JObj [("walletAddress", JStr walletAddress);
                                         ("signature", JStr signatureBase58);
                                         ("message", JStr message)]) |} in
     (if negb (ok sessionResponse) then
        let* error := response_json sessionResponse in
        let* e := lift (get_prop (Some error) "error") in
        let* message := lift (ToString (js_or e (JStr "Failed to create session"))) in
        throw (Zaph (new_AuthenticationError message))
      else ret tt) >>
     (* Extract session cookie *)
     (match set_cookie sessionResponse with
      | Some setCookie =>
          if string_truthy setCookie then
            match match_session setCookie with
            | Some m => set_sessionCookie (Some m)
            | None => ret tt
            end
          else ret tt
      | None => ret tt
      end) >>
     set_authenticated true)
    (fun error =>
       if instanceof_ZaphWorkError error then throw error
       else throw (Zaph (new_AuthenticationError
                           ("Authentication failed: " ++ error_toString error)))).

(** The payment proof [makeX402Payment] promises. *)
Record PaymentProof : Type := MkPaymentProof {
  proof_signature : string;
  proof_amount : float;
  proof_timestamp : float;
  proof_endpoint : string
}.

Definition PaymentProof_json (p : PaymentProof) : Json :=
  JObj [("signature", JStr (proof_signature p));
        ("amount", JNum (proof_amount p));
        ("timestamp", JNum (proof_timestamp p));
        ("endpoint", JStr (proof_endpoint p))].

(** [makeX402Payment(paymentInfo)] *)
Definition makeX402Payment (paymentInfo : JsValue) : M PaymentProof :=
  throw (Zaph (new_ZaphWorkError
                 "x402 payment not yet implemented in SDK. Use regular session auth for now."
                 None)).

(** [{ 'Content-Type': 'application/json', ...(options.headers || {}) }]:
    the caller's entries win. *)
Definition with_json_headers (options : RequestInit) : gmap string string :=
  default ∅ (headers options) ∪ json_headers.

(** [fetch(`${this.apiUrl}${endpoint}`, { ...options, headers })] *)
Definition endpoint_call (endpoint : string) (options : RequestInit)
    (hdrs : gmap string string) : HttpCall :=
  {| url := apiUrl self ++ endpoint;
     call_method := method options;
     call_headers := hdrs;
     call_body := req_body options |}.

(** The [if (!response.ok) { ... throw new ZaphWorkError(...) }] block the
    two dispatchers share word for word. *)
Definition throw_api_error {A} (response : Response) : M A :=
  let* error := try_catch (response_json response)
                          (fun _ => ret (JObj [("error", JStr "Unknown error")])) in
  let* e := lift (get_prop (Some error) "error") in
  let* message :=
    lift (ToString (js_or e (JStr ("Request failed: " ++ statusText response)))) in
  throw (Zaph (new_ZaphWorkError message (Some (status response)))).

(** [requestWithX402Payment(endpoint, options)] *)
Definition requestWithX402Payment (endpoint : string) (options : RequestInit) : M Json :=
  (* First, try without payment to get payment requirements *)
  let* response := fetch (endpoint_call endpoint options (with_json_headers options)) in
  if status response =? 402 then
    (* Payment required *)
    let* paymentInfo := response_json response in
    let* payment := lift (get_prop (Some paymentInfo) "payment") in
    (* Make payment *)
    let* paymentProof := makeX402Payment payment in
    (* Retry request with payment proof *)
    let hdrs : gmap string string :=
      default ∅ (headers options)
      ∪ (<["x-payment-timestamp" := Number_toString (proof_timestamp paymentProof)]>
         (<["x-payment-amount" := Number_toString (proof_amount paymentProof)]>
          (<["x-payment-signature" := proof_signature paymentProof]>
           (<["x-payment-proof" := JSON_text (PaymentProof_json paymentProof)]>
            json_headers)))) in
    let* paidResponse := fetch (endpoint_call endpoint options hdrs) in
    if negb (ok paidResponse) then throw_api_error paidResponse
    else response_json paidResponse
  else if negb (ok response) then throw_api_error response
  else response_json response.

(** [request(endpoint, options)].  [fuel] bounds the depth of the
    recursive self-call on a 401; [request 0] is the body with no
    recursion left. *)
Fixpoint request (fuel : nat) (endpoint : string) (options : RequestInit) : M Json :=
  (* Check if this is an x402 endpoint *)
  let isX402Endpoint := String.prefix "/api/x402/" endpoint in
  if isX402Endpoint && useX402 self then
    requestWithX402Payment endpoint options
  else
  (* Regular session-based auth *)
  let* s := get_session in
  (if negb (authenticated s) then authenticate else ret tt) >>
  let hdrs := with_json_headers options in
  let* s := get_session in
  let hdrs :=
    match sessionCookie s with
    | Some c => if string_truthy c then <["Cookie" := "session=" ++ c]> hdrs else hdrs
    | None => hdrs
    end in
  let* response := fetch (endpoint_call endpoint options hdrs) in
  if status response =? 401 then
    (* Session expired, re-authenticate *)
    set_authenticated false >>
    set_sessionCookie None >>
    match fuel with
    | O => out_of_fuel
    | S fuel' => request fuel' endpoint options
    end
  else if negb (ok response) then throw_api_error response
  else response_json response.

(** *** Wallet operations *)

(** [claimFaucet()] *)
Definition claimFaucet (fuel : nat) : M Json :=
  match network self with
  | devnet =>
      request fuel "/api/wallet/claim-usdc-dev"
              {| method := Some "POST"; headers := None; req_body := None |}
  | _ => throw (Zaph (new_ValidationError "Faucet is only available on devnet"))
  end.

(** *** Task operations *)

(** [getTask(taskId)] *)
Definition getTask (fuel : nat) (taskId : string) : M JsValue :=
  let* response := request fuel ("/api/tasks/" ++ taskId) no_options in
  lift (get_prop (Some response) "task").

(** [params.deadline?.toISOString()] *)
Definition deadline_toISOString (d : option Date) : M (option string) :=
  match d with
  | None => ret None
  | Some {| time_value := Some t |} => ret (Some (Date_toISOString t))
  | Some {| time_value := None |} =>
      throw (Native {| native_name := "RangeError";
                       native_message := "Invalid time value" |})
  end.

(** [createTask(params)] *)
Definition createTask (fuel : nat) (params : CreateTaskParams) : M JsValue :=
  let endpoint := if useX402 self then "/api/x402/tasks" else "/api/tasks/create" in
  let* deadline := deadline_toISOString (deadline params) in
  let* response :=
    request fuel endpoint
      {| method := Some "POST";
         headers := None;
         req_body := Some (JSON_stringify
           [("title", Str (title params));
            ("description", Str (description params));
            ("category", Str (category params));
            ("payment_amount", Num (paymentAmount params));
            ("currency", Str (or_string (currency params) "USDC"));
            ("deadline", optional Str deadline);
            ("workers_needed", Num (or_number (workersNeeded params) 1%float))]) |} in
  lift (get_prop (Some response) "task").

(** [createTaskX402(params)] *)
Definition createTaskX402 (params : CreateTaskParams) : M JsValue :=
  let* deadline := deadline_toISOString (deadline params) in
  let* response :=
    requestWithX402Payment "/api/x402/tasks"
      {| method := Some "POST";
         headers := None;
         req_body := Some (JSON_stringify
           [("title", Str (title params));
            ("description", Str (description params));
            ("category", Str (category params));
            ("payment_per_task", Num (paymentAmount params));
            ("currency", Str (or_string (currency params) "USDC"));
            ("deadline", optional Str deadline);
            ("workers_needed", Num (or_number (workersNeeded params) 1%float))]) |} in
  lift (get_prop (Some response) "task").

(** *** Utility methods *)

(** [task.status === targetStatus] *)
Definition status_is (st : JsValue) (targetStatus : string) : bool :=
  match st with
  | Some (JStr s) => String.eqb s targetStatus
  | _ => false
  end.

(** The [while] loop of [waitForTaskStatus].  [fuel] bounds the number of
    further iterations; [rfuel] is what each [getTask] may use. *)
Fixpoint waitForTaskStatus_loop (fuel rfuel : nat) (taskId targetStatus : string)
    (timeoutMs pollIntervalMs startTime : Z) : M JsValue :=
  let* now := Date_now in
  if now - startTime <? timeoutMs then
    let* task := getTask rfuel taskId in
    let* st := lift (get_prop task "status") in
    if status_is st targetStatus then ret task
    else
      sleep pollIntervalMs >>
      match fuel with
      | O => out_of_fuel
      | S fuel' =>
          waitForTaskStatus_loop fuel' rfuel taskId targetStatus
                                 timeoutMs pollIntervalMs startTime
      end
  else
    throw (Zaph (new_ZaphWorkError
                   ("Timeout waiting for task " ++ taskId
                    ++ " to reach status " ++ targetStatus)
                   None)).

(** [waitForTaskStatus(taskId, targetStatus, timeoutMs = 60000,
    pollIntervalMs = 2000)] *)
Definition waitForTaskStatus (fuel : nat) (taskId targetStatus : string)
    (timeoutMs pollIntervalMs : option Z) : M JsValue :=
  let timeoutMs := default 60000 timeoutMs in
  let pollIntervalMs := default 2000 pollIntervalMs in
  let* startTime := Date_now in
  waitForTaskStatus_loop fuel fuel taskId targetStatus timeoutMs pollIntervalMs startTime.

End Client.

(** ** Construction *)

(** [apiUrl.replace(/\/$/, '')]: one trailing slash is removed. *)
Fixpoint strip_trailing_slash (s : string) : string :=
  match s with
  | EmptyString => EmptyString
  | String c EmptyString => if Ascii.eqb c "/"%char then EmptyString else s
  | String c rest => String c (strip_trailing_slash rest)
  end.

(** [new ZaphWorkClient(config)].  The field initialisers run first and set
    the session state of the new object; the body then fills in the rest or
    throws. *)
Definition constructor {P : Platform} (config : ZaphWorkConfig) : M ZaphWorkClient :=
  set_sessionCookie None >>
  set_authenticated false >>
  let apiUrl := strip_trailing_slash (cfg_apiUrl config) in
  let network := default devnet (cfg_network config) in
  let useX402 := default false (cfg_useX402 config) in
  let platformWallet := cfg_platformWallet config in
  (* Parse private key *)
  match bs58_decode (cfg_privateKey config) with
  | Some secretKey =>
      match Keypair_fromSecretKey secretKey with
      | Some keypair =>
          ret {| apiUrl := apiUrl; keypair := keypair; network := network;
                 useX402 := useX402; platformWallet := platformWallet |}
      | None =>
          throw (Zaph (new_ValidationError
                         "Invalid private key format. Expected base58-encoded string."))
      end
  | None =>
      throw (Zaph (new_ValidationError
                     "Invalid private key format. Expected base58-encoded string."))
  end.

(** ** The other methods of the client *)

(** Parameter records of [src/types.ts] for these methods.  Fields that
    share a name with a field above carry a prefix. *)
Inductive SubmissionType : Type := as_text | as_url | as_file.

Definition SubmissionType_string (t : SubmissionType) : string :=
  match t with
  | as_text => "text"
  | as_url => "url"
  | as_file => "file"
  end.

Record SubmitWorkParams : Type := MkSubmitWorkParams {
  taskId : string;
  submissionType : SubmissionType;
  submissionText : option string;
  submissionUrl : option string
}.

Record ListTasksParams : Type := MkListTasksParams {
  lt_category : option string;
  lt_status : option string;
  lt_limit : option float;
  lt_offset : option float
}.

(** The inline parameter type of [listGigs]. *)
Record ListGigsParams : Type := MkListGigsParams {
  lg_category : option string;
  lg_limit : option float
}.

Record CreateGigParams : Type := MkCreateGigParams {
  gig_title : string;
  gig_description : string;
  gig_category : string;
  price : float;
  deliveryTimeDays : float;
  gig_currency : option string
}.

(** [{ ...task, escrow_address }]: the properties of [spread_of], with
    [escrow_address] set or replaced. *)
Record TaskWithEscrow : Type := MkTaskWithEscrow {
  spread_of : JsValue;
  escrow_address : JsValue
}.

(** What [createAndFundTask] returns. *)
Record FundedTask : Type := MkFundedTask {
  funded_task : TaskWithEscrow;
  escrowAddress : JsValue
}.

(** Destructuring [null] (V8's wording). *)
Definition TypeError_destructure (key : string) : Exn :=
  Native {| native_name := "TypeError";
            native_message := "Cannot destructure property '" ++ key
                              ++ "' of '(intermediate value)' as it is null." |}.

(** [const { key } = v] for a parsed document [v]. *)
Definition destructure (v : Json) (key : string) : Exn + JsValue :=
  match v with
  | JNull => inl (TypeError_destructure key)
  | JObj fields => inr (obj_get key fields)
  | _ => inr None
  end.

(** [query.append(name, value)] under [if (value)], for a string and for a
    number. *)
Definition append_string (name : string) (value : option string)
    (query : list (string * string)) : list (string * string) :=
  match value with
  | Some v => if string_truthy v then (query ++ [(name, v)])%list else query
  | None => query
  end.

Fixpoint join_with (sep : string) (parts : list string) : string :=
  match parts with
  | [] => ""
  | [x] => x
  | x :: rest => x ++ sep ++ join_with sep rest
  end.

Section Resources.
Context {P : Platform}.
Variable env : Environment.
Variable self : ZaphWorkClient.

(** The percent-encoding [URLSearchParams] applies to a name or a value. *)
Variable form_urlencode : string -> string.

Definition append_number (name : string) (value : option float)
    (query : list (string * string)) : list (string * string) :=
  match value with
  | Some v => if number_truthy v then (query ++ [(name, Number_toString v)])%list else query
  | None => query
  end.

(** [query.toString()] *)
Definition URLSearchParams_toString (query : list (string * string)) : string :=
  join_with "&" (map (fun kv => form_urlencode (fst kv) ++ "=" ++ form_urlencode (snd kv))
                     query).

(** [`${v}`] for a value read from a response. *)
Definition template_string (v : JsValue) : Exn + string :=
  match v with
  | None => inr "undefined"
  | Some j => ToString j
  end.

Definition post (body : option Json) : RequestInit :=
  {| method := Some "POST"; headers := None; req_body := body |}.

(** *** Wallet operations *)

(** [getBalance()] *)
Definition getBalance (fuel : nat) : M JsValue :=
  let* response := request env self fuel "/api/wallet/balance" no_options in
  lift (get_prop (Some response) "balance").

(** *** Task operations *)

(** [listTasks(params?)] *)
Definition listTasks (fuel : nat) (params : option ListTasksParams) : M Json :=
  let query := [] in
  let query := append_string "category" (params ≫= lt_category) query in
  let query := append_string "status" (params ≫= lt_status) query in
  let query := append_number "limit" (params ≫= lt_limit) query in
  let query := append_number "offset" (params ≫= lt_offset) query in
  let queryString := URLSearchParams_toString query in
  request env self fuel
          ("/api/tasks" ++ (if string_truthy queryString then "?" ++ queryString else ""))
          no_options.

(** [fundTask(taskId)] *)
Definition fundTask (fuel : nat) (taskId : string) : M Json :=
  request env self fuel ("/api/tasks/" ++ taskId ++ "/fund") (post None).

(** [applyToTask(taskId, message?)] *)
Definition applyToTask (fuel : nat) (taskId : string) (message : option string) : M Json :=
  request env self fuel "/api/tasks/apply"
          (post (Some (JSON_stringify [("task_id", Str taskId);
                                       ("message", optional Str message)]))).

(** [approveApplication(applicationId)] *)
Definition approveApplication (fuel : nat) (applicationId : string) : M unit :=
  request env self fuel ("/api/tasks/applications/" ++ applicationId ++ "/approve")
          (post None) >>
  ret tt.

(** [submitWork(params)] *)
Definition submitWork (fuel : nat) (params : SubmitWorkParams) : M unit :=
  request env self fuel ("/api/tasks/" ++ taskId params ++ "/submit")
          (post (Some (JSON_stringify
             [("submission_type", Str (SubmissionType_string (submissionType params)));
              ("submission_text", optional Str (submissionText params));
              ("submission_url", optional Str (submissionUrl params))]))) >>
  ret tt.

(** [submitWorkX402(params)] *)
Definition submitWorkX402 (params : SubmitWorkParams) : M unit :=
  requestWithX402Payment env self "/api/x402/submissions"
          (post (Some (JSON_stringify
             [("task_id", Str (taskId params));
              ("submission_type", Str (SubmissionType_string (submissionType params)));
              ("submission_text", optional Str (submissionText params));
              ("submission_url", optional Str (submissionUrl params))]))) >>
  ret tt.

(** [approveTask(taskId)] *)
Definition approveTask (fuel : nat) (taskId : string) : M Json :=
  request env self fuel ("/api/tasks/" ++ taskId ++ "/approve") (post None).

(** [rejectTask(taskId, reason)] *)
Definition rejectTask (fuel : nat) (taskId reason : string) : M unit :=
  request env self fuel ("/api/tasks/" ++ taskId ++ "/reject")
          (post (Some (JSON_stringify [("reason", Str reason)]))) >>
  ret tt.

(** [cancelTask(taskId)] *)
Definition cancelTask (fuel : nat) (taskId : string) : M Json :=
  request env self fuel ("/api/tasks/" ++ taskId ++ "/cancel") (post None).

(** *** Gig operations *)

(** [listGigs(params?)] *)
Definition listGigs (fuel : nat) (params : option ListGigsParams) : M Json :=
  let query := [] in
  let query := append_string "category" (params ≫= lg_category) query in
  let query := append_number "limit" (params ≫= lg_limit) query in
  let queryString := URLSearchParams_toString query in
  request env self fuel
          ("/api/gigs" ++ (if string_truthy queryString then "?" ++ queryString else ""))
          no_options.

(** [getGig(slug)] *)
Definition getGig (fuel : nat) (slug : string) : M JsValue :=
  let* response := request env self fuel ("/api/gigs/by-slug/" ++ slug) no_options in
  lift (get_prop (Some response) "gig").

(** [createGig(params)] *)
Definition createGig (fuel : nat) (params : CreateGigParams) : M JsValue :=
  let* response :=
    request env self fuel "/api/gigs/create"
      (post (Some (JSON_stringify
         [("title", Str (gig_title params));
          ("description", Str (gig_description params));
          ("category", Str (gig_category params));
          ("price", Num (price params));
          ("delivery_time_days", Num (deliveryTimeDays params));
          ("currency", Str (or_string (gig_currency params) "USDC"))]))) in
  lift (get_prop (Some response) "gig").

(** [purchaseGig(gigId)] *)
Definition purchaseGig (fuel : nat) (gigId : string) : M JsValue :=
  let* response :=
    request env self fuel "/api/gigs/purchase"
            (post (Some (JSON_stringify [("gig_id", Str gigId)]))) in
  lift (get_prop (Some response) "order").

(** [fundGigOrder(orderId)] *)
Definition fundGigOrder (fuel : nat) (orderId : string) : M Json :=
  request env self fuel ("/api/gigs/orders/" ++ orderId ++ "/fund") (post None).

(** [deliverGigOrder(orderId, deliveryUrl, notes?)] *)
Definition deliverGigOrder (fuel : nat) (orderId deliveryUrl : string)
    (notes : option string) : M unit :=
  request env self fuel ("/api/gigs/orders/" ++ orderId ++ "/deliver")
          (post (Some (JSON_stringify [("delivery_url", Str deliveryUrl);
                                       ("notes", optional Str notes)]))) >>
  ret tt.

(** [approveGigOrder(orderId)] *)
Definition approveGigOrder (fuel : nat) (orderId : string) : M Json :=
  request env self fuel ("/api/gigs/orders/" ++ orderId ++ "/approve") (post None).

(** [requestGigRevision(orderId, feedback)] *)
Definition requestGigRevision (fuel : nat) (orderId feedback : string) : M unit :=
  request env self fuel ("/api/gigs/orders/" ++ orderId ++ "/revision")
          (post (Some (JSON_stringify [("feedback", Str feedback)]))) >>
  ret tt.

(** *** Utility methods *)

(** [createAndFundTask(params)].  [fundTask] opens by putting its argument
    into a template, so the value of [task.id] is passed as the text the
    template makes of it, and a conversion that throws does so before
    anything is sent. *)
Definition createAndFundTask (fuel : nat) (params : CreateTaskParams) : M FundedTask :=
  let* task := createTask env self fuel params in
  let* id := lift (get_prop task "id") in
  let* taskId := lift (template_string id) in
  let* funded := fundTask fuel taskId in
  let* escrowAddress := lift (destructure funded "escrowAddress") in
  ret {| funded_task := {| spread_of := task; escrow_address := escrowAddress |};
         escrowAddress := escrowAddress |}.

End Resources.

(** ** Reading a trace *)

(** The number of calls to [u] in a trace. *)
Fixpoint calls_to (u : string) (tr : list Event) : nat :=
  match tr with
  | [] => O
  | EvFetch c _ :: rest =>
      if String.eqb (url c) u then S (calls_to u rest) else calls_to u rest
  | _ :: rest => calls_to u rest
  end.

(** The bodies of the calls to [u], oldest first. *)
Fixpoint bodies_to (u : string) (tr : list Event) : list (option Json) :=
  match tr with
  | [] => []
  | EvFetch c _ :: rest =>
      if String.eqb (url c) u then (bodies_to u rest ++ [call_body c])%list
      else bodies_to u rest
  | _ :: rest => bodies_to u rest
  end.


(** ** A test double for the external libraries and some servers *)

Module Fixture.

Definition base58_alphabet : string :=
  "123456789ABCDEFGHJKLMNPQRSTUVWXYZabcdefghijkmnopqrstuvwxyz".

Fixpoint occurs (c : ascii) (s : string) : bool :=
  match s with
  | EmptyString => false
  | String d rest => Ascii.eqb c d || occurs c rest
  end.

Fixpoint all_base58 (s : string) : bool :=
  match s with
  | EmptyString => true
  | String c rest => occurs c base58_alphabet && all_base58 rest
  end.

(** Stand-ins with the interface of the real libraries: the decoder
    rejects text outside the base58 alphabet and the key parser rejects
    anything but 64 bytes; the codec and the signature are not the real
    ones. *)
#[export] Instance platform : Platform := {|
  bs58_decode s := if all_base58 s then Some (list_byte_of_string s) else None;
  bs58_encode b := string_of_list_byte b;
  Keypair_fromSecretKey sk :=
    if Nat.eqb (length sk) 64 then Some {| publicKey := drop 32 sk; secretKey := sk |}
    else None;
  nacl_sign_detached m sk := take 64 (sk ++ m);
  TextEncoder_encode := list_byte_of_string;
  Number_toString _ := "0";
  JSON_text _ := "{}";
  Date_toISOString t := pretty t
|}.

Definition key64 : string :=
  "1111111111111111111111111111111122222222222222222222222222222222".

Definition config : ZaphWorkConfig :=
  {| cfg_apiUrl := "https://zaph.work/";
     cfg_privateKey := key64;
     cfg_network := None;
     cfg_useX402 := None;
     cfg_platformWallet := None |}.

Definition fresh : World :=
  {| session := {| sessionCookie := None; authenticated := false |}; trace := [] |}.

Definition client : ZaphWorkClient :=
  {| apiUrl := "https://zaph.work";
     keypair := {| publicKey := list_byte_of_string "22222222222222222222222222222222";
                   secretKey := list_byte_of_string key64 |};
     network := devnet;
     useX402 := false;
     platformWallet := None |}.

Definition response (code : Z) (text : string) (b : Body) : Response :=
  {| status := code; statusText := text; set_cookie := None; body := b |}.

Definition reply (code : Z) (text : string) (b : Body) : FetchResult :=
  Resolved (response code text b).

Definition session_reply : FetchResult :=
  Resolved {| status := 200; statusText := "OK";
              set_cookie := Some "session=abc123; Path=/; HttpOnly";
              body := Parsed (JObj [("success", JBool true)]) |}.

(** A server on which the handshake always succeeds and every other URL
    answers from a script, call by call, repeating [last] once the script
    is used up. *)
Definition scripted (script : list FetchResult) (last : FetchResult)
    (tr : list Event) (c : HttpCall) : FetchResult :=
  if String.eqb (url c) "https://zaph.work/api/auth/wallet/connect" then
    reply 200 "OK" (Parsed (JObj []))
  else if String.eqb (url c) "https://zaph.work/api/auth/session" then session_reply
  else nth (calls_to (url c) tr) script last.

(** A clock that advances one second per event. *)
Definition ticking (tr : list Event) : Z := 1000 * Z.of_nat (length tr).

Definition unauthorized : FetchResult :=
  reply 401 "Unauthorized" (Parsed (JObj [("error", JStr "Session expired")])).

Definition balance_response : Response :=
  response 200 "OK" (Parsed (JObj [("balance", JObj [("sol", JNum 1%float)])])).

Definition broken_response : Response :=
  response 500 "Internal Server Error"
           (Malformed {| native_name := "SyntaxError";
                         native_message := "Unexpected token < in JSON at position 0" |}).

Definition payment_required_response : Response :=
  response 402 "Payment Required"
           (Parsed (JObj [("payment",
                           JObj [("recipient", JStr "9xQeWvG816bUx9EPjHmaT23yvVM2ZWbrrpZb9PusVFin");
                                 ("amount", JStr "0.01");
                                 ("currency", JStr "USDC");
                                 ("network", JStr "devnet");
                                 ("endpoint", JStr "/api/x402/tasks")])])).

Definition task_json (st : string) : Json :=
  JObj [("id", JStr "t1"); ("title", JStr "t"); ("status", JStr st)].

Definition task_response (st : string) : Response :=
  response 200 "OK" (Parsed (JObj [("task", task_json st)])).

Definition logged_in : World :=
  {| session := {| sessionCookie := Some "abc123"; authenticated := true |}; trace := [] |}.

Definition x402_client : ZaphWorkClient :=
  {| apiUrl := apiUrl client; keypair := keypair client; network := mainnet_beta;
     useX402 := true; platformWallet := platformWallet client |}.

Definition balance : string := "/api/wallet/balance".
Definition balance_url : string := "https://zaph.work/api/wallet/balance".
Definition task1_url : string := "https://zaph.work/api/tasks/t1".



Definition broken : Environment :=
  {| server := scripted [] (Resolved broken_response); clock := ticking |}.

Definition paywalled : Environment :=
  {| server := scripted [] (Resolved payment_required_response); clock := ticking |}.

(** The task is open on the first two fetches and completed on the third;
    a second passes between fetches. *)
Definition becomes_completed : Environment :=
  {| server := scripted [Resolved (task_response "open"); Resolved (task_response "open")]
                        (Resolved (task_response "completed"));
     clock := fun tr => 1000 * Z.of_nat (calls_to task1_url tr) |}.

(** The task stays open; a second passes with every event. *)
Definition never_completed : Environment :=
  {| server := scripted [] (Resolved (task_response "open")); clock := ticking |}.

(** Every call but the handshake is answered with 401. *)
Definition always_unauthorized : Environment :=
  {| server := scripted [] unauthorized; clock := ticking |}.

(** Every call but the handshake is answered with a task. *)
Definition accepting : Environment :=
  {| server := scripted [] (Resolved (task_response "open")); clock := ticking |}.

Definition example_params : CreateTaskParams :=
  {| title := "t"; description := "d"; category := "data"; paymentAmount := 5%float;
     currency := None; deadline := None; workersNeeded := None |}.

Definition bad_config : ZaphWorkConfig :=
  {| cfg_apiUrl := "https://zaph.work/";
     cfg_privateKey := "not a base58 key!";
     cfg_network := None;
     cfg_useX402 := None;
     cfg_platformWallet := None |}.

End Fixture.

(** ** Properties of the client *)

Section Theory.
Context {P : Platform}.
Variable env : Environment.
Variable self : ZaphWorkClient.

(** *** Vocabulary *)

(** The test [request] opens with: [isX402Endpoint && this.useX402]. *)
Definition routes_to_x402 (endpoint : string) : bool :=
  String.prefix "/api/x402/" endpoint && useX402 self.

(** The headers of a call on the session path, given the session it is
    made in. *)
Definition cookie_headers (options : RequestInit) (s : SessionState) : gmap string string :=
  match sessionCookie s with
  | Some c =>
      if string_truthy c then <["Cookie" := "session=" ++ c]> (with_json_headers options)
      else with_json_headers options
  | None => with_json_headers options
  end.

(** [if (!this.authenticated) await this.authenticate()] *)
Definition ensure_authenticated : M unit :=
  fun w => if authenticated (session w) then (Return tt, w) else authenticate env self w.

(** The world after the two assignments that follow a 401. *)
Definition clear_session (w : World) : World :=
  {| session := {| sessionCookie := None; authenticated := false |}; trace := trace w |}.

(** What both dispatchers do with a response that ends the exchange. *)
Definition conclude (r : Response) : M Json :=
  if negb (ok r) then throw_api_error r else response_json r.

(** The same as a function of the response alone. *)
Definition outcome_of (r : Response) : Result Json :=
  if ok r then
    match body r with
    | Parsed j => Return j
    | Malformed e => Throw (Native e)
    end
  else
    let error := match body r with
                 | Parsed j => j
                 | Malformed _ => JObj [("error", JStr "Unknown error")]
                 end in
    match get_prop (Some error) "error" with
    | inl e => Throw e
    | inr e =>
        match ToString (js_or e (JStr ("Request failed: " ++ statusText r))) with
        | inl x => Throw x
        | inr message => Throw (Zaph (new_ZaphWorkError message (Some (status r))))
        end
    end.

(** The two URLs of the handshake. *)
Definition connect_url : string := apiUrl self ++ "/api/auth/wallet/connect".
Definition session_url : string := apiUrl self ++ "/api/auth/session".

(** What a handshake leaves in the trace: calls to its two URLs and a
    clock reading. *)
Definition handshake_event (ev : Event) : Prop :=
  match ev with
  | EvFetch c _ => url c = connect_url \/ url c = session_url
  | EvNow _ => True
  | EvSleep _ => False
  end.

(** [emits Q m]: whatever [m] adds to the trace satisfies [Q]. *)
Definition emits {A} (Q : Event -> Prop) (m : M A) : Prop :=
  forall w, exists new, trace (snd (m w)) = (new ++ trace w)%list /\ Forall Q new.

(** The server answers every call to the handshake URLs with a success. *)
Definition handshake_succeeds : Prop :=
  forall tr c, url c = connect_url \/ url c = session_url ->
               exists r, server env tr c = Resolved r /\ ok r = true.

(** The session is live, or a handshake will succeed. *)
Definition can_authenticate (w : World) : Prop :=
  authenticated (session w) = true \/ handshake_succeeds.

(** The handshakes a first call needs: one unless the session is live. *)
Definition handshakes_before (w : World) : nat :=
  if authenticated (session w) then 0%nat else 1%nat.

(** A call to [endpoint] with the method and body of [options]. *)
Definition endpoint_event (endpoint : string) (options : RequestInit) (ev : Event) : Prop :=
  match ev with
  | EvFetch c _ =>
      url c = apiUrl self ++ endpoint
      /\ call_method c = method options
      /\ call_body c = req_body options
  | _ => False
  end.


(** The error [makeX402Payment] throws. *)
Definition not_implemented : Exn :=
  Zaph (new_ZaphWorkError
          "x402 payment not yet implemented in SDK. Use regular session auth for now."
          None).

(** How a 402 answer ends: reading the challenge may already fail;
    otherwise the proof constructor does. *)
Definition payment_failure (r : Response) : Exn :=
  match body r with
  | Malformed e => Native e
  | Parsed paymentInfo =>
      match get_prop (Some paymentInfo) "payment" with
      | inl e => e
      | inr _ => not_implemented
      end
  end.

(** The fields of the task document: the deadline when there is one, what
    precedes the payment amount and what follows it. *)
Definition deadline_field (params : CreateTaskParams) : list (string * Json) :=
  match deadline params with
  | Some {| time_value := Some t |} => [("deadline", JStr (Date_toISOString t))]
  | _ => []
  end.

Definition task_fields_before (params : CreateTaskParams) : list (string * Json) :=
  [("title", JStr (title params));
   ("description", JStr (description params));
   ("category", JStr (category params))].

Definition task_fields_after (params : CreateTaskParams) : list (string * Json) :=
  (("currency", JStr (or_string (currency params) "USDC")) :: deadline_field params
   ++ [("workers_needed", JSON_number (or_number (workersNeeded params) 1%float))])%list.

(** The task document with the payment under [payment_key]. *)
Definition task_payload (payment_key : string) (params : CreateTaskParams) : Json :=
  JObj (task_fields_before params
        ++ (payment_key, JSON_number (paymentAmount params))
        :: task_fields_after params)%list.

(** A POST of [payload]. *)
Definition sends (payload : Json) (ev : Event) : Prop :=
  match ev with
  | EvFetch c _ => call_method c = Some "POST" /\ call_body c = Some payload
  | _ => False
  end.

(** The URL [getTask] fetches, and its call in the session of [w]. *)
Definition task_url (taskId : string) : string :=
  apiUrl self ++ "/api/tasks/" ++ taskId.

Definition getTask_call (taskId : string) (w : World) : HttpCall :=
  endpoint_call self ("/api/tasks/" ++ taskId) no_options
                (cookie_headers no_options (session w)).

(** The answer is a success whose body holds [task], with status field [st]. *)
Definition delivers (answer : FetchResult) (task st : JsValue) : Prop :=
  exists r j, answer = Resolved r /\ ok r = true /\ body r = Parsed j
              /\ get_prop (Some j) "task" = inr task
              /\ get_prop task "status" = inr st.

(** The error [waitForTaskStatus] throws past its deadline. *)
Definition timeout_error (taskId targetStatus : string) : Exn :=
  Zaph (new_ZaphWorkError
          ("Timeout waiting for task " ++ taskId ++ " to reach status " ++ targetStatus)
          None).

(** The world after the clock reading at the head of the loop. *)
Definition after_check (w : World) : World := log (EvNow (clock env (trace w))) w.

(** The world [wa] after one more fetch of the task. *)
Definition polled (taskId : string) (wa : World) : World :=
  log (EvFetch (getTask_call taskId wa) (server env (trace wa) (getTask_call taskId wa)))
      wa.

(** Every fetch of the task out of the first [K] shows another status,
    the next one shows [targetStatus] on [task]. *)
Definition reaches_status_at (taskId targetStatus : string) (K : nat) (task : JsValue)
    : Prop :=
  forall tr c, url c = task_url taskId ->
    ((calls_to (task_url taskId) tr < K)%nat ->
       exists task' st, delivers (server env tr c) task' st
                        /\ status_is st targetStatus = false)
    /\ (calls_to (task_url taskId) tr = K ->
          exists st, delivers (server env tr c) task st
                     /\ status_is st targetStatus = true).


(** [request] below its routing test: handshake if the session is not
    authenticated, the call with the cookie header, and on a 401 the
    cleared session and the self-call. *)
Definition session_path (fuel : nat) (endpoint : string) (options : RequestInit) : M Json :=
  fun w =>
    match ensure_authenticated w with
    | (Return _, wa) =>
        let c := endpoint_call self endpoint options (cookie_headers options (session wa)) in
        match server env (trace wa) c with
        | Rejected e => (Throw (Native e), log (EvFetch c (Rejected e)) wa)
        | Resolved r =>
            let wf := log (EvFetch c (Resolved r)) wa in
            if status r =? 401 then
              match fuel with
              | O => (OutOfFuel, clear_session wf)
              | S fuel' => request env self fuel' endpoint options (clear_session wf)
              end
            else conclude r wf
        end
    | (Throw e, wa) => (Throw e, wa)
    | (OutOfFuel, wa) => (OutOfFuel, wa)
    end.

(** The message of the error thrown for a response that is not a success:
    the body's [error] when it is truthy, the status line when the parsed
    body has none, and a fixed text when the body does not parse; or the
    [TypeError] that reading [error] from [null], or converting it to a
    text, throws instead. *)
Definition api_error_message (r : Response) : Exn + string :=
  match body r with
  | Malformed _ => inr "Unknown error"
  | Parsed JNull => inl (TypeError_read "null" "error")
  | Parsed (JObj fields) =>
      match obj_get "error" fields with
      | Some e =>
          if truthy (Some e) then ToString e
          else inr ("Request failed: " ++ statusText r)
      | None => inr ("Request failed: " ++ statusText r)
      end
  | Parsed _ => inr ("Request failed: " ++ statusText r)
  end.

(** The error thrown for a response that is not a success, with the
    message [msg]. *)
Definition api_error (r : Response) (msg : string) : Exn :=
  Zaph {| name := "ZaphWorkError"; message := msg; statusCode := Some (status r) |}.

(** The call has a [Cookie] header exactly if the caller's headers have
    one, and then the same. *)
Definition keeps_cookie_header (options : RequestInit) (ev : Event) : Prop :=
  match ev with
  | EvFetch c _ => call_headers c !! "Cookie" = default ∅ (headers options) !! "Cookie"
  | _ => True
  end.

(** *** Lemmas *)

Lemma conclude_eq r w : conclude r w = (outcome_of r, w).
Proof.
  unfold conclude, outcome_of, throw_api_error, response_json, try_catch, bind, lift,
    throw, ret.
  destruct (ok r); cbn [negb]; destruct (body r) as [j|e]; try reflexivity.
  destruct (get_prop (Some j) "error") as [e|v]; [reflexivity|].
  destruct (ToString (js_or v (JStr ("Request failed: " ++ statusText r)))); reflexivity.
Qed.

Lemma request_eq fuel endpoint options w :
  request env self fuel endpoint options w =
  if routes_to_x402 endpoint then requestWithX402Payment env self endpoint options w
  else
    match ensure_authenticated w with
    | (Return _, wa) =>
        let c := endpoint_call self endpoint options (cookie_headers options (session wa)) in
        match server env (trace wa) c with
        | Rejected e => (Throw (Native e), log (EvFetch c (Rejected e)) wa)
        | Resolved r =>
            let wf := log (EvFetch c (Resolved r)) wa in
            if status r =? 401 then
              match fuel with
              | O => (OutOfFuel, clear_session wf)
              | S fuel' => request env self fuel' endpoint options (clear_session wf)
              end
            else conclude r wf
        end
    | (Throw e, wa) => (Throw e, wa)
    | (OutOfFuel, wa) => (OutOfFuel, wa)
    end.
Proof.
  unfold routes_to_x402, ensure_authenticated.
  destruct fuel; simpl request;
    (destruct (String.prefix "/api/x402/" endpoint && useX402 self); [reflexivity|]);
    unfold bind at 1; unfold get_session at 1;
    unfold bind at 1.
  all: destruct (authenticated (session w)); cbv beta iota delta [negb ret].
  all: try (destruct (authenticate env self w) as [[[]|e|] wa]); try reflexivity.
  all: unfold bind, get_session, fetch, cookie_headers, conclude; cbv beta iota zeta.
  all: match goal with |- context [server env ?t ?c] => destruct (server env t c) as [e'|r] end;
    try reflexivity.
  all: destruct (status r =? 401); [reflexivity|]; destruct (ok r); reflexivity.
Qed.

Lemma emits_ret {A} Q (a : A) : emits Q (ret a).
Proof. intros w. exists []. split; [reflexivity | constructor]. Qed.

Lemma emits_throw {A} Q e : emits Q (@throw A e).
Proof. intros w. exists []. split; [reflexivity | constructor]. Qed.

Lemma emits_out_of_fuel {A} Q : emits Q (@out_of_fuel A).
Proof. intros w. exists []. split; [reflexivity | constructor]. Qed.

Lemma emits_lift {A} Q (x : Exn + A) : emits Q (lift x).
Proof. destruct x; [apply emits_throw | apply emits_ret]. Qed.

Lemma emits_bind {A B} Q (m : M A) (k : A -> M B) :
  emits Q m -> (forall a, emits Q (k a)) -> emits Q (bind m k).
Proof.
  intros Hm Hk w. unfold bind.
  destruct (Hm w) as (n1 & E1 & F1).
  destruct (m w) as [[a|e|] w1]; cbn [snd] in *.
  - destruct (Hk a w1) as (n2 & E2 & F2).
    exists (n2 ++ n1)%list. rewrite E2, E1, app_assoc.
    split; [reflexivity | apply Forall_app; auto].
  - exists n1. auto.
  - exists n1. auto.
Qed.

Lemma emits_try_catch {A} Q (m : M A) (h : Exn -> M A) :
  emits Q m -> (forall e, emits Q (h e)) -> emits Q (try_catch m h).
Proof.
  intros Hm Hh w. unfold try_catch.
  destruct (Hm w) as (n1 & E1 & F1).
  destruct (m w) as [[a|e|] w1]; cbn [snd] in *.
  - exists n1. auto.
  - destruct (Hh e w1) as (n2 & E2 & F2).
    exists (n2 ++ n1)%list. rewrite E2, E1, app_assoc.
    split; [reflexivity | apply Forall_app; auto].
  - exists n1. auto.
Qed.

Lemma emits_fetch (Q : Event -> Prop) c :
  (forall r, Q (EvFetch c r)) -> emits Q (fetch env c).
Proof.
  intros HQ w. unfold fetch.
  exists [EvFetch c (server env (trace w) c)].
  split; [destruct (server env (trace w) c); reflexivity | repeat constructor; apply HQ].
Qed.

Lemma emits_Date_now (Q : Event -> Prop) :
  (forall t, Q (EvNow t)) -> emits Q (Date_now env).
Proof.
  intros HQ w. exists [EvNow (clock env (trace w))].
  split; [reflexivity | repeat constructor; apply HQ].
Qed.

Lemma emits_sleep (Q : Event -> Prop) ms :
  Q (EvSleep ms) -> emits Q (sleep ms).
Proof. intros HQ w. exists [EvSleep ms]. split; [reflexivity | repeat constructor; apply HQ]. Qed.

Lemma emits_set_authenticated Q b : emits Q (set_authenticated b).
Proof. intros w. exists []. split; [reflexivity | constructor]. Qed.

Lemma emits_set_sessionCookie Q c : emits Q (set_sessionCookie c).
Proof. intros w. exists []. split; [reflexivity | constructor]. Qed.

Lemma emits_get_session Q : emits Q get_session.
Proof. intros w. exists []. split; [reflexivity | constructor]. Qed.

Lemma emits_response_json Q r : emits Q (response_json r).
Proof. unfold response_json. destruct (body r); [apply emits_ret | apply emits_throw]. Qed.

Lemma emits_weaken {A} (Q Q' : Event -> Prop) (m : M A) :
  (forall ev, Q ev -> Q' ev) -> emits Q m -> emits Q' m.
Proof.
  intros HQ Hm w. destruct (Hm w) as (new & E & F).
  exists new. split; [exact E | eapply Forall_impl; eauto].
Qed.

Lemma emits_throw_api_error {A} Q r : emits Q (throw_api_error (A:=A) r).
Proof.
  unfold throw_api_error.
  apply emits_bind.
  - apply emits_try_catch; [apply emits_response_json | intros; apply emits_ret].
  - intros j. apply emits_bind; [apply emits_lift|]. intros e.
    apply emits_bind; [apply emits_lift | intros; apply emits_throw].
Qed.

Lemma authenticate_emits : emits handshake_event (authenticate env self).
Proof.
  unfold authenticate.
  apply emits_try_catch.
  - apply emits_bind.
    { apply emits_fetch. intros r. left. reflexivity. }
    intros connectResponse.
    destruct (negb (ok connectResponse)); [apply emits_throw|].
    apply emits_bind; [apply emits_Date_now; exact (fun _ => I)|].
    intros now.
    apply emits_bind.
    { apply emits_fetch. intros r. right. reflexivity. }
    intros sessionResponse.
    apply emits_bind.
    { destruct (negb (ok sessionResponse)); [|apply emits_ret].
      apply emits_bind; [apply emits_response_json|]. intros error.
      apply emits_bind; [apply emits_lift|]. intros e.
      apply emits_bind; [apply emits_lift | intros; apply emits_throw]. }
    intros _.
    apply emits_bind; [|intros; apply emits_set_authenticated].
    destruct (set_cookie sessionResponse) as [setCookie|]; [|apply emits_ret].
    destruct (string_truthy setCookie); [|apply emits_ret].
    destruct (match_session setCookie); [apply emits_set_sessionCookie | apply emits_ret].
  - intros e. destruct (instanceof_ZaphWorkError e); apply emits_throw.
Qed.

(** *** A successful handshake *)

Lemma connect_url_neq_session_url : connect_url <> session_url.
Proof. unfold connect_url, session_url. intros H. apply String.app_inj in H. discriminate H. Qed.


Lemma authenticate_ok w :
  handshake_succeeds ->
  exists wa c1 r1 t c2 r2,
    authenticate env self w = (Return tt, wa)
    /\ authenticated (session wa) = true
    /\ trace wa = EvFetch c2 r2 :: EvNow t :: EvFetch c1 r1 :: trace w
    /\ url c1 = connect_url /\ url c2 = session_url.
Proof.
  intros H.
  unfold authenticate, try_catch, bind at 1, fetch at 1.
  match goal with |- context [server env (trace w) ?c] =>
    destruct (H (trace w) c) as (r1 & E1 & ok1); [left; reflexivity|]; rewrite E1
  end.
  cbv beta iota zeta. rewrite ok1. cbn [negb].
  unfold bind at 1, Date_now at 1. cbv beta iota zeta.
  unfold bind at 1, fetch at 1.
  match goal with |- context [server env ?tr ?c] =>
    destruct (H tr c) as (r2 & E2 & ok2); [right; reflexivity|]; rewrite E2
  end.
  cbv beta iota zeta. rewrite ok2. cbn [negb].
  unfold bind at 1, ret at 1. cbv beta iota zeta.
  unfold bind, ret, set_sessionCookie, set_authenticated.
  destruct (set_cookie r2) as [setCookie|];
    [destruct (string_truthy setCookie); [destruct (match_session setCookie)|]|];
    cbv beta iota zeta;
    (do 6 eexists; split; [reflexivity|];
     split; [reflexivity|]; split; [reflexivity|]; split; reflexivity).
Qed.

Lemma ensure_authenticated_ok w :
  can_authenticate w ->
  exists wa,
    ensure_authenticated w = (Return tt, wa)
    /\ authenticated (session wa) = true
    /\ (forall u, u <> connect_url -> u <> session_url ->
                  calls_to u (trace wa) = calls_to u (trace w))
    /\ calls_to connect_url (trace wa)
       = (calls_to connect_url (trace w) + handshakes_before w)%nat
    /\ calls_to session_url (trace wa)
       = (calls_to session_url (trace w) + handshakes_before w)%nat
    /\ (length (trace w) <= length (trace wa))%nat.
Proof.
  intros H. unfold ensure_authenticated, handshakes_before.
  destruct (authenticated (session w)) eqn:Ea.
  - exists w. repeat split; auto using Nat.add_0_r.
  - destruct H as [H|H]; [congruence|].
    destruct (authenticate_ok w H) as (wa & c1 & r1 & t & c2 & r2 & E & Ha & Et & U1 & U2).
    exists wa. split; [exact E|]. split; [exact Ha|].
    rewrite Et. cbn [calls_to length]. rewrite U1, U2.
    pose proof connect_url_neq_session_url as Hne.
    repeat split.
    + intros u Hu1 Hu2.
      apply String.eqb_neq in Hu1, Hu2.
      rewrite String.eqb_sym in Hu1. rewrite String.eqb_sym in Hu2.
      rewrite Hu1, Hu2. reflexivity.
    + rewrite String.eqb_refl.
      assert (String.eqb session_url connect_url = false) as ->
          by (apply String.eqb_neq; congruence).
      lia.
    + rewrite String.eqb_refl.
      assert (String.eqb connect_url session_url = false) as ->
          by (apply String.eqb_neq; congruence).
      lia.
    + lia.
Qed.

(** *** Requests on the session path *)


Lemma request_401_forever fuel : forall endpoint options w,
  routes_to_x402 endpoint = false ->
  handshake_succeeds ->
  (forall tr c, url c = apiUrl self ++ endpoint ->
                exists r, server env tr c = Resolved r /\ status r = 401) ->
  fst (request env self fuel endpoint options w) = OutOfFuel.
Proof.
  induction fuel as [|fuel IH]; intros endpoint options w Hroute Hs H401;
    rewrite request_eq, Hroute;
    destruct (ensure_authenticated_ok w (or_intror Hs)) as (wa & Ea & _);
    rewrite Ea; cbv zeta;
    match goal with |- context [server env ?tr ?c] =>
      destruct (H401 tr c eq_refl) as (r & Er & S401); rewrite Er
    end;
    apply Z.eqb_eq in S401; rewrite S401.
  - reflexivity.
  - apply IH; assumption.
Qed.

Lemma requestWithX402Payment_emits (Q : Event -> Prop) endpoint options :
  (forall c r, endpoint_event endpoint options (EvFetch c r) -> Q (EvFetch c r)) ->
  emits Q (requestWithX402Payment env self endpoint options).
Proof.
  intros HQ. unfold requestWithX402Payment.
  apply emits_bind.
  { apply emits_fetch. intros r. apply HQ. repeat split. }
  intros response. destruct (status response =? 402).
  - apply emits_bind; [apply emits_response_json|]. intros paymentInfo.
    apply emits_bind; [apply emits_lift|]. intros payment.
    apply emits_bind; [apply emits_throw|]. intros paymentProof.
    apply emits_bind.
    { apply emits_fetch. intros r. apply HQ. repeat split. }
    intros paidResponse.
    destruct (negb (ok paidResponse));
      [apply emits_throw_api_error | apply emits_response_json].
  - destruct (negb (ok response));
      [apply emits_throw_api_error | apply emits_response_json].
Qed.

Lemma request_emits fuel endpoint options :
  emits (fun ev => handshake_event ev \/ endpoint_event endpoint options ev)
        (request env self fuel endpoint options).
Proof.
  induction fuel as [|fuel IH]; simpl request;
    (destruct (String.prefix "/api/x402/" endpoint && useX402 self);
     [apply requestWithX402Payment_emits; intros; right; assumption|]);
    (apply emits_bind; [apply emits_get_session|]; intros s);
    (apply emits_bind;
     [destruct (negb (authenticated s));
      [eapply emits_weaken; [|apply authenticate_emits]; intros; left; assumption
      |apply emits_ret]|]; intros _);
    (apply emits_bind; [apply emits_get_session|]; intros s');
    (apply emits_bind; [apply emits_fetch; intros r; right; repeat split|]; intros response);
    (destruct (status response =? 401);
     [|destruct (negb (ok response));
       [apply emits_throw_api_error | apply emits_response_json]]);
    (apply emits_bind; [apply emits_set_authenticated|]; intros _);
    (apply emits_bind; [apply emits_set_sessionCookie|]; intros _).
  - apply emits_out_of_fuel.
  - exact IH.
Qed.

(** *** The payment path *)

Lemma requestWithX402Payment_eq endpoint options w :
  requestWithX402Payment env self endpoint options w =
  let c := endpoint_call self endpoint options (with_json_headers options) in
  match server env (trace w) c with
  | Rejected e => (Throw (Native e), log (EvFetch c (Rejected e)) w)
  | Resolved r =>
      let wf := log (EvFetch c (Resolved r)) w in
      if status r =? 402 then (Throw (payment_failure r), wf)
      else (outcome_of r, wf)
  end.
Proof.
  unfold requestWithX402Payment, bind at 1, fetch at 1. cbv zeta.
  destruct (server env (trace w) _) as [e|r]; [reflexivity|].
  cbv beta iota.
  destruct (status r =? 402).
  - unfold payment_failure, bind, response_json, lift, makeX402Payment, throw, ret.
    destruct (body r) as [j|e]; [|reflexivity].
    destruct (get_prop (Some j) "payment"); reflexivity.
  - apply conclude_eq.
Qed.

(** *** What the task-creation methods put on the wire *)

Lemma emits_bind_ret {A B} Q (a : A) (k : A -> M B) :
  emits Q (k a) -> emits Q (bind (ret a) k).
Proof. intros H w. exact (H w). Qed.

Lemma emits_bind_throw {A B} Q e (k : A -> M B) : emits Q (bind (throw e) k).
Proof. intros w. exists []. split; [reflexivity | constructor]. Qed.

Lemma createTask_emits fuel params :
  emits (fun ev => handshake_event ev \/ sends (task_payload "payment_amount" params) ev)
        (createTask env self fuel params).
Proof.
  unfold createTask, deadline_toISOString.
  destruct params as [ti de ca pa cu dl wn]; cbn [deadline title description category
    paymentAmount currency workersNeeded].
  destruct dl as [[[t|]]|];
    [apply emits_bind_ret | apply emits_bind_throw | apply emits_bind_ret].
  all: apply emits_bind; [|intros; apply emits_lift].
  all: eapply emits_weaken; [|apply request_emits].
  all: intros [c r| |]; cbn [endpoint_event sends]; try tauto.
  all: intros [H|(_ & Hm & Hb)]; [left; exact H | right; split; assumption].
Qed.

Lemma createTaskX402_emits params :
  emits (sends (task_payload "payment_per_task" params))
        (createTaskX402 env self params).
Proof.
  unfold createTaskX402, deadline_toISOString.
  destruct params as [ti de ca pa cu dl wn]; cbn [deadline title description category
    paymentAmount currency workersNeeded].
  destruct dl as [[[t|]]|];
    [apply emits_bind_ret | apply emits_bind_throw | apply emits_bind_ret].
  all: apply emits_bind; [|intros; apply emits_lift].
  all: apply requestWithX402Payment_emits.
  all: intros c r (_ & Hm & Hb); split; assumption.
Qed.

Lemma task_payload_keys params :
  obj_get "payment_amount" (task_fields_before params) = None
  /\ obj_get "payment_per_task" (task_fields_before params) = None
  /\ obj_get "payment_amount" (task_fields_after params) = None
  /\ obj_get "payment_per_task" (task_fields_after params) = None.
Proof.
  unfold task_fields_before, task_fields_after, deadline_field.
  destruct (deadline params) as [[[t|]]|]; repeat split; reflexivity.
Qed.

(** *** Polling *)

Lemma task_endpoint_not_x402 taskId : routes_to_x402 ("/api/tasks/" ++ taskId) = false.
Proof. reflexivity. Qed.

Lemma ok_not_401 r : ok r = true -> (status r =? 401) = false.
Proof. unfold ok. intros H. apply andb_true_iff in H as [_ H]. lia. Qed.

Lemma task_url_not_handshake taskId :
  task_url taskId <> connect_url /\ task_url taskId <> session_url.
Proof.
  unfold task_url, connect_url, session_url.
  split; intros H; apply String.app_inj in H; discriminate H.
Qed.

(** One [getTask], handshake included when the session needs one: [wa] is
    the world in which the task is fetched. *)
Lemma getTask_step rfuel taskId w :
  can_authenticate w ->
  exists wa,
    authenticated (session wa) = true
    /\ calls_to (task_url taskId) (trace wa) = calls_to (task_url taskId) (trace w)
    /\ (length (trace w) <= length (trace wa))%nat
    /\ forall task st,
         delivers (server env (trace wa) (getTask_call taskId wa)) task st ->
         getTask env self rfuel taskId w = (Return task, polled taskId wa).
Proof.
  intros Hc.
  destruct (ensure_authenticated_ok w Hc) as (wa & Ea & Ha & Hother & _ & _ & Hlen).
  exists wa. split; [exact Ha|].
  split; [apply Hother; apply task_url_not_handshake|].
  split; [exact Hlen|].
  intros task st (r & j & Er & Hok & Hb & Ht & _).
  unfold getTask, bind, polled.
  rewrite request_eq, task_endpoint_not_x402, Ea. cbv zeta.
  fold (getTask_call taskId wa). rewrite Er, (ok_not_401 r Hok), conclude_eq.
  unfold outcome_of. rewrite Hok, Hb, Ht. reflexivity.
Qed.

Section Loop.
Variables (rfuel : nat) (taskId targetStatus : string).
Variables (timeoutMs pollIntervalMs startTime : Z).

Let loop (fuel : nat) : M JsValue :=
  waitForTaskStatus_loop env self fuel rfuel taskId targetStatus
                         timeoutMs pollIntervalMs startTime.

Lemma loop_deadline fuel w :
  (clock env (trace w) - startTime <? timeoutMs) = false ->
  loop fuel w = (Throw (timeout_error taskId targetStatus), after_check w).
Proof.
  intros H. unfold loop.
  destruct fuel; simpl waitForTaskStatus_loop; unfold bind at 1, Date_now at 1;
    cbv beta iota zeta; rewrite H; reflexivity.
Qed.

(** One turn of the loop before the deadline: the task is fetched in [wa];
    a match ends the loop there, anything else leads to the sleep and the
    next turn. *)
Lemma loop_iteration fuel w :
  can_authenticate w ->
  (clock env (trace w) - startTime <? timeoutMs) = true ->
  exists wa,
    authenticated (session wa) = true
    /\ calls_to (task_url taskId) (trace wa) = calls_to (task_url taskId) (trace w)
    /\ (length (trace w) < length (trace wa))%nat
    /\ forall task st,
         delivers (server env (trace wa) (getTask_call taskId wa)) task st ->
         (status_is st targetStatus = true ->
          loop fuel w = (Return task, polled taskId wa))
         /\ (status_is st targetStatus = false ->
             loop (S fuel) w
             = loop fuel (log (EvSleep pollIntervalMs) (polled taskId wa))).
Proof.
  intros Hc H.
  destruct (getTask_step rfuel taskId (after_check w)) as (wa & Ha & Hcount & Hlen & Hget).
  { destruct Hc as [Hc|Hc]; [left; exact Hc | right; exact Hc]. }
  exists wa. split; [exact Ha|]. split; [exact Hcount|].
  split; [cbn [after_check log trace length] in Hlen; lia|].
  intros task st Hd.
  pose proof (Hget task st Hd) as Eget.
  pose proof Hd as (r & j & _ & _ & _ & _ & Hs).
  split; intros Hst; unfold loop.
  - destruct fuel; simpl waitForTaskStatus_loop; unfold bind at 1, Date_now at 1;
      cbv beta iota zeta; rewrite H; unfold bind at 1;
      fold (after_check w); rewrite Eget;
      unfold bind at 1; rewrite Hs; cbn [lift]; unfold ret at 1;
      rewrite Hst; reflexivity.
  - simpl waitForTaskStatus_loop; unfold bind at 1, Date_now at 1;
      cbv beta iota zeta; rewrite H; unfold bind at 1;
      fold (after_check w); rewrite Eget;
      unfold bind at 1; rewrite Hs; cbn [lift]; unfold ret at 1;
      rewrite Hst; reflexivity.
Qed.

Lemma loop_returns n : forall fuel w K task,
  can_authenticate w ->
  reaches_status_at taskId targetStatus K task ->
  (forall tr, (calls_to (task_url taskId) tr <= K)%nat ->
              clock env tr - startTime < timeoutMs) ->
  (calls_to (task_url taskId) (trace w) + n)%nat = K ->
  (n <= fuel)%nat ->
  exists w' c answer rest,
    loop fuel w = (Return task, w')
    /\ trace w' = EvFetch c answer :: rest
    /\ url c = task_url taskId
    /\ calls_to (task_url taskId) (trace w') = S K.
Proof.
  induction n as [|n IH]; intros fuel w K task Hc Hr Hclock Hn Hfuel.
  - assert ((clock env (trace w) - startTime <? timeoutMs) = true) as Hchk
        by (apply Z.ltb_lt, Hclock; lia).
    destruct (loop_iteration fuel w Hc Hchk) as (wa & Ha & Hcount & _ & Hstep).
    destruct (Hr (trace wa) (getTask_call taskId wa) eq_refl) as [_ Hat].
    destruct Hat as (st & Hd & Hst); [lia|].
    destruct (Hstep task st Hd) as [Hret _].
    exists (polled taskId wa), (getTask_call taskId wa),
      (server env (trace wa) (getTask_call taskId wa)), (trace wa).
    split; [exact (Hret Hst)|].
    split; [reflexivity|]. split; [reflexivity|].
    cbn [polled log trace calls_to].
    change (url (getTask_call taskId wa)) with (task_url taskId).
    rewrite String.eqb_refl. lia.
  - assert ((clock env (trace w) - startTime <? timeoutMs) = true) as Hchk
        by (apply Z.ltb_lt, Hclock; lia).
    destruct fuel as [|fuel]; [lia|].
    destruct (loop_iteration fuel w Hc Hchk) as (wa & Ha & Hcount & _ & Hstep).
    destruct (Hr (trace wa) (getTask_call taskId wa) eq_refl) as [Hbefore _].
    destruct Hbefore as (task' & st & Hd & Hst); [lia|].
    destruct (Hstep task' st Hd) as [_ Hcont].
    rewrite (Hcont Hst).
    apply IH; try assumption.
    + left. exact Ha.
    + cbn [polled log trace calls_to].
      change (url (getTask_call taskId wa)) with (task_url taskId).
      rewrite String.eqb_refl. lia.
    + lia.
Qed.

End Loop.

(** *** Main results *)

Lemma request_routes fuel endpoint options w :
  request env self fuel endpoint options w =
  if routes_to_x402 endpoint then requestWithX402Payment env self endpoint options w
  else session_path fuel endpoint options w.
Proof. apply request_eq. Qed.

Lemma outcome_of_failure r :
  ok r = false ->
  outcome_of r = match api_error_message r with
                 | inl e => Throw e
                 | inr msg => Throw (api_error r msg)
                 end.
Proof.
  intros Hok. unfold outcome_of, api_error, api_error_message. rewrite Hok.
  destruct (body r) as [j|e] eqn:Eb; [|reflexivity].
  destruct j as [|b|x|s|items|fields]; try reflexivity.
  cbn [get_prop]. unfold js_or.
  destruct (obj_get "error" fields) as [e|]; [|reflexivity].
  destruct (truthy (Some e)); [|reflexivity].
  destruct (ToString e); reflexivity.
Qed.

Lemma outcome_of_error r msg :
  ok r = false -> api_error_message r = inr msg -> outcome_of r = Throw (api_error r msg).
Proof. intros Hok E. rewrite (outcome_of_failure r Hok), E. reflexivity. Qed.

(** The message, case by case. *)
Lemma api_error_message_cases r :
  (forall e, body r = Malformed e -> api_error_message r = inr "Unknown error")
  /\ (forall fields s,
         body r = Parsed (JObj fields) -> obj_get "error" fields = Some (JStr s) -> s <> "" ->
         api_error_message r = inr s)
  /\ (forall fields,
         body r = Parsed (JObj fields) -> obj_get "error" fields = None ->
         api_error_message r = inr ("Request failed: " ++ statusText r))
  /\ (forall fields e,
         body r = Parsed (JObj fields) -> obj_get "error" fields = Some e ->
         truthy (Some e) = false ->
         api_error_message r = inr ("Request failed: " ++ statusText r))
  /\ (forall j,
         body r = Parsed j -> j <> JNull -> (forall fields, j <> JObj fields) ->
         api_error_message r = inr ("Request failed: " ++ statusText r))
  /\ (forall fields inner v,
         body r = Parsed (JObj fields) -> obj_get "error" fields = Some (JObj inner) ->
         obj_get "toString" inner = Some v ->
         api_error_message r
         = inl (Native {| native_name := "TypeError";
                          native_message := "Cannot convert object to primitive value" |}))
  /\ (body r = Parsed JNull ->
      api_error_message r
      = inl (Native {| native_name := "TypeError";
                       native_message := "Cannot read properties of null (reading 'error')" |})).
Proof.
  unfold api_error_message.
  split; [|split; [|split; [|split; [|split; [|split]]]]].
  - intros e ->. reflexivity.
  - intros fields s -> -> Hs. cbn [truthy]. unfold string_truthy.
    apply String.eqb_neq in Hs. rewrite Hs. reflexivity.
  - intros fields -> ->. reflexivity.
  - intros fields e -> -> Ht. rewrite Ht. reflexivity.
  - intros j -> Hn Ho. destruct j; try reflexivity; [congruence|].
    exfalso. eapply Ho. reflexivity.
  - intros fields inner v -> -> Hv. cbn [truthy]. unfold ToString. cbn [js_toString].
    rewrite Hv. reflexivity.
  - intros ->. reflexivity.
Qed.

(** C3. When the first, unauthenticated call of [requestWithX402Payment]
    is answered with status 402, the operation throws: the payment-proof
    constructor throws its "not implemented" error whatever the challenge,
    so the only other ways out are the failures of reading the challenge
    from the body. *)
Theorem payment_required_always_fails endpoint options w r :
  server env (trace w) (endpoint_call self endpoint options (with_json_headers options))
  = Resolved r ->
  status r = 402 ->
  (forall challenge w0, makeX402Payment challenge w0 = (Throw not_implemented, w0))
  /\ (exists e w', requestWithX402Payment env self endpoint options w = (Throw e, w')
                   /\ (forall j, body r = Parsed j -> j <> JNull -> e = not_implemented)).
Proof.
  intros Es H402. split; [reflexivity|].
  exists (payment_failure r),
    (log (EvFetch (endpoint_call self endpoint options (with_json_headers options))
                  (Resolved r)) w).
  split.
  - rewrite requestWithX402Payment_eq. cbv zeta. rewrite Es.
    apply Z.eqb_eq in H402. rewrite H402. reflexivity.
  - intros j Hb Hj. unfold payment_failure. rewrite Hb.
    destruct j; try reflexivity; congruence.
Qed.

Lemma with_json_headers_cookie options :
  with_json_headers options !! "Cookie" = default ∅ (headers options) !! "Cookie".
Proof.
  unfold with_json_headers, json_headers.
  rewrite lookup_union, lookup_singleton_ne by discriminate.
  destruct (default ∅ (headers options) !! "Cookie"); reflexivity.
Qed.

Lemma requestWithX402Payment_keeps_cookie_header endpoint options :
  emits (keeps_cookie_header options) (requestWithX402Payment env self endpoint options).
Proof.
  unfold requestWithX402Payment.
  apply emits_bind.
  { apply emits_fetch. intros r. apply with_json_headers_cookie. }
  intros response. destruct (status response =? 402).
  - apply emits_bind; [apply emits_response_json|]. intros paymentInfo.
    apply emits_bind; [apply emits_lift|]. intros payment.
    apply emits_bind; [apply emits_throw|]. intros paymentProof.
    apply emits_bind.
    { apply emits_fetch. intros r. cbn [keeps_cookie_header endpoint_call call_headers].
      rewrite lookup_union.
      rewrite !lookup_insert_ne by discriminate.
      unfold json_headers. rewrite lookup_singleton_ne by discriminate.
      destruct (default ∅ (headers options) !! "Cookie"); reflexivity. }
    intros paidResponse.
    destruct (negb (ok paidResponse));
      [apply emits_throw_api_error | apply emits_response_json].
  - destruct (negb (ok response));
      [apply emits_throw_api_error | apply emits_response_json].
Qed.

(** C7. [requestWithX402Payment] adds no [Cookie] header to any call it
    makes (a call carries one only if the caller's own headers do, and
    none of the SDK's callers passes headers); what it sends and what it
    returns do not depend on the session state; it leaves the session
    state as it found it, however it ends; and as long as the proof
    constructor throws, the one call it makes has the caller's headers
    and the JSON content type, nothing else. *)
Theorem x402_path_is_unauthenticated endpoint options w :
  session (snd (requestWithX402Payment env self endpoint options w)) = session w
  /\ (exists new,
         trace (snd (requestWithX402Payment env self endpoint options w))
         = (new ++ trace w)%list
         /\ Forall (keeps_cookie_header options) new
         /\ (headers options = None ->
             Forall (fun ev => match ev with
                               | EvFetch c _ => call_headers c !! "Cookie" = None
                               | _ => True
                               end) new))
  /\ (forall s,
         fst (requestWithX402Payment env self endpoint options
                                     {| session := s; trace := trace w |})
         = fst (requestWithX402Payment env self endpoint options w)
         /\ trace (snd (requestWithX402Payment env self endpoint options
                                               {| session := s; trace := trace w |}))
            = trace (snd (requestWithX402Payment env self endpoint options w)))
  /\ (exists a,
         trace (snd (requestWithX402Payment env self endpoint options w))
         = EvFetch (endpoint_call self endpoint options (with_json_headers options)) a
           :: trace w).
Proof.
  split; [|split; [|split]].
  - rewrite requestWithX402Payment_eq. cbv zeta.
    destruct (server env (trace w) _) as [e|r]; [reflexivity|].
    destruct (status r =? 402); reflexivity.
  - destruct (requestWithX402Payment_keeps_cookie_header endpoint options w)
      as (new & Et & HF).
    exists new. split; [exact Et|]. split; [exact HF|].
    intros Hnone. eapply Forall_impl; [exact HF|].
    intros [c r| |]; cbn [keeps_cookie_header]; auto.
    rewrite Hnone. cbn [default]. rewrite lookup_empty. auto.
  - intros s. rewrite !requestWithX402Payment_eq. cbv zeta. cbn [trace].
    destruct (server env (trace w) _) as [e|r]; [split; reflexivity|].
    destruct (status r =? 402); split; reflexivity.
  - rewrite requestWithX402Payment_eq. cbv zeta.
    destruct (server env (trace w) _) as [e|r]; [eexists; reflexivity|].
    destruct (status r =? 402); eexists; reflexivity.
Qed.

(** C10. On a client whose network is not devnet, [claimFaucet] throws a
    [ValidationError] and leaves the world exactly as it was: no call is
    made and the session state is untouched. *)
Theorem claimFaucet_is_devnet_only fuel w :
  network self <> devnet ->
  claimFaucet env self fuel w
  = (Throw (Zaph {| name := "ValidationError";
                    message := "Faucet is only available on devnet";
                    statusCode := Some 400 |}), w).
Proof.
  intros H. unfold claimFaucet. destruct (network self); [congruence | reflexivity].
Qed.

Lemma ensure_authenticated_extends w :
  exists hs, trace (snd (ensure_authenticated w)) = (hs ++ trace w)%list.
Proof.
  unfold ensure_authenticated. destruct (authenticated (session w)).
  - exists []. reflexivity.
  - destruct (authenticate_emits w) as (hs & E & _). exists hs. exact E.
Qed.

(** On the session path, with a session that is live or can be
    established, the endpoint is called at least once. *)
Lemma request_calls_endpoint fuel endpoint options w :
  can_authenticate w ->
  routes_to_x402 endpoint = false ->
  exists new c a,
    trace (snd (request env self fuel endpoint options w)) = (new ++ trace w)%list
    /\ In (EvFetch c a) new
    /\ endpoint_event endpoint options (EvFetch c a).
Proof.
  intros Hc Hroute. rewrite request_eq, Hroute.
  destruct (ensure_authenticated_ok w Hc) as (wa & Ea & _).
  destruct (ensure_authenticated_extends w) as (hs & Ehs).
  rewrite Ea in *. cbn [snd] in Ehs. cbv zeta.
  set (c := endpoint_call self endpoint options (cookie_headers options (session wa))).
  assert (forall a (w' : World) more,
             trace w' = (more ++ EvFetch c a :: trace wa)%list ->
             exists new c0 a0,
               trace w' = (new ++ trace w)%list
               /\ In (EvFetch c0 a0) new
               /\ endpoint_event endpoint options (EvFetch c0 a0)) as Hdone.
  { intros a w' more E. exists (more ++ EvFetch c a :: hs)%list, c, a.
    split; [rewrite E, Ehs, <- app_assoc; reflexivity|].
    split; [apply in_or_app; right; left; reflexivity|].
    repeat split. }
  destruct (server env (trace wa) c) as [e|r] eqn:Es.
  - apply (Hdone (Rejected e) _ []). reflexivity.
  - destruct (status r =? 401).
    + destruct fuel as [|fuel].
      * apply (Hdone (Resolved r) _ []). reflexivity.
      * destruct (request_emits fuel endpoint options
                    (clear_session (log (EvFetch c (Resolved r)) wa))) as (more & E & _).
        apply (Hdone (Resolved r) _ more). exact E.
    + rewrite conclude_eq. apply (Hdone (Resolved r) _ []). reflexivity.
Qed.

(** The payment path always calls the endpoint first. *)
Lemma requestWithX402Payment_calls_endpoint endpoint options w :
  exists c a,
    trace (snd (requestWithX402Payment env self endpoint options w))
    = EvFetch c a :: trace w
    /\ endpoint_event endpoint options (EvFetch c a).
Proof.
  rewrite requestWithX402Payment_eq. cbv zeta.
  set (c := endpoint_call self endpoint options (with_json_headers options)).
  destruct (server env (trace w) c) as [e|r].
  - exists c, (Rejected e). split; [reflexivity | repeat split].
  - exists c, (Resolved r). split; [|repeat split].
    destruct (status r =? 402); reflexivity.
Qed.

Lemma bind_lift_trace {A B} (m : M A) (f : A -> Exn + B) w :
  trace (snd (bind m (fun a => lift (f a)) w)) = trace (snd (m w)).
Proof.
  unfold bind. destruct (m w) as [[a|e|] w1]; try reflexivity.
  destruct (f a); reflexivity.
Qed.

Lemma createTask_calls fuel params w :
  can_authenticate w ->
  deadline params <> Some {| time_value := None |} ->
  exists new c a,
    trace (snd (createTask env self fuel params w)) = (new ++ trace w)%list
    /\ In (EvFetch c a) new
    /\ sends (task_payload "payment_amount" params) (EvFetch c a).
Proof.
  intros Hc Hd. unfold createTask, deadline_toISOString.
  destruct params as [ti de ca pa cu dl wn]; cbn [deadline title description category
    paymentAmount currency workersNeeded] in *.
  destruct dl as [[[t|]]|]; [| congruence |].
  all: change (bind (ret ?x) ?k) with (k x); cbv beta.
  all: rewrite bind_lift_trace.
  all: destruct (routes_to_x402 (if useX402 self then "/api/x402/tasks"
                                 else "/api/tasks/create")) eqn:Hroute.
  all: try (rewrite request_eq, Hroute;
            match goal with |- context [requestWithX402Payment env self ?ep ?o _] =>
              destruct (requestWithX402Payment_calls_endpoint ep o w)
                as (c & a & E & _ & Hm & Hb)
            end;
            exists [EvFetch c a], c, a;
            split; [exact E|]; split; [left; reflexivity|]; split; assumption).
  all: match goal with |- context [request env self _ ?ep ?o _] =>
         destruct (request_calls_endpoint fuel ep o w Hc Hroute)
           as (new & c & a & E & Hin & _ & Hm & Hb)
       end;
       exists new, c, a; split; [exact E|]; split; [exact Hin|]; split; assumption.
Qed.

Lemma createTaskX402_calls params w :
  deadline params <> Some {| time_value := None |} ->
  exists c a,
    trace (snd (createTaskX402 env self params w)) = EvFetch c a :: trace w
    /\ sends (task_payload "payment_per_task" params) (EvFetch c a).
Proof.
  intros Hd. unfold createTaskX402, deadline_toISOString.
  destruct params as [ti de ca pa cu dl wn]; cbn [deadline title description category
    paymentAmount currency workersNeeded] in *.
  destruct dl as [[[t|]]|]; [| congruence |].
  all: change (bind (ret ?x) ?k) with (k x); cbv beta.
  all: rewrite bind_lift_trace.
  all: match goal with |- context [requestWithX402Payment env self ?ep ?o _] =>
         destruct (requestWithX402Payment_calls_endpoint ep o w)
           as (c & a & E & _ & Hm & Hb)
       end;
       exists c, a; split; [exact E|]; split; assumption.
Qed.

(** C6. [createTask] and [createTaskX402] send the same document except
    for the name of one field: the payment amount travels as
    [payment_amount] in the first and as [payment_per_task] in the
    second, in the same place, and neither document has the other's
    field.  Every call either method makes besides the handshake carries
    its document, and with a usable deadline the call is made. *)
Theorem createTask_and_createTaskX402_differ_in_one_key fuel params w :
  (exists new,
      trace (snd (createTask env self fuel params w)) = (new ++ trace w)%list
      /\ Forall (fun ev => handshake_event ev
                           \/ sends (JObj (task_fields_before params
                                           ++ ("payment_amount",
                                               JSON_number (paymentAmount params))
                                           :: task_fields_after params)%list) ev) new)
  /\ (exists new,
        trace (snd (createTaskX402 env self params w)) = (new ++ trace w)%list
        /\ Forall (sends (JObj (task_fields_before params
                                ++ ("payment_per_task",
                                    JSON_number (paymentAmount params))
                                :: task_fields_after params)%list)) new)
  /\ obj_get "payment_amount" (task_fields_before params) = None
  /\ obj_get "payment_per_task" (task_fields_before params) = None
  /\ obj_get "payment_amount" (task_fields_after params) = None
  /\ obj_get "payment_per_task" (task_fields_after params) = None
  /\ (deadline params <> Some {| time_value := None |} ->
      (can_authenticate w ->
       exists new c a,
         trace (snd (createTask env self fuel params w)) = (new ++ trace w)%list
         /\ In (EvFetch c a) new
         /\ sends (task_payload "payment_amount" params) (EvFetch c a))
      /\ (exists c a,
            trace (snd (createTaskX402 env self params w)) = EvFetch c a :: trace w
            /\ sends (task_payload "payment_per_task" params) (EvFetch c a))).
Proof.
  split; [exact (createTask_emits fuel params w)|].
  split; [exact (createTaskX402_emits params w)|].
  destruct (task_payload_keys params) as (H1 & H2 & H3 & H4).
  repeat (split; [assumption|]).
  intros Hd. split.
  - intros Hc. apply createTask_calls; assumption.
  - apply createTaskX402_calls; assumption.
Qed.

End Theory.

(** ** Results about more than one client, and about construction *)

Section Routing.
Context {P : Platform}.
Variable env : Environment.

Lemma request_ignores_useX402 self fuel : forall endpoint options w,
  String.prefix "/api/x402/" endpoint = false ->
  request env (with_useX402 true self) fuel endpoint options w
  = request env (with_useX402 false self) fuel endpoint options w.
Proof.
  induction fuel as [|fuel IH]; intros endpoint options w Hp;
    rewrite !request_eq; unfold routes_to_x402; rewrite Hp; cbn [andb];
    change (ensure_authenticated env (with_useX402 true self) w)
      with (ensure_authenticated env (with_useX402 false self) w);
    destruct (ensure_authenticated env (with_useX402 false self) w) as [[[]|e|] wa];
    try reflexivity; cbv zeta;
    change (endpoint_call (with_useX402 true self)) with
           (endpoint_call (with_useX402 false self));
    destruct (server env (trace wa) _) as [e|r]; try reflexivity;
    destruct (status r =? 401); try reflexivity.
  apply IH. exact Hp.
Qed.

(** C5. For an endpoint outside [/api/x402/] the flag makes no difference
    to [request]; [request] hands over to [requestWithX402Payment] when
    the endpoint is under the prefix and the flag is set, and otherwise
    takes the session path: handshake if the session is not
    authenticated, the cookie header, and the retry on 401. *)
Theorem x402_routing self fuel endpoint options w :
  (String.prefix "/api/x402/" endpoint = false ->
   request env (with_useX402 true self) fuel endpoint options w
   = request env (with_useX402 false self) fuel endpoint options w)
  /\ (String.prefix "/api/x402/" endpoint = true /\ useX402 self = true ->
      request env self fuel endpoint options w
      = requestWithX402Payment env self endpoint options w)
  /\ (~ (String.prefix "/api/x402/" endpoint = true /\ useX402 self = true) ->
      request env self fuel endpoint options w
      = session_path env self fuel endpoint options w).
Proof.
  split; [apply request_ignores_useX402|].
  split.
  - intros [Hp Hu]. rewrite request_routes. unfold routes_to_x402. rewrite Hp, Hu.
    reflexivity.
  - intros H. rewrite request_routes. unfold routes_to_x402.
    destruct (String.prefix "/api/x402/" endpoint), (useX402 self);
      try reflexivity. exfalso. apply H. split; reflexivity.
Qed.
End Routing.

Section Construction.
Context {P : Platform}.

(** C9. The constructor sends nothing, whatever the configuration: the
    trace is the one it started with.  With a private key that is not well
    formed it throws a [ValidationError]. *)
Theorem constructor_rejects_malformed_key config w :
  trace (snd (constructor config w)) = trace w
  /\ (~ well_formed_key (cfg_privateKey config) ->
      fst (constructor config w)
      = Throw (Zaph {| name := "ValidationError";
                       message := "Invalid private key format. Expected base58-encoded string.";
                       statusCode := Some 400 |})).
Proof.
  unfold constructor, bind, set_sessionCookie, set_authenticated.
  cbv beta iota zeta.
  destruct (bs58_decode (cfg_privateKey config)) as [sk|] eqn:Ed.
  - destruct (Keypair_fromSecretKey sk) as [kp|] eqn:Ek.
    + split; [reflexivity|]. intros H. exfalso. apply H. exists sk, kp. split; assumption.
    + split; reflexivity.
  - split; reflexivity.
Qed.
End Construction.

(** ** Concrete runs: witnesses and counterexamples *)

Module Runs.
Import Fixture.

Lemma scripted_handshake script last clk :
  handshake_succeeds {| server := scripted script last; clock := clk |} client.
Proof.
  intros tr c [H|H]; cbn [server]; unfold scripted; rewrite H.
  - eexists. split; reflexivity.
  - eexists. split; reflexivity.
Qed.

Lemma scripted_balance script last tr c :
  url c = balance_url ->
  scripted script last tr c = nth (calls_to balance_url tr) script last.
Proof. intros H. unfold scripted. rewrite H. reflexivity. Qed.

Lemma scripted_task script last tr c :
  url c = task1_url ->
  scripted script last tr c = nth (calls_to task1_url tr) script last.
Proof. intros H. unfold scripted. rewrite H. reflexivity. Qed.

(** *** C1 *)



(** A server that never stops answering 401 uses up whatever depth of
    recursion [request] is given. *)
Lemma always_unauthorized_never_returns fuel :
  fst (request always_unauthorized client fuel balance no_options fresh) = OutOfFuel.
Proof.
  apply request_401_forever.
  - reflexivity.
  - apply scripted_handshake.
  - intros tr c Hu. cbn [server always_unauthorized].
    change (apiUrl client ++ balance) with balance_url in Hu.
    rewrite (scripted_balance _ _ _ _ Hu).
    destruct (calls_to balance_url tr); eexists; split; reflexivity.
Qed.

(** *** C2 *)

(** C2, counterexample. The body of a 500 answer is not JSON; the message
    of the error is "Unknown error", not the status line. *)
Lemma unparseable_body_gives_unknown_error :
  exists e,
    fst (request broken client 0 balance no_options logged_in) = Throw (Zaph e)
    /\ statusCode e = Some 500
    /\ message e = "Unknown error"
    /\ message e <> "Request failed: " ++ statusText broken_response
    /\ message e <> statusText broken_response.
Proof.
  eexists. split; [vm_compute; reflexivity|].
  cbn [statusCode message]. repeat split; discriminate.
Qed.

(** *** C3 *)

(** C3, witness: a server that asks for payment on every call. *)
Lemma payment_required_always_fails_witness :
  (forall challenge w0, makeX402Payment challenge w0 = (Throw not_implemented, w0))
  /\ (exists e w',
         requestWithX402Payment paywalled x402_client "/api/x402/tasks" no_options fresh
         = (Throw e, w')
         /\ (forall j, body payment_required_response = Parsed j -> j <> JNull ->
                       e = not_implemented)).
Proof.
  apply (payment_required_always_fails paywalled x402_client "/api/x402/tasks" no_options
                                       fresh payment_required_response);
    reflexivity.
Defined.

(** *** C4 *)


Lemma becomes_completed_reaches :
  reaches_status_at becomes_completed client "t1" "completed" 2
                    (Some (task_json "completed")).
Proof.
  intros tr c Hu. change (task_url client "t1") with task1_url in *.
  cbn [server becomes_completed]. rewrite (scripted_task _ _ _ _ Hu). split.
  - intros Hlt. exists (Some (task_json "open")), (Some (JStr "open")).
    split; [|reflexivity].
    exists (task_response "open"), (JObj [("task", task_json "open")]).
    destruct (calls_to task1_url tr) as [|[|n]]; [| |lia]; repeat split.
  - intros ->. exists (Some (JStr "completed")).
    split; [|reflexivity].
    exists (task_response "completed"), (JObj [("task", task_json "completed")]).
    repeat split.
Qed.


(** *** C5 *)

(** C5, witness: an endpoint off the prefix, one under it with the flag
    set, and one under it with the flag unset. *)
Lemma x402_routing_witness :
  request broken (with_useX402 true client) 1 balance no_options fresh
  = request broken (with_useX402 false client) 1 balance no_options fresh
  /\ request paywalled x402_client 1 "/api/x402/tasks" no_options fresh
     = requestWithX402Payment paywalled x402_client "/api/x402/tasks" no_options fresh
  /\ request paywalled client 1 "/api/x402/tasks" no_options fresh
     = session_path paywalled client 1 "/api/x402/tasks" no_options fresh.
Proof.
  split; [|split].
  - apply (proj1 (x402_routing broken client 1 balance no_options fresh)). reflexivity.
  - apply (proj1 (proj2 (x402_routing paywalled x402_client 1 "/api/x402/tasks"
                                      no_options fresh))).
    split; reflexivity.
  - apply (proj2 (proj2 (x402_routing paywalled client 1 "/api/x402/tasks"
                                      no_options fresh))).
    intros [_ H]. discriminate H.
Defined.

(** *** C6 and C8 *)

(** The one call [createTask] makes to its endpoint on a fresh client. *)
Lemma createTask_example_run :
  bodies_to "https://zaph.work/api/tasks/create"
            (trace (snd (createTask accepting client 1 example_params fresh)))
  = [Some (JObj [("title", JStr "t"); ("description", JStr "d"); ("category", JStr "data");
                 ("payment_amount", JNum 5%float); ("currency", JStr "USDC");
                 ("workers_needed", JNum 1%float)])].
Proof. vm_compute. reflexivity. Qed.

(** C6, witness: the same parameters through both methods. *)
Lemma createTask_and_createTaskX402_differ_in_one_key_witness :
  (exists new c a,
      trace (snd (createTask accepting client 1 example_params fresh)) = (new ++ [])%list
      /\ In (EvFetch c a) new
      /\ sends (task_payload "payment_amount" example_params) (EvFetch c a))
  /\ (exists c a,
        trace (snd (createTaskX402 accepting client example_params fresh))
        = [EvFetch c a]
        /\ sends (task_payload "payment_per_task" example_params) (EvFetch c a)).
Proof.
  destruct (proj2 (proj2 (proj2 (proj2 (proj2 (proj2
              (createTask_and_createTaskX402_differ_in_one_key
                 accepting client 1 example_params fresh))))))
              ltac:(discriminate)) as [H1 H2].
  split; [apply H1; right; apply scripted_handshake | exact H2].
Defined.

(** The one call [createTaskX402] makes. *)
Lemma createTaskX402_example_run :
  bodies_to "https://zaph.work/api/x402/tasks"
            (trace (snd (createTaskX402 accepting client example_params fresh)))
  = [Some (JObj [("title", JStr "t"); ("description", JStr "d"); ("category", JStr "data");
                 ("payment_per_task", JNum 5%float); ("currency", JStr "USDC");
                 ("workers_needed", JNum 1%float)])].
Proof. vm_compute. reflexivity. Qed.

(** *** C9 *)

(** A key of the right alphabet and length is accepted. *)
Lemma constructor_accepts_good_key :
  fst (constructor config fresh) = Return client
  /\ snd (constructor config fresh) = fresh.
Proof. vm_compute. split; reflexivity. Qed.

Lemma bad_key_is_malformed : ~ well_formed_key (cfg_privateKey bad_config).
Proof. intros (sk & kp & Hd & _). vm_compute in Hd. discriminate Hd. Qed.

(** C9, witness: a key with characters outside the base58 alphabet. *)
Lemma constructor_rejects_malformed_key_witness :
  ~ well_formed_key (cfg_privateKey bad_config)
  /\ trace (snd (constructor bad_config logged_in)) = trace logged_in
  /\ fst (constructor bad_config logged_in)
     = Throw (Zaph {| name := "ValidationError";
                      message := "Invalid private key format. Expected base58-encoded string.";
                      statusCode := Some 400 |}).
Proof.
  split; [exact bad_key_is_malformed|].
  split.
  - apply (proj1 (constructor_rejects_malformed_key bad_config logged_in)).
  - apply (proj2 (constructor_rejects_malformed_key bad_config logged_in)).
    exact bad_key_is_malformed.
Defined.

(** *** C10 *)

(** C10, witness: a client configured for mainnet-beta. *)
Lemma claimFaucet_is_devnet_only_witness :
  network x402_client <> devnet
  /\ claimFaucet paywalled x402_client 3 logged_in
     = (Throw (Zaph {| name := "ValidationError";
                       message := "Faucet is only available on devnet";
                       statusCode := Some 400 |}), logged_in).
Proof.
  split; [discriminate|].
  apply (claimFaucet_is_devnet_only paywalled x402_client 3 logged_in). discriminate.
Defined.


End Runs.

(** * Further properties of the client *)

(** ** The session cookie *)

(** A cookie value as the pattern [[^;]+] takes it: not empty and without
    a semicolon. *)
Definition cookie_value (v : string) : Prop :=
  v <> "" /\ forall c, In c (list_ascii_of_string v) -> c <> ";"%char.

(** What may follow the value: nothing, or a semicolon and anything. *)
Definition value_end (post : string) : Prop :=
  post = "" \/ exists rest, post = String ";"%char rest.

Lemma append_String a p s : String a p ++ s = String a (p ++ s).
Proof. reflexivity. Qed.

Lemma strip_prefix_app p s : strip_prefix p (p ++ s) = Some s.
Proof.
  induction p as [|a p IH]; [destruct s; reflexivity|].
  rewrite append_String. cbn [strip_prefix]. rewrite Ascii.eqb_refl. exact IH.
Qed.

Lemma strip_prefix_Some p : forall s r, strip_prefix p s = Some r -> s = p ++ r.
Proof.
  induction p as [|a p IH]; intros s r H.
  - destruct s; cbn in H; injection H as <-; reflexivity.
  - destruct s as [|b s]; cbn in H; [discriminate|].
    destruct (Ascii.eqb a b) eqn:E; [|discriminate].
    apply Ascii.eqb_eq in E. subst b. rewrite append_String. f_equal. apply IH. exact H.
Qed.

Lemma until_semicolon_app v post :
  (forall c, In c (list_ascii_of_string v) -> c <> ";"%char) ->
  value_end post ->
  until_semicolon (v ++ post) = v.
Proof.
  intros Hv Hp. induction v as [|a v IH].
  - destruct Hp as [->|(rest & ->)]; reflexivity.
  - rewrite append_String. cbn [until_semicolon].
    destruct (Ascii.eqb a ";") eqn:E.
    + apply Ascii.eqb_eq in E. exfalso. apply (Hv a); [left; reflexivity|exact E].
    + f_equal. apply IH. intros c Hc. apply Hv. right. exact Hc.
Qed.

Lemma until_semicolon_split s :
  exists post,
    s = until_semicolon s ++ post
    /\ value_end post
    /\ forall c, In c (list_ascii_of_string (until_semicolon s)) -> c <> ";"%char.
Proof.
  induction s as [|a s (post & E & Hp & Hv)].
  - exists "". repeat split; [left; reflexivity|intros c []].
  - cbn [until_semicolon]. destruct (Ascii.eqb a ";") eqn:Ea.
    + apply Ascii.eqb_eq in Ea. subst a. exists (String ";" s).
      repeat split; [right; eexists; reflexivity|intros c []].
    + exists post. rewrite append_String. split; [congruence|]. split; [exact Hp|].
      intros c [<-|Hc]; [apply Ascii.eqb_neq; exact Ea|apply Hv; exact Hc].
Qed.

Lemma session_at_Some s v :
  session_at s = Some v ->
  cookie_value v /\ exists post, s = "session=" ++ v ++ post /\ value_end post.
Proof.
  unfold session_at. destruct (strip_prefix "session=" s) as [rest|] eqn:E; [|discriminate].
  destruct (String.eqb (until_semicolon rest) "") eqn:Ev; [discriminate|].
  intros [= <-]. apply String.eqb_neq in Ev.
  destruct (until_semicolon_split rest) as (post & Er & Hp & Hv).
  split; [split; assumption|].
  exists post. split; [|exact Hp].
  apply strip_prefix_Some in E. rewrite E. f_equal. exact Er.
Qed.

Lemma match_session_Some : forall s v,
  match_session s = Some v ->
  cookie_value v /\ exists pre post, s = pre ++ "session=" ++ v ++ post /\ value_end post.
Proof.
  induction s as [|a s IH]; intros v H.
  - discriminate H.
  - cbn [match_session] in H.
    destruct (session_at (String a s)) as [v'|] eqn:E.
    + injection H as ->. apply session_at_Some in E.
      destruct E as (Hv & post & Es & Hp).
      split; [exact Hv|]. exists "", post. split; [exact Es|exact Hp].
    + destruct (IH v H) as (Hv & pre & post & Es & Hp).
      split; [exact Hv|]. exists (String a pre), post. rewrite append_String.
      split; [congruence|exact Hp].
Qed.

(** X1. The cookie pattern [/session=([^;]+)/].  A header that starts with
    [session=], a value and then ends or goes on with a semicolon yields that
    value; and whatever the pattern yields is a non-empty text without a
    semicolon that stands in the header right after some [session=] and is
    followed by the end of the header or by a semicolon. *)
Theorem match_session_extracts_the_value :
  (forall v post, cookie_value v -> value_end post ->
                  match_session ("session=" ++ v ++ post) = Some v)
  /\ (forall s v, match_session s = Some v ->
                  cookie_value v
                  /\ exists pre post, s = pre ++ "session=" ++ v ++ post /\ value_end post).
Proof.
  split.
  - intros v post Hv Hp.
    assert (session_at ("session=" ++ v ++ post) = Some v) as E.
    { unfold session_at. rewrite strip_prefix_app.
      rewrite (until_semicolon_app v post (proj2 Hv) Hp).
      destruct (String.eqb v "") eqn:Ev; [|reflexivity].
      apply String.eqb_eq in Ev. destruct Hv as [Hv _]. contradiction. }
    change ("session=" ++ v ++ post) with (String "s" ("ession=" ++ v ++ post)) in *.
    cbn [match_session]. rewrite E. reflexivity.
  - intros s v H. destruct (match_session_Some s v H) as (Hv & pre & post & Es & Hp).
    split; [exact Hv|]. exists pre, post. split; [exact Es|exact Hp].
Qed.
Section Handshake.
Context {P : Platform}.
Variable env : Environment.
Variable self : ZaphWorkClient.

(** The first call of the handshake. *)
Definition connect_call : HttpCall :=
  {| url := connect_url self;
     call_method := Some "POST";
     call_headers := json_headers;
     call_body := Some (JObj [("walletAddress", JStr (getAddress self));
                              ("walletType", JStr "phantom")]) |}.

(** The text that is signed at time [t]. *)
Definition sign_in_message (t : Z) : string :=
  "Sign this message to authenticate with ZaphWork." ++ nl ++ nl
  ++ "Wallet: " ++ getAddress self ++ nl
  ++ "Timestamp: " ++ pretty t.

(** The second call of the handshake, for a clock reading [t]. *)
Definition session_call (t : Z) : HttpCall :=
  {| url := session_url self;
     call_method := Some "POST";
     call_headers := json_headers;
     call_body :=
       Some (JObj [("walletAddress", JStr (getAddress self));
                   ("signature",
                    JStr (bs58_encode
                            (nacl_sign_detached (TextEncoder_encode (sign_in_message t))
                                                (secretKey (keypair self)))));
                   ("message", JStr (sign_in_message t))]) |}.

(** What the [catch] block of [authenticate] rethrows. *)
Definition rethrown (e : Exn) : Exn :=
  if instanceof_ZaphWorkError e then e
  else Zaph (new_AuthenticationError ("Authentication failed: " ++ error_toString e)).

(** The error for a session call that was answered but not with a success. *)
Definition session_refused (r : Response) : Exn :=
  match body r with
  | Malformed e => rethrown (Native e)
  | Parsed error =>
      match get_prop (Some error) "error" with
      | inl e => rethrown e
      | inr e =>
          match ToString (js_or e (JStr "Failed to create session")) with
          | inl x => rethrown x
          | inr message => Zaph (new_AuthenticationError message)
          end
      end
  end.

(** The session cookie after a successful session call answered with [r]. *)
Definition cookie_after (r : Response) (old : option string) : option string :=
  match set_cookie r with
  | Some setCookie =>
      match match_session setCookie with
      | Some m => Some m
      | None => old
      end
  | None => old
  end.

Lemma authenticate_eq w :
  authenticate env self w =
  match server env (trace w) connect_call with
  | Rejected e => (Throw (rethrown (Native e)), log (EvFetch connect_call (Rejected e)) w)
  | Resolved r1 =>
      let w1 := log (EvFetch connect_call (Resolved r1)) w in
      if ok r1 then
        let t := clock env (trace w1) in
        let w2 := log (EvNow t) w1 in
        match server env (trace w2) (session_call t) with
        | Rejected e =>
            (Throw (rethrown (Native e)), log (EvFetch (session_call t) (Rejected e)) w2)
        | Resolved r2 =>
            let w3 := log (EvFetch (session_call t) (Resolved r2)) w2 in
            if ok r2 then
              (Return tt,
               {| session := {| sessionCookie := cookie_after r2 (sessionCookie (session w));
                                authenticated := true |};
                  trace := trace w3 |})
            else (Throw (session_refused r2), w3)
        end
      else (Throw (Zaph (new_AuthenticationError "Failed to connect wallet")), w1)
  end.
Proof.
  unfold authenticate, try_catch, bind, fetch, Date_now.
  change {| url := apiUrl self ++ "/api/auth/wallet/connect"; call_method := Some "POST";
            call_headers := json_headers; call_body := _ |} with connect_call.
  destruct (server env (trace w) connect_call) as [e|r1] eqn:E1; cbv beta iota zeta.
  - reflexivity.
  - destruct (ok r1) eqn:Ok1; cbn [negb]; cbv beta iota.
    2: reflexivity.
    unfold throw, ret.
    change (trace (log ?ev ?w0)) with (ev :: trace w0).
    set (t := clock env (EvFetch connect_call (Resolved r1) :: trace w)).
    change {| url := apiUrl self ++ "/api/auth/session"; call_method := Some "POST";
              call_headers := json_headers;
              call_body := _ |} with (session_call t).
    destruct (server env _ (session_call t)) as [e|r2] eqn:E2; cbv beta iota zeta.
    + reflexivity.
    + destruct (ok r2) eqn:Ok2; cbn [negb]; cbv beta iota.
      * unfold cookie_after, set_authenticated, set_sessionCookie.
        destruct (set_cookie r2) as [sc|]; [|reflexivity].
        destruct (string_truthy sc) eqn:Esc.
        -- destruct (match_session sc); reflexivity.
        -- unfold string_truthy in Esc. apply negb_false_iff, String.eqb_eq in Esc.
           subst sc. reflexivity.
      * unfold session_refused, response_json, lift, throw, ret.
        destruct (body r2) as [j|e]; [|reflexivity].
        destruct (get_prop (Some j) "error") as [e|v].
        { unfold rethrown. destruct (instanceof_ZaphWorkError e); reflexivity. }
        cbv beta iota.
        destruct (ToString (js_or v (JStr "Failed to create session"))) as [x|m];
          [|reflexivity].
        unfold rethrown. destruct (instanceof_ZaphWorkError x); reflexivity.
Qed.


Lemma rethrown_native e :
  rethrown (Native e)
  = Zaph {| name := "AuthenticationError";
            message := "Authentication failed: " ++ error_toString (Native e);
            statusCode := Some 401 |}.
Proof. reflexivity. Qed.

Lemma get_prop_throws v key e : get_prop v key = inl e -> exists n, e = Native n.
Proof.
  destruct v as [[]|]; cbn; intros H; try discriminate H;
    injection H as <-; eexists; reflexivity.
Qed.

Lemma session_refused_is_AuthenticationError r :
  exists msg, session_refused r
              = Zaph {| name := "AuthenticationError"; message := msg;
                        statusCode := Some 401 |}.
Proof.
  unfold session_refused. destruct (body r) as [j|e].
  - destruct (get_prop (Some j) "error") as [e|v] eqn:E.
    + apply get_prop_throws in E. destruct E as (n & ->). eexists. apply rethrown_native.
    + unfold ToString.
      destruct (js_toString (js_or v (JStr "Failed to create session")));
        eexists; reflexivity.
  - eexists. apply rethrown_native.
Qed.

Lemma authenticate_throw_inv w e w' :
  authenticate env self w = (Throw e, w') ->
  session w' = session w
  /\ exists msg, e = Zaph {| name := "AuthenticationError"; message := msg;
                             statusCode := Some 401 |}.
Proof.
  rewrite authenticate_eq.
  destruct (server env (trace w) connect_call) as [e1|r1].
  - intros [= <- <-]. split; [reflexivity|]. eexists. apply rethrown_native.
  - cbv zeta. destruct (ok r1).
    + destruct (server env _ _) as [e2|r2].
      * intros [= <- <-]. split; [reflexivity|]. eexists. apply rethrown_native.
      * destruct (ok r2); [discriminate|].
        intros [= <- <-]. split; [reflexivity|]. apply session_refused_is_AuthenticationError.
    + intros [= <- <-]. split; [reflexivity|]. eexists. reflexivity.
Qed.

Lemma authenticate_return_inv w u w' :
  authenticate env self w = (Return u, w') -> authenticated (session w') = true.
Proof.
  rewrite authenticate_eq.
  destruct (server env (trace w) connect_call) as [e1|r1]; [discriminate|].
  cbv zeta. destruct (ok r1); [|discriminate].
  destruct (server env _ _) as [e2|r2]; [discriminate|].
  destruct (ok r2); [|discriminate].
  intros [= _ <-]. reflexivity.
Qed.

Lemma authenticate_terminates w : fst (authenticate env self w) <> OutOfFuel.
Proof.
  rewrite authenticate_eq.
  destruct (server env (trace w) connect_call) as [e1|r1]; [discriminate|].
  cbv zeta. destruct (ok r1); [|discriminate].
  destruct (server env _ _) as [e2|r2]; [discriminate|].
  destruct (ok r2); discriminate.
Qed.

(** X2. However the handshake fails, what [authenticate] throws is an
    [AuthenticationError] with status code 401, and the session state is as
    it was before the call.  When it returns, the client is marked
    authenticated.  It needs no fuel: it always does one or the other. *)
Theorem authenticate_fails_only_with_AuthenticationError w :
  match authenticate env self w with
  | (Return _, w') => authenticated (session w') = true
  | (Throw e, w') =>
      session w' = session w
      /\ exists msg, e = Zaph {| name := "AuthenticationError"; message := msg;
                                 statusCode := Some 401 |}
  | (OutOfFuel, _) => False
  end.
Proof.
  pose proof (authenticate_terminates w) as Ht.
  destruct (authenticate env self w) as [[u|e|] w'] eqn:E.
  - exact (authenticate_return_inv w u w' E).
  - exact (authenticate_throw_inv w e w' E).
  - apply Ht. reflexivity.
Qed.

(** X3. A handshake that the server accepts: [authenticate] calls the
    connect URL, reads the clock once, and calls the session URL with a
    message that carries the wallet address and that clock reading, and the
    signature of exactly that message under the client's secret key; nothing
    else crosses the boundary.  It marks the client authenticated and takes
    the session value of the [Set-Cookie] header as the new cookie; a
    response without a usable [session=] value leaves the cookie it had. *)
Theorem authenticate_signs_the_message_it_sends w r1 r2 :
  server env (trace w) connect_call = Resolved r1 ->
  ok r1 = true ->
  server env (EvNow (clock env (EvFetch connect_call (Resolved r1) :: trace w))
              :: EvFetch connect_call (Resolved r1) :: trace w)
         (session_call (clock env (EvFetch connect_call (Resolved r1) :: trace w)))
  = Resolved r2 ->
  ok r2 = true ->
  exists t message w',
    authenticate env self w = (Return tt, w')
    /\ t = clock env (EvFetch connect_call (Resolved r1) :: trace w)
    /\ message = "Sign this message to authenticate with ZaphWork." ++ nl ++ nl
                 ++ "Wallet: " ++ bs58_encode (publicKey (keypair self)) ++ nl
                 ++ "Timestamp: " ++ pretty t
    /\ trace w'
       = EvFetch {| url := apiUrl self ++ "/api/auth/session";
                    call_method := Some "POST";
                    call_headers := {[ "Content-Type" := "application/json" ]};
                    call_body :=
                      Some (JObj [("walletAddress",
                                   JStr (bs58_encode (publicKey (keypair self))));
                                  ("signature",
                                   JStr (bs58_encode
                                           (nacl_sign_detached
                                              (TextEncoder_encode message)
                                              (secretKey (keypair self)))));
                                  ("message", JStr message)]) |}
                 (Resolved r2)
         :: EvNow t
         :: EvFetch {| url := apiUrl self ++ "/api/auth/wallet/connect";
                       call_method := Some "POST";
                       call_headers := {[ "Content-Type" := "application/json" ]};
                       call_body :=
                         Some (JObj [("walletAddress",
                                      JStr (bs58_encode (publicKey (keypair self))));
                                     ("walletType", JStr "phantom")]) |}
                    (Resolved r1)
         :: trace w
    /\ authenticated (session w') = true
    /\ sessionCookie (session w')
       = match set_cookie r2 ≫= match_session with
         | Some v => Some v
         | None => sessionCookie (session w)
         end.
Proof.
  intros E1 Ok1 E2 Ok2.
  rewrite authenticate_eq, E1. cbv zeta. rewrite Ok1.
  cbn [log trace]. rewrite E2, Ok2.
  do 3 eexists. split; [reflexivity|]. split; [reflexivity|]. split; [reflexivity|].
  split; [reflexivity|]. split; [reflexivity|].
  cbn [session sessionCookie]. unfold cookie_after.
  destruct (set_cookie r2) as [sc|]; [|reflexivity].
  cbn [mbind option_bind]. destruct (match_session sc); reflexivity.
Qed.

(** X4. How a failed handshake reports.  A rejected fetch is wrapped: the
    message is [Authentication failed: ] and the text of the error.  A
    connect call that is answered without success ends the handshake there,
    with [Failed to connect wallet], before anything is signed or sent to the
    session URL.  A session call answered without success reports the
    [error] of the body when that is truthy (a text as it is, anything else
    as the text it converts to) and [Failed to create session] otherwise; an
    [error] that cannot be converted to a text, as an object with a
    [toString] property of its own, makes the conversion throw, and that
    [TypeError] is wrapped like a rejected fetch, as is the parser's error
    for a body that does not parse. *)
Theorem authenticate_failure_messages w :
  (forall e,
      server env (trace w) connect_call = Rejected e ->
      authenticate env self w
      = (Throw (Zaph (new_AuthenticationError
                        ("Authentication failed: " ++ error_toString (Native e)))),
         log (EvFetch connect_call (Rejected e)) w))
  /\ (forall r1,
         server env (trace w) connect_call = Resolved r1 ->
         ok r1 = false ->
         authenticate env self w
         = (Throw (Zaph (new_AuthenticationError "Failed to connect wallet")),
            log (EvFetch connect_call (Resolved r1)) w))
  /\ (forall r1 r2 t,
         server env (trace w) connect_call = Resolved r1 ->
         ok r1 = true ->
         t = clock env (EvFetch connect_call (Resolved r1) :: trace w) ->
         server env (EvNow t :: EvFetch connect_call (Resolved r1) :: trace w) (session_call t)
         = Resolved r2 ->
         ok r2 = false ->
         (forall fields,
             body r2 = Parsed (JObj fields) ->
             (obj_get "error" fields = None ->
              fst (authenticate env self w)
              = Throw (Zaph (new_AuthenticationError "Failed to create session")))
             /\ (forall e,
                    obj_get "error" fields = Some e ->
                    truthy (Some e) = false ->
                    fst (authenticate env self w)
                    = Throw (Zaph (new_AuthenticationError "Failed to create session")))
             /\ (forall s,
                    obj_get "error" fields = Some (JStr s) ->
                    s <> "" ->
                    fst (authenticate env self w)
                    = Throw (Zaph (new_AuthenticationError s)))
             /\ (forall e s,
                    obj_get "error" fields = Some e ->
                    truthy (Some e) = true ->
                    js_toString e = Some s ->
                    fst (authenticate env self w)
                    = Throw (Zaph (new_AuthenticationError s)))
             /\ (forall e,
                    obj_get "error" fields = Some e ->
                    truthy (Some e) = true ->
                    js_toString e = None ->
                    fst (authenticate env self w)
                    = Throw (Zaph (new_AuthenticationError
                                     "Authentication failed: TypeError: Cannot convert object to primitive value")))
             /\ (forall inner v,
                    obj_get "error" fields = Some (JObj inner) ->
                    obj_get "toString" inner = Some v ->
                    fst (authenticate env self w)
                    = Throw (Zaph (new_AuthenticationError
                                     "Authentication failed: TypeError: Cannot convert object to primitive value"))))
         /\ (forall e,
                body r2 = Malformed e ->
                fst (authenticate env self w)
                = Throw (Zaph (new_AuthenticationError
                                 ("Authentication failed: " ++ error_toString (Native e)))))).
Proof.
  split; [|split].
  - intros e E1. rewrite authenticate_eq, E1. reflexivity.
  - intros r1 E1 Ok1. rewrite authenticate_eq, E1. cbv zeta. rewrite Ok1. reflexivity.
  - intros r1 r2 t E1 Ok1 -> E2 Ok2.
    rewrite authenticate_eq, E1. cbv zeta. rewrite Ok1.
    cbn [log trace]. rewrite E2, Ok2. cbn [fst]. unfold session_refused.
    split.
    + intros fields ->. cbn [get_prop].
      split; [|split; [|split; [|split; [|split]]]].
      * intros ->. reflexivity.
      * intros e -> Ht. unfold js_or. rewrite Ht. reflexivity.
      * intros s -> Hs. unfold js_or. cbn [truthy]. unfold string_truthy.
        apply String.eqb_neq in Hs. rewrite Hs. reflexivity.
      * intros e s -> Ht Hs. unfold js_or. rewrite Ht. unfold ToString. rewrite Hs.
        reflexivity.
      * intros e -> Ht Hs. unfold js_or. rewrite Ht. unfold ToString. rewrite Hs.
        reflexivity.
      * intros inner v -> Hv. unfold js_or. cbn [truthy]. unfold ToString.
        cbn [js_toString]. rewrite Hv. reflexivity.
    + intros e ->. reflexivity.
Qed.

End Handshake.

Section SessionRequests.
Context {P : Platform}.
Variable env : Environment.
Variable self : ZaphWorkClient.

Lemma ensure_authenticated_live w :
  authenticated (session w) = true -> ensure_authenticated env self w = (Return tt, w).
Proof. intros H. unfold ensure_authenticated. rewrite H. reflexivity. Qed.

Lemma ensure_authenticated_return w u wa :
  ensure_authenticated env self w = (Return u, wa) -> authenticated (session wa) = true.
Proof.
  unfold ensure_authenticated. destruct (authenticated (session w)) eqn:Ea.
  - intros [= _ <-]. exact Ea.
  - apply authenticate_return_inv.
Qed.

Lemma cookie_headers_lookup options s :
  (forall c, sessionCookie s = Some c -> c <> "" ->
             cookie_headers options s !! "Cookie" = Some ("session=" ++ c))
  /\ (sessionCookie s = None ->
      cookie_headers options s !! "Cookie" = default ∅ (headers options) !! "Cookie")
  /\ cookie_headers options s !! "Content-Type"
     = Some (default "application/json" (default ∅ (headers options) !! "Content-Type"))
  /\ (forall k, k <> "Cookie" -> k <> "Content-Type" ->
                cookie_headers options s !! k = default ∅ (headers options) !! k).
Proof.
  assert (forall k, k <> "Content-Type" ->
                    with_json_headers options !! k = default ∅ (headers options) !! k) as Hk.
  { intros k Hk. unfold with_json_headers, json_headers.
    rewrite lookup_union, lookup_singleton_ne by congruence.
    destruct (default ∅ (headers options) !! k); reflexivity. }
  assert (with_json_headers options !! "Content-Type"
          = Some (default "application/json"
                          (default ∅ (headers options) !! "Content-Type"))) as Hct.
  { unfold with_json_headers, json_headers.
    rewrite lookup_union, lookup_singleton_eq.
    destruct (default ∅ (headers options) !! "Content-Type"); reflexivity. }
  unfold cookie_headers. repeat split.
  - intros c -> Hc. unfold string_truthy.
    apply String.eqb_neq in Hc. rewrite Hc. cbn [negb]. apply lookup_insert_eq.
  - intros ->. apply Hk. discriminate.
  - destruct (sessionCookie s) as [c|]; [|exact Hct].
    destruct (string_truthy c); [|exact Hct].
    rewrite lookup_insert_ne by discriminate. exact Hct.
  - intros k Hc Hct'. destruct (sessionCookie s) as [c|]; [|apply Hk; exact Hct'].
    destruct (string_truthy c); [|apply Hk; exact Hct'].
    rewrite lookup_insert_ne by congruence. apply Hk; exact Hct'.
Qed.

Lemma request_first_call_after fuel endpoint options w wa :
  routes_to_x402 self endpoint = false ->
  ensure_authenticated env self w = (Return tt, wa) ->
  exists answer new,
    trace (snd (request env self fuel endpoint options w))
    = (new ++ EvFetch (endpoint_call self endpoint options
                                     (cookie_headers options (session wa))) answer
           :: trace wa)%list.
Proof.
  intros Hr Ee. rewrite request_eq, Hr, Ee. cbv zeta.
  destruct (server env (trace wa) _) as [e|r] eqn:E.
  - exists (Rejected e), []. reflexivity.
  - destruct (status r =? 401).
    + destruct fuel as [|fuel'].
      * exists (Resolved r), []. reflexivity.
      * destruct (request_emits env self fuel' endpoint options
                                (clear_session (log (EvFetch (endpoint_call self endpoint options
                                  (cookie_headers options (session wa))) (Resolved r)) wa)))
          as (new & En & _).
        exists (Resolved r), new. exact En.
    + rewrite conclude_eq. exists (Resolved r), []. reflexivity.
Qed.

Lemma request_first_call fuel endpoint options w :
  routes_to_x402 self endpoint = false ->
  authenticated (session w) = true ->
  exists answer new,
    trace (snd (request env self fuel endpoint options w))
    = (new ++ EvFetch (endpoint_call self endpoint options
                                     (cookie_headers options (session w))) answer
           :: trace w)%list.
Proof.
  intros Hr Ha.
  apply (request_first_call_after fuel endpoint options w w Hr (ensure_authenticated_live w Ha)).
Qed.

(** X5. The headers of a call on the session path, for a client that is
    authenticated.  The call goes to the endpoint with the caller's method
    and body.  With a session cookie, its [Cookie] header is [session=] and
    that cookie, whatever the caller passed under that name; without one,
    the caller's [Cookie] header, if any, goes through.  [Content-Type] is
    the caller's if the caller gave one and [application/json] otherwise,
    and every other header is the caller's. *)
Theorem request_sends_the_session_cookie fuel endpoint options w :
  routes_to_x402 self endpoint = false ->
  authenticated (session w) = true ->
  exists call answer new,
    trace (snd (request env self fuel endpoint options w))
    = (new ++ EvFetch call answer :: trace w)%list
    /\ url call = apiUrl self ++ endpoint
    /\ call_method call = method options
    /\ call_body call = req_body options
    /\ (forall c, sessionCookie (session w) = Some c -> c <> "" ->
                  call_headers call !! "Cookie" = Some ("session=" ++ c))
    /\ (sessionCookie (session w) = None ->
        call_headers call !! "Cookie" = default ∅ (headers options) !! "Cookie")
    /\ call_headers call !! "Content-Type"
       = Some (default "application/json" (default ∅ (headers options) !! "Content-Type"))
    /\ (forall k, k <> "Cookie" -> k <> "Content-Type" ->
                  call_headers call !! k = default ∅ (headers options) !! k).
Proof.
  intros Hr Ha.
  destruct (request_first_call fuel endpoint options w Hr Ha) as (answer & new & E).
  destruct (cookie_headers_lookup options (session w)) as (H1 & H2 & H3 & H4).
  eexists _, answer, new. split; [exact E|].
  cbn [endpoint_call url call_method call_body call_headers].
  repeat split; assumption.
Qed.

(** X6. A fetch that is rejected (no answer at all).  On the session path
    and on the payment path the engine's error reaches the caller as it is,
    not as a [ZaphWorkError]; the session state stays.  When it is the first
    call of the handshake that is rejected, the caller gets an
    [AuthenticationError] instead and the endpoint is never called. *)
Theorem rejected_fetch_is_wrapped_only_in_the_handshake fuel endpoint options w e :
  (routes_to_x402 self endpoint = false ->
   authenticated (session w) = true ->
   server env (trace w)
          (endpoint_call self endpoint options (cookie_headers options (session w)))
   = Rejected e ->
   request env self fuel endpoint options w
   = (Throw (Native e),
      log (EvFetch (endpoint_call self endpoint options
                                  (cookie_headers options (session w)))
                   (Rejected e)) w))
  /\ (server env (trace w) (endpoint_call self endpoint options (with_json_headers options))
      = Rejected e ->
      requestWithX402Payment env self endpoint options w
      = (Throw (Native e),
         log (EvFetch (endpoint_call self endpoint options (with_json_headers options))
                      (Rejected e)) w))
  /\ (routes_to_x402 self endpoint = false ->
      authenticated (session w) = false ->
      server env (trace w) (connect_call self) = Rejected e ->
      request env self fuel endpoint options w
      = (Throw (Zaph {| name := "AuthenticationError";
                        message := "Authentication failed: " ++ error_toString (Native e);
                        statusCode := Some 401 |}),
         log (EvFetch (connect_call self) (Rejected e)) w)).
Proof.
  split; [|split].
  - intros Hr Ha E. rewrite request_eq, Hr, (ensure_authenticated_live w Ha). cbv zeta.
    rewrite E. reflexivity.
  - intros E. rewrite requestWithX402Payment_eq. cbv zeta. rewrite E. reflexivity.
  - intros Hr Ha E. rewrite request_eq, Hr. unfold ensure_authenticated. rewrite Ha.
    rewrite authenticate_eq, E. reflexivity.
Qed.

(** X7. An expired session whose renewal fails.  The call is answered with
    401, the session is cleared and the handshake that follows throws: then
    [request] throws that error, an [AuthenticationError], and leaves the
    client without a cookie and not authenticated, so that the next request
    starts with a handshake.  The endpoint was called once. *)
Theorem request_401_then_failed_handshake fuel endpoint options w r e w' :
  routes_to_x402 self endpoint = false ->
  authenticated (session w) = true ->
  server env (trace w)
         (endpoint_call self endpoint options (cookie_headers options (session w)))
  = Resolved r ->
  status r = 401 ->
  authenticate env self
    (clear_session (log (EvFetch (endpoint_call self endpoint options
                                                (cookie_headers options (session w)))
                                 (Resolved r)) w))
  = (Throw e, w') ->
  request env self (S fuel) endpoint options w = (Throw e, w')
  /\ session w' = {| sessionCookie := None; authenticated := false |}
  /\ (exists msg, e = Zaph {| name := "AuthenticationError"; message := msg;
                              statusCode := Some 401 |})
  /\ exists hs,
       trace w' = (hs ++ EvFetch (endpoint_call self endpoint options
                                                (cookie_headers options (session w)))
                                 (Resolved r) :: trace w)%list
       /\ Forall (handshake_event self) hs.
Proof.
  intros Hr Ha E H401 Eauth.
  pose proof (authenticate_throw_inv env self _ _ _ Eauth) as (Hs & Hmsg).
  assert (request env self (S fuel) endpoint options w = (Throw e, w')) as Ereq.
  { rewrite request_eq, Hr, (ensure_authenticated_live w Ha). cbv zeta.
    rewrite E, H401. cbn [Z.eqb Pos.eqb].
    rewrite request_eq, Hr. unfold ensure_authenticated at 1.
    cbn [clear_session session authenticated]. 
    change {| session := {| sessionCookie := None; authenticated := false |};
              trace := trace (log ?ev w) |} with (clear_session (log ev w)).
    rewrite Eauth. reflexivity. }
  split; [exact Ereq|]. split; [rewrite Hs; reflexivity|]. split; [exact Hmsg|].
  destruct (authenticate_emits env self
              (clear_session (log (EvFetch (endpoint_call self endpoint options
                                              (cookie_headers options (session w)))
                                           (Resolved r)) w))) as (hs & Et & Hhs).
  rewrite Eauth in Et. exists hs. split; [exact Et|exact Hhs].
Qed.

Lemma authenticate_starts_with_connect w :
  exists answer new,
    trace (snd (authenticate env self w))
    = (new ++ EvFetch (connect_call self) answer :: trace w)%list.
Proof.
  rewrite authenticate_eq.
  destruct (server env (trace w) (connect_call self)) as [e1|r1].
  - exists (Rejected e1), []. reflexivity.
  - cbv zeta. destruct (ok r1).
    + destruct (server env _ _) as [e2|r2].
      * eexists (Resolved r1), [_; _]. reflexivity.
      * destruct (ok r2); eexists (Resolved r1), [_; _]; reflexivity.
    + exists (Resolved r1), []. reflexivity.
Qed.

(** X8. A client that is not marked authenticated, as every client is
    right after construction, opens a request on the session path with the
    connect call of the handshake: nothing reaches the endpoint before it.
    When the handshake fails, the endpoint is not called at all. *)
Theorem unauthenticated_request_starts_with_connect fuel endpoint options w :
  routes_to_x402 self endpoint = false ->
  authenticated (session w) = false ->
  (exists answer new,
      trace (snd (request env self fuel endpoint options w))
      = (new ++ EvFetch (connect_call self) answer :: trace w)%list)
  /\ (forall e w',
         authenticate env self w = (Throw e, w') ->
         request env self fuel endpoint options w = (Throw e, w')
         /\ exists hs, trace w' = (hs ++ trace w)%list
                       /\ Forall (handshake_event self) hs).
Proof.
  intros Hr Ha.
  assert (ensure_authenticated env self w = authenticate env self w) as Ee.
  { unfold ensure_authenticated. rewrite Ha. reflexivity. }
  destruct (authenticate_starts_with_connect w) as (answer & hs & Eh).
  split.
  - destruct (authenticate env self w) as [[[]|e|] wa] eqn:Eauth; cbn [snd] in Eh.
    + destruct (request_first_call_after fuel endpoint options w wa Hr Ee)
        as (a & new & Et).
      exists answer, (new ++ EvFetch (endpoint_call self endpoint options
                                        (cookie_headers options (session wa))) a :: hs)%list.
      rewrite Et, Eh, <- app_assoc. reflexivity.
    + exists answer, hs. rewrite request_eq, Hr, Ee. exact Eh.
    + exists answer, hs. rewrite request_eq, Hr, Ee. exact Eh.
  - intros e w' Eauth. split.
    + rewrite request_eq, Hr, Ee, Eauth. reflexivity.
    + destruct (authenticate_emits env self w) as (hs' & Et & Hhs).
      rewrite Eauth in Et. exists hs'. split; [exact Et|exact Hhs].
Qed.

(** X9. The call that follows a 401 carries the renewed cookie, never the
    expired one.  The client was authenticated, its call is answered with
    401 and the handshake that follows succeeds: the endpoint is called
    again, right after the handshake, with the same method and body, and
    its [Cookie] header is [session=] and the value the session call's
    [Set-Cookie] header carries; when that header carries none, the call
    has no cookie of the client's at all. *)
Theorem retry_after_401_uses_the_renewed_cookie
    fuel endpoint options w call0 tr1 r r1 t r2 :
  routes_to_x402 self endpoint = false ->
  authenticated (session w) = true ->
  call0 = endpoint_call self endpoint options (cookie_headers options (session w)) ->
  server env (trace w) call0 = Resolved r ->
  status r = 401 ->
  tr1 = EvFetch call0 (Resolved r) :: trace w ->
  server env tr1 (connect_call self) = Resolved r1 ->
  ok r1 = true ->
  t = clock env (EvFetch (connect_call self) (Resolved r1) :: tr1) ->
  server env (EvNow t :: EvFetch (connect_call self) (Resolved r1) :: tr1)
         (session_call self t)
  = Resolved r2 ->
  ok r2 = true ->
  exists retry answer new,
    trace (snd (request env self (S fuel) endpoint options w))
    = (new ++ EvFetch retry answer
           :: EvFetch (session_call self t) (Resolved r2)
           :: EvNow t
           :: EvFetch (connect_call self) (Resolved r1)
           :: tr1)%list
    /\ url retry = apiUrl self ++ endpoint
    /\ call_method retry = method options
    /\ call_body retry = req_body options
    /\ call_headers retry !! "Cookie"
       = match set_cookie r2 ≫= match_session with
         | Some v => Some ("session=" ++ v)
         | None => default ∅ (headers options) !! "Cookie"
         end.
Proof.
  intros Hr Ha -> E H401 -> E1 Ok1 Et E2 Ok2.
  set (call0 := endpoint_call self endpoint options (cookie_headers options (session w))) in *.
  set (wc := clear_session (log (EvFetch call0 (Resolved r)) w)).
  assert (request env self (S fuel) endpoint options w
          = request env self fuel endpoint options wc) as Estep.
  { rewrite request_eq, Hr, (ensure_authenticated_live w Ha). cbv zeta.
    fold call0. rewrite E, H401. reflexivity. }
  assert (ensure_authenticated env self wc
          = (Return tt,
             {| session := {| sessionCookie := cookie_after r2 None; authenticated := true |};
                trace := EvFetch (session_call self t) (Resolved r2)
                         :: EvNow t
                         :: EvFetch (connect_call self) (Resolved r1)
                         :: EvFetch call0 (Resolved r) :: trace w |})) as Ee.
  { unfold ensure_authenticated, wc. cbn [clear_session session authenticated].
    rewrite authenticate_eq. cbn [clear_session log trace session sessionCookie].
    rewrite E1. cbv zeta. rewrite Ok1. cbn [log trace]. rewrite <- Et, E2, Ok2.
    reflexivity. }
  destruct (request_first_call_after fuel endpoint options wc _ Hr Ee)
    as (answer & new & Etr).
  rewrite Estep.
  eexists _, answer, new. split; [exact Etr|].
  cbn [endpoint_call url call_method call_body call_headers session].
  split; [reflexivity|]. split; [reflexivity|]. split; [reflexivity|].
  destruct (cookie_headers_lookup options
              {| sessionCookie := cookie_after r2 None; authenticated := true |})
    as (H1 & H2 & _).
  unfold cookie_after in *. cbn [sessionCookie] in H1, H2.
  destruct (set_cookie r2) as [sc|]; cbn [mbind option_bind]; [|apply H2; reflexivity].
  destruct (match_session sc) as [v|] eqn:Em; [|apply H2; reflexivity].
  apply H1; [reflexivity|].
  apply (proj1 (proj1 (match_session_Some sc v Em))).
Qed.

Lemma outcome_of_terminates r : outcome_of r <> OutOfFuel.
Proof.
  unfold outcome_of. destruct (ok r).
  - destruct (body r); discriminate.
  - destruct (get_prop _ "error") as [e|v]; [discriminate|].
    destruct (ToString _); discriminate.
Qed.

(** X10. What a request on the session path leaves behind.  When it returns,
    the client is marked authenticated.  When it throws and the client is
    not marked authenticated, the error is an [AuthenticationError]: every
    other error (an API error, a rejected fetch, an unreadable body) is
    thrown with the session still in place. *)
Theorem request_leaves_the_session_in_place fuel : forall endpoint options w,
  routes_to_x402 self endpoint = false ->
  match request env self fuel endpoint options w with
  | (Return _, w') => authenticated (session w') = true
  | (Throw e, w') =>
      authenticated (session w') = true
      \/ exists msg, e = Zaph {| name := "AuthenticationError"; message := msg;
                                 statusCode := Some 401 |}
  | (OutOfFuel, w') => session w' = {| sessionCookie := None; authenticated := false |}
  end.
Proof.
  induction fuel as [|fuel IH]; intros endpoint options w Hr.
  all: rewrite request_eq, Hr.
  all: destruct (ensure_authenticated env self w) as [[u|e|] wa] eqn:Ee.
  all: try (exfalso; revert Ee; unfold ensure_authenticated;
            destruct (authenticated (session w)); [discriminate|];
            intros Ee; apply (authenticate_terminates env self w); rewrite Ee; reflexivity).
  all: try (right; revert Ee; unfold ensure_authenticated;
            destruct (authenticated (session w)); [discriminate|];
            intros Ee; apply (authenticate_throw_inv env self _ _ _ Ee)).
  all: apply ensure_authenticated_return in Ee; cbv zeta.
  all: destruct (server env (trace wa) _) as [e|r]; [left; exact Ee|].
  all: destruct (status r =? 401); [|rewrite conclude_eq;
         pose proof (outcome_of_terminates r) as Ht;
         destruct (outcome_of r); [exact Ee|left; exact Ee|congruence]].
  - reflexivity.
  - apply IH. exact Hr.
Qed.

End SessionRequests.

Section ResourceMethods.
Context {P : Platform}.
Variable env : Environment.
Variable self : ZaphWorkClient.

(** The server answers every call to [u] with [r]. *)
Definition answers_with (u : string) (r : Response) : Prop :=
  forall tr c, url c = u -> server env tr c = Resolved r.

(** [response.key] for the body [j] of a successful response. *)
Definition read_key (key : string) (j : Json) : Result JsValue :=
  match j with
  | JNull => Throw (TypeError_read "null" key)
  | JObj fields => Return (obj_get key fields)
  | _ => Return None
  end.

(** How a method that awaits a request and returns nothing ends on a
    successful response. *)
Definition void_result (r : Response) : Result unit :=
  match body r with
  | Parsed _ => Return tt
  | Malformed e => Throw (Native e)
  end.

(** A call to [u] with method [m] and body [b]. *)
Definition call_of (u : string) (m : option string) (b : option Json) (ev : Event) : Prop :=
  match ev with
  | EvFetch c _ => url c = u /\ call_method c = m /\ call_body c = b
  | _ => False
  end.

Lemma ensure_authenticated_emits : emits (handshake_event self) (ensure_authenticated env self).
Proof.
  intros w. unfold ensure_authenticated. destruct (authenticated (session w)).
  - exists []. split; [reflexivity|constructor].
  - apply authenticate_emits.
Qed.

Lemma request_answered fuel endpoint options w r :
  routes_to_x402 self endpoint = false ->
  can_authenticate env self w ->
  answers_with (apiUrl self ++ endpoint) r ->
  status r <> 401 ->
  exists wa hs,
    request env self fuel endpoint options w
    = (outcome_of r,
       log (EvFetch (endpoint_call self endpoint options
                                   (cookie_headers options (session wa)))
                    (Resolved r)) wa)
    /\ authenticated (session wa) = true
    /\ trace wa = (hs ++ trace w)%list
    /\ Forall (handshake_event self) hs.
Proof.
  intros Hr Hc Ha H401.
  destruct (ensure_authenticated_ok env self w Hc) as (wa & Ee & Hauth & _).
  destruct (ensure_authenticated_emits w) as (hs & Et & Hhs).
  rewrite Ee in Et. cbn [snd] in Et.
  exists wa, hs. split; [|split; [exact Hauth|split; [exact Et|exact Hhs]]].
  rewrite request_eq, Hr, Ee. cbv zeta.
  rewrite (Ha (trace wa) (endpoint_call self endpoint options
                                      (cookie_headers options (session wa))) eq_refl).
  apply Z.eqb_neq in H401. rewrite H401. apply conclude_eq.
Qed.

Lemma ok_status r : ok r = true -> status r <> 401.
Proof. intros H. apply Z.eqb_neq. apply ok_not_401. exact H. Qed.

Lemma outcome_of_ok r j : ok r = true -> body r = Parsed j -> outcome_of r = Return j.
Proof. intros H E. unfold outcome_of. rewrite H, E. reflexivity. Qed.

Lemma unwrap_answered fuel endpoint options key w r j :
  routes_to_x402 self endpoint = false ->
  can_authenticate env self w ->
  answers_with (apiUrl self ++ endpoint) r ->
  ok r = true ->
  body r = Parsed j ->
  fst (bind (request env self fuel endpoint options)
            (fun response => lift (get_prop (Some response) key)) w)
  = read_key key j.
Proof.
  intros Hr Hc Ha Hok Hb.
  destruct (request_answered fuel endpoint options w r Hr Hc Ha (ok_status r Hok))
    as (wa & hs & E & _).
  unfold bind. rewrite E, (outcome_of_ok r j Hok Hb).
  destruct j; reflexivity.
Qed.

Lemma void_answered fuel endpoint options w r :
  routes_to_x402 self endpoint = false ->
  can_authenticate env self w ->
  answers_with (apiUrl self ++ endpoint) r ->
  ok r = true ->
  exists wa,
    bind (request env self fuel endpoint options) (fun _ => ret tt) w
    = (void_result r,
       log (EvFetch (endpoint_call self endpoint options
                                   (cookie_headers options (session wa)))
                    (Resolved r)) wa).
Proof.
  intros Hr Hc Ha Hok.
  destruct (request_answered fuel endpoint options w r Hr Hc Ha (ok_status r Hok))
    as (wa & hs & E & _).
  exists wa. unfold bind, void_result. rewrite E. unfold outcome_of. rewrite Hok.
  destruct (body r); reflexivity.
Qed.

(** X11. The methods that hand back one key of the response ([getBalance],
    [getTask], [getGig], [createGig], [purchaseGig]) do not check the shape
    of a successful response.  When the body is an object they return what
    is under the key, which is [undefined] when the key is missing; when
    the body is some other JSON value they return [undefined]; only the
    JSON value [null] makes them throw, a [TypeError]. *)
Theorem unwrapping_methods_do_not_check_the_response fuel w r j :
  can_authenticate env self w ->
  ok r = true ->
  body r = Parsed j ->
  (answers_with (apiUrl self ++ "/api/wallet/balance") r ->
   fst (getBalance env self fuel w) = read_key "balance" j)
  /\ (forall taskId,
         answers_with (apiUrl self ++ "/api/tasks/" ++ taskId) r ->
         fst (getTask env self fuel taskId w) = read_key "task" j)
  /\ (forall slug,
         answers_with (apiUrl self ++ "/api/gigs/by-slug/" ++ slug) r ->
         fst (getGig env self fuel slug w) = read_key "gig" j)
  /\ (forall params,
         answers_with (apiUrl self ++ "/api/gigs/create") r ->
         fst (createGig env self fuel params w) = read_key "gig" j)
  /\ (forall gigId,
         answers_with (apiUrl self ++ "/api/gigs/purchase") r ->
         fst (purchaseGig env self fuel gigId w) = read_key "order" j)
  /\ read_key "balance" (JObj []) = Return None
  /\ read_key "balance" JNull
     = Throw (Native {| native_name := "TypeError";
                        native_message :=
                          "Cannot read properties of null (reading 'balance')" |}).
Proof.
  intros Hc Hok Hb.
  split; [|split; [|split; [|split; [|split; [|split]]]]].
  - intros Ha. apply (unwrap_answered fuel _ _ _ w r j); auto.
  - intros taskId Ha. apply (unwrap_answered fuel _ _ _ w r j); auto.
  - intros slug Ha. apply (unwrap_answered fuel _ _ _ w r j); auto.
  - intros params Ha. apply (unwrap_answered fuel _ _ _ w r j); auto.
  - intros gigId Ha. apply (unwrap_answered fuel _ _ _ w r j); auto.
  - reflexivity.
  - reflexivity.
Qed.

(** X12. The methods that return nothing ([approveApplication],
    [submitWork], [rejectTask], [deliverGigOrder], [requestGigRevision])
    still read the body of a successful response.  Whatever JSON value it
    holds they return; a body that does not parse (an empty one, say) makes
    them throw the parser's error, after the server has answered the call
    with a success. *)
Theorem void_methods_still_parse_the_body fuel w r :
  can_authenticate env self w ->
  ok r = true ->
  (forall applicationId,
      answers_with (apiUrl self ++ "/api/tasks/applications/" ++ applicationId ++ "/approve")
                   r ->
      fst (approveApplication env self fuel applicationId w) = void_result r
      /\ exists call rest,
           trace (snd (approveApplication env self fuel applicationId w))
           = EvFetch call (Resolved r) :: rest)
  /\ (forall params,
         answers_with (apiUrl self ++ "/api/tasks/" ++ taskId params ++ "/submit") r ->
         fst (submitWork env self fuel params w) = void_result r
         /\ exists call rest,
              trace (snd (submitWork env self fuel params w))
              = EvFetch call (Resolved r) :: rest)
  /\ (forall taskId reason,
         answers_with (apiUrl self ++ "/api/tasks/" ++ taskId ++ "/reject") r ->
         fst (rejectTask env self fuel taskId reason w) = void_result r
         /\ exists call rest,
              trace (snd (rejectTask env self fuel taskId reason w))
              = EvFetch call (Resolved r) :: rest)
  /\ (forall orderId deliveryUrl notes,
         answers_with (apiUrl self ++ "/api/gigs/orders/" ++ orderId ++ "/deliver") r ->
         fst (deliverGigOrder env self fuel orderId deliveryUrl notes w) = void_result r
         /\ exists call rest,
              trace (snd (deliverGigOrder env self fuel orderId deliveryUrl notes w))
              = EvFetch call (Resolved r) :: rest)
  /\ (forall orderId feedback,
         answers_with (apiUrl self ++ "/api/gigs/orders/" ++ orderId ++ "/revision") r ->
         fst (requestGigRevision env self fuel orderId feedback w) = void_result r
         /\ exists call rest,
              trace (snd (requestGigRevision env self fuel orderId feedback w))
              = EvFetch call (Resolved r) :: rest)
  /\ (forall j, body r = Parsed j -> void_result r = Return tt)
  /\ (forall e, body r = Malformed e -> void_result r = Throw (Native e)).
Proof.
  intros Hc Hok.
  assert (forall endpoint options,
             routes_to_x402 self endpoint = false ->
             answers_with (apiUrl self ++ endpoint) r ->
             fst (bind (request env self fuel endpoint options) (fun _ => ret tt) w)
             = void_result r
             /\ exists call rest,
                  trace (snd (bind (request env self fuel endpoint options)
                                   (fun _ => ret tt) w))
                  = EvFetch call (Resolved r) :: rest) as H.
  { intros endpoint options Hr Ha.
    destruct (void_answered fuel endpoint options w r Hr Hc Ha Hok) as (wa & E).
    rewrite E. split; [reflexivity|]. eexists _, (trace wa). reflexivity. }
  split; [|split; [|split; [|split; [|split; [|split]]]]].
  - intros applicationId Ha. apply H; [reflexivity|exact Ha].
  - intros params Ha. apply H; [reflexivity|exact Ha].
  - intros taskId reason Ha. apply H; [reflexivity|exact Ha].
  - intros orderId deliveryUrl notes Ha. apply H; [reflexivity|exact Ha].
  - intros orderId feedback Ha. apply H; [reflexivity|exact Ha].
  - intros j Hb. unfold void_result. rewrite Hb. reflexivity.
  - intros e Hb. unfold void_result. rewrite Hb. reflexivity.
Qed.


(** *** What the methods put on the wire *)

(** A property of the serialised object for an optional string. *)
Definition optional_field (key : string) (v : option string) : list (string * Json) :=
  match v with
  | Some s => [(key, JStr s)]
  | None => []
  end.

(** The part of the submission document both submission methods send. *)
Definition submission_fields (params : SubmitWorkParams) : list (string * Json) :=
  (("submission_type", JStr (SubmissionType_string (submissionType params)))
   :: optional_field "submission_text" (submissionText params)
   ++ optional_field "submission_url" (submissionUrl params))%list.

(** Only the client's own call to [u], with method [m] and body [b], and
    the calls and clock reading of a handshake. *)
Definition only_calls (u : string) (m : option string) (b : option Json) {A} (op : M A)
    : Prop :=
  emits (fun ev => handshake_event self ev \/ call_of u m b ev) op.

Lemma request_only_calls fuel endpoint options :
  only_calls (apiUrl self ++ endpoint) (method options) (req_body options)
             (request env self fuel endpoint options).
Proof. exact (request_emits env self fuel endpoint options). Qed.

Lemma only_calls_bind {A B} u m b (op : M A) (k : A -> M B) :
  only_calls u m b op -> (forall a w, trace (snd (k a w)) = trace w) ->
  only_calls u m b (bind op k).
Proof.
  intros H Hk. apply emits_bind; [exact H|].
  intros a w. exists []. split; [apply Hk|constructor].
Qed.

Lemma lift_trace {A} (x : Exn + A) w : trace (snd (lift x w)) = trace w.
Proof. destruct x; reflexivity. Qed.

Lemma submission_document params :
  JSON_stringify [("submission_type", Str (SubmissionType_string (submissionType params)));
                  ("submission_text", optional Str (submissionText params));
                  ("submission_url", optional Str (submissionUrl params))]
  = JObj (submission_fields params)
  /\ JSON_stringify [("task_id", Str (taskId params));
                     ("submission_type", Str (SubmissionType_string (submissionType params)));
                     ("submission_text", optional Str (submissionText params));
                     ("submission_url", optional Str (submissionUrl params))]
     = JObj (("task_id", JStr (taskId params)) :: submission_fields params).
Proof.
  unfold submission_fields.
  destruct (submissionText params), (submissionUrl params); split; reflexivity.
Qed.

(** X13. The two ways of submitting work.  [submitWork] names the task in
    the URL and sends the submission type together with the text and the
    URL that are given (a missing one is left out of the document); it is
    the only call it makes besides those of a handshake, and with a session
    that is live or can be established it does make that call.
    [submitWorkX402]
    makes exactly one call, without a handshake, to the fixed submissions
    URL, and sends the same fields with the task under [task_id] in front.
    No field of the shared part is called [task_id]. *)
Theorem submitWork_and_submitWorkX402_documents fuel params :
  only_calls (apiUrl self ++ "/api/tasks/" ++ taskId params ++ "/submit")
             (Some "POST") (Some (JObj (submission_fields params)))
             (submitWork env self fuel params)
  /\ (forall w, exists call answer,
         trace (snd (submitWorkX402 env self params w)) = EvFetch call answer :: trace w
         /\ url call = apiUrl self ++ "/api/x402/submissions"
         /\ call_method call = Some "POST"
         /\ call_body call
            = Some (JObj (("task_id", JStr (taskId params)) :: submission_fields params)))
  /\ obj_get "task_id" (submission_fields params) = None
  /\ (submissionText params = None -> submissionUrl params = None ->
      submission_fields params
      = [("submission_type", JStr (SubmissionType_string (submissionType params)))])
  /\ (forall w,
         can_authenticate env self w ->
         exists new call answer,
           trace (snd (submitWork env self fuel params w)) = (new ++ trace w)%list
           /\ In (EvFetch call answer) new
           /\ url call = apiUrl self ++ "/api/tasks/" ++ taskId params ++ "/submit"
           /\ call_method call = Some "POST"
           /\ call_body call = Some (JObj (submission_fields params)))
  /\ obj_get "submission_type" (submission_fields params)
     = Some (JStr (match submissionType params with
                   | as_text => "text"
                   | as_url => "url"
                   | as_file => "file"
                   end))
  /\ obj_get "submission_text" (submission_fields params)
     = match submissionText params with
       | Some t => Some (JStr t)
       | None => None
       end
  /\ obj_get "submission_url" (submission_fields params)
     = match submissionUrl params with
       | Some u => Some (JStr u)
       | None => None
       end.
Proof.
  destruct (submission_document params) as (E1 & E2).
  split; [|split; [|split; [|split; [|split; [|split; [|split]]]]]].
  5: { intros w Hc. unfold submitWork. rewrite E1.
       destruct (request_calls_endpoint env self fuel
                   ("/api/tasks/" ++ taskId params ++ "/submit")
                   (post (Some (JObj (submission_fields params)))) w Hc eq_refl)
         as (new & c & a & Et & Hin & Hu & Hm & Hb).
       exists new, c, a. split; [|split; [exact Hin|split; [exact Hu|split;
                                  [exact Hm|exact Hb]]]].
       rewrite <- Et. unfold bind.
       destruct (request _ _ _ _ _ w) as [[j|e|] w']; reflexivity. }
  5: { unfold submission_fields.
       destruct (submissionType params), (submissionText params), (submissionUrl params);
         reflexivity. }
  5: { unfold submission_fields.
       destruct (submissionText params), (submissionUrl params); reflexivity. }
  5: { unfold submission_fields.
       destruct (submissionText params), (submissionUrl params); reflexivity. }
  - unfold submitWork. rewrite E1.
    apply only_calls_bind; [|reflexivity].
    apply (request_only_calls fuel ("/api/tasks/" ++ taskId params ++ "/submit")
                              (post (Some (JObj (submission_fields params))))).
  - intros w. unfold submitWorkX402. rewrite E2.
    destruct (requestWithX402Payment_calls_endpoint env self "/api/x402/submissions"
                (post (Some (JObj (("task_id", JStr (taskId params))
                                   :: submission_fields params)))) w)
      as (c & a & Et & Hu & Hm & Hb).
    exists c, a. split; [|split; [exact Hu|split; [exact Hm|exact Hb]]].
    rewrite <- Et. unfold bind.
    destruct (requestWithX402Payment _ _ _ _ w) as [[j|e|] w']; reflexivity.
  - unfold submission_fields.
    destruct (submissionText params), (submissionUrl params); reflexivity.
  - intros E3 E4. unfold submission_fields. rewrite E3, E4. reflexivity.
Qed.

(** The gig document. *)
Definition gig_payload (params : CreateGigParams) : Json :=
  JObj [("title", JStr (gig_title params));
        ("description", JStr (gig_description params));
        ("category", JStr (gig_category params));
        ("price", JSON_number (price params));
        ("delivery_time_days", JSON_number (deliveryTimeDays params));
        ("currency", JStr (or_string (gig_currency params) "USDC"))].

(** X14. The documents of the other methods that send one, each to its
    own URL with a POST and nothing else but a handshake.  An application
    carries [task_id] and the message when there is one; a rejection its
    reason; a gig its six fields, with [USDC] for a currency that is missing
    or empty; a purchase the gig under [gig_id]; a delivery the URL and the
    notes when there are any; a revision request the feedback. *)
Theorem documents_of_the_posting_methods fuel :
  (forall taskId message,
      only_calls (apiUrl self ++ "/api/tasks/apply") (Some "POST")
                 (Some (JObj (("task_id", JStr taskId) :: optional_field "message" message)))
                 (applyToTask env self fuel taskId message))
  /\ (forall taskId reason,
         only_calls (apiUrl self ++ "/api/tasks/" ++ taskId ++ "/reject") (Some "POST")
                    (Some (JObj [("reason", JStr reason)]))
                    (rejectTask env self fuel taskId reason))
  /\ (forall params,
         only_calls (apiUrl self ++ "/api/gigs/create") (Some "POST")
                    (Some (gig_payload params))
                    (createGig env self fuel params))
  /\ (forall gigId,
         only_calls (apiUrl self ++ "/api/gigs/purchase") (Some "POST")
                    (Some (JObj [("gig_id", JStr gigId)]))
                    (purchaseGig env self fuel gigId))
  /\ (forall orderId deliveryUrl notes,
         only_calls (apiUrl self ++ "/api/gigs/orders/" ++ orderId ++ "/deliver")
                    (Some "POST")
                    (Some (JObj (("delivery_url", JStr deliveryUrl)
                                 :: optional_field "notes" notes)))
                    (deliverGigOrder env self fuel orderId deliveryUrl notes))
  /\ (forall orderId feedback,
         only_calls (apiUrl self ++ "/api/gigs/orders/" ++ orderId ++ "/revision")
                    (Some "POST")
                    (Some (JObj [("feedback", JStr feedback)]))
                    (requestGigRevision env self fuel orderId feedback))
  /\ (forall params,
         gig_currency params = None \/ gig_currency params = Some "" ->
         obj_get "currency" (match gig_payload params with JObj f => f | _ => [] end)
         = Some (JStr "USDC")).
Proof.
  split; [|split; [|split; [|split; [|split; [|split]]]]].
  - intros taskId message. unfold applyToTask.
    replace (JSON_stringify _)
      with (JObj (("task_id", JStr taskId) :: optional_field "message" message))
      by (destruct message; reflexivity).
    apply (request_only_calls fuel "/api/tasks/apply" (post (Some _))).
  - intros taskId reason. unfold rejectTask.
    apply only_calls_bind; [|reflexivity].
    apply (request_only_calls fuel ("/api/tasks/" ++ taskId ++ "/reject") (post (Some _))).
  - intros params. unfold createGig.
    apply only_calls_bind; [|intros; apply lift_trace].
    apply (request_only_calls fuel "/api/gigs/create" (post (Some _))).
  - intros gigId. unfold purchaseGig.
    apply only_calls_bind; [|intros; apply lift_trace].
    apply (request_only_calls fuel "/api/gigs/purchase" (post (Some _))).
  - intros orderId deliveryUrl notes. unfold deliverGigOrder.
    replace (JSON_stringify _)
      with (JObj (("delivery_url", JStr deliveryUrl) :: optional_field "notes" notes))
      by (destruct notes; reflexivity).
    apply only_calls_bind; [|reflexivity].
    apply (request_only_calls fuel ("/api/gigs/orders/" ++ orderId ++ "/deliver")
                              (post (Some _))).
  - intros orderId feedback. unfold requestGigRevision.
    apply only_calls_bind; [|reflexivity].
    apply (request_only_calls fuel ("/api/gigs/orders/" ++ orderId ++ "/revision")
                              (post (Some _))).
  - intros params [E|E]; cbn [gig_payload obj_get]; rewrite E; reflexivity.
Qed.

(** X15. The methods that send no document.  The reading ones
    ([getBalance], [getTask], [getGig]) call their URL without a method,
    which makes the call a GET; the acting ones ([fundTask],
    [approveApplication], [approveTask], [cancelTask], [fundGigOrder],
    [approveGigOrder], [claimFaucet]) POST to theirs.  None of them sends a
    body or calls anything else but the handshake URLs. *)
Theorem calls_of_the_methods_without_a_document fuel :
  only_calls (apiUrl self ++ "/api/wallet/balance") None None (getBalance env self fuel)
  /\ (forall taskId,
         only_calls (apiUrl self ++ "/api/tasks/" ++ taskId) None None
                    (getTask env self fuel taskId))
  /\ (forall slug,
         only_calls (apiUrl self ++ "/api/gigs/by-slug/" ++ slug) None None
                    (getGig env self fuel slug))
  /\ (forall taskId,
         only_calls (apiUrl self ++ "/api/tasks/" ++ taskId ++ "/fund") (Some "POST") None
                    (fundTask env self fuel taskId))
  /\ (forall applicationId,
         only_calls (apiUrl self ++ "/api/tasks/applications/" ++ applicationId ++ "/approve")
                    (Some "POST") None
                    (approveApplication env self fuel applicationId))
  /\ (forall taskId,
         only_calls (apiUrl self ++ "/api/tasks/" ++ taskId ++ "/approve") (Some "POST") None
                    (approveTask env self fuel taskId))
  /\ (forall taskId,
         only_calls (apiUrl self ++ "/api/tasks/" ++ taskId ++ "/cancel") (Some "POST") None
                    (cancelTask env self fuel taskId))
  /\ (forall orderId,
         only_calls (apiUrl self ++ "/api/gigs/orders/" ++ orderId ++ "/fund") (Some "POST")
                    None (fundGigOrder env self fuel orderId))
  /\ (forall orderId,
         only_calls (apiUrl self ++ "/api/gigs/orders/" ++ orderId ++ "/approve")
                    (Some "POST") None (approveGigOrder env self fuel orderId))
  /\ only_calls (apiUrl self ++ "/api/wallet/claim-usdc-dev") (Some "POST") None
                (claimFaucet env self fuel).
Proof.
  repeat match goal with |- _ /\ _ => split end.
  - apply only_calls_bind; [|intros; apply lift_trace].
    apply (request_only_calls fuel "/api/wallet/balance" no_options).
  - intros taskId. apply only_calls_bind; [|intros; apply lift_trace].
    apply (request_only_calls fuel ("/api/tasks/" ++ taskId) no_options).
  - intros slug. apply only_calls_bind; [|intros; apply lift_trace].
    apply (request_only_calls fuel ("/api/gigs/by-slug/" ++ slug) no_options).
  - intros taskId.
    apply (request_only_calls fuel ("/api/tasks/" ++ taskId ++ "/fund") (post None)).
  - intros applicationId. apply only_calls_bind; [|reflexivity].
    apply (request_only_calls fuel ("/api/tasks/applications/" ++ applicationId ++ "/approve")
                              (post None)).
  - intros taskId.
    apply (request_only_calls fuel ("/api/tasks/" ++ taskId ++ "/approve") (post None)).
  - intros taskId.
    apply (request_only_calls fuel ("/api/tasks/" ++ taskId ++ "/cancel") (post None)).
  - intros orderId.
    apply (request_only_calls fuel ("/api/gigs/orders/" ++ orderId ++ "/fund") (post None)).
  - intros orderId.
    apply (request_only_calls fuel ("/api/gigs/orders/" ++ orderId ++ "/approve") (post None)).
  - unfold claimFaucet. destruct (network self).
    + apply (request_only_calls fuel "/api/wallet/claim-usdc-dev" (post None)).
    + apply emits_throw.
Qed.


(** *** Listing *)

Section Queries.
Variable form_urlencode : string -> string.

(** A filter that [if (value)] skips. *)
Definition skipped_text (a : option string) : Prop := a = None \/ a = Some "".

Definition skipped_number (x : option float) : Prop :=
  x = None \/ exists v, x = Some v /\ number_truthy v = false.

(** One [name=value] pair of a query string. *)
Definition pair_text (name value : string) : string :=
  form_urlencode name ++ "=" ++ form_urlencode value.

Lemma append_string_skipped name a query :
  skipped_text a -> append_string name a query = query.
Proof. intros [->| ->]; reflexivity. Qed.

Lemma append_number_skipped name x query :
  skipped_number x -> append_number name x query = query.
Proof. intros [->|(v & -> & Hv)]; [reflexivity|]. unfold append_number. rewrite Hv. reflexivity. Qed.

Lemma pair_text_truthy name value rest :
  string_truthy (pair_text name value ++ rest) = true.
Proof.
  unfold pair_text. destruct (form_urlencode name); reflexivity.
Qed.

Lemma pair_text_alone_truthy name value : string_truthy (pair_text name value) = true.
Proof.
  unfold pair_text. destruct (form_urlencode name); reflexivity.
Qed.

(** What a filter adds to the query: its [name=value] when it is given and
    is not the empty text, respectively not zero and not NaN; nothing
    otherwise. *)
Definition text_filter (name : string) (a : option string) : list string :=
  match a with
  | Some v => if String.eqb v "" then [] else [pair_text name v]
  | None => []
  end.

Definition number_filter (name : string) (x : option float) : list string :=
  match x with
  | Some v =>
      if PrimFloat.is_zero v || PrimFloat.is_nan v then []
      else [pair_text name (Number_toString v)]
  | None => []
  end.

(** The query part of a URL: nothing for no pairs, and otherwise a question
    mark and the pairs joined by [&]. *)
Definition query_part (pairs : list string) : string :=
  match pairs with
  | [] => ""
  | _ => "?" ++ join_with "&" pairs
  end.

Definition encoded (query : list (string * string)) : list string :=
  map (fun kv => form_urlencode (fst kv) ++ "=" ++ form_urlencode (snd kv)) query.

Definition is_pair (p : string) : Prop := exists name value, p = pair_text name value.

Lemma encoded_append_string name a query :
  encoded (append_string name a query) = (encoded query ++ text_filter name a)%list.
Proof.
  unfold append_string, text_filter, string_truthy, encoded.
  destruct a as [v|]; [|rewrite app_nil_r; reflexivity].
  destruct (String.eqb v ""); cbn [negb]; [rewrite app_nil_r; reflexivity|].
  rewrite map_app. reflexivity.
Qed.

Lemma encoded_append_number name x query :
  encoded (append_number name x query) = (encoded query ++ number_filter name x)%list.
Proof.
  unfold append_number, number_filter, number_truthy, encoded.
  destruct x as [v|]; [|rewrite app_nil_r; reflexivity].
  destruct (PrimFloat.is_zero v || PrimFloat.is_nan v); cbn [negb];
    [rewrite app_nil_r; reflexivity|].
  rewrite map_app. reflexivity.
Qed.

Lemma text_filter_pairs name a : Forall is_pair (text_filter name a).
Proof.
  unfold text_filter. destruct a as [v|]; [|constructor].
  destruct (String.eqb v ""); repeat constructor. exists name, v. reflexivity.
Qed.

Lemma number_filter_pairs name x : Forall is_pair (number_filter name x).
Proof.
  unfold number_filter. destruct x as [v|]; [|constructor].
  destruct (PrimFloat.is_zero v || PrimFloat.is_nan v); repeat constructor.
  exists name, (Number_toString v). reflexivity.
Qed.

Lemma query_part_of query pairs :
  encoded query = pairs ->
  Forall is_pair pairs ->
  (if string_truthy (URLSearchParams_toString form_urlencode query)
   then "?" ++ URLSearchParams_toString form_urlencode query
   else "")
  = query_part pairs.
Proof.
  intros E Hp. unfold URLSearchParams_toString. fold (encoded query). rewrite E.
  destruct Hp as [|p rest (name & value & ->) _]; [reflexivity|].
  unfold query_part. cbn [join_with].
  destruct rest as [|q rest].
  - rewrite pair_text_alone_truthy. reflexivity.
  - rewrite pair_text_truthy. reflexivity.
Qed.

(** X16. The query string of the listing methods.  Each filter adds its
    [name=value] pair, in URL encoding and with numbers in the text
    [toString] gives, when it is given and is not the empty text,
    respectively not zero and not NaN, and adds nothing otherwise,
    independently of the other filters; the pairs stand in the order of the
    source (category, status, limit, offset), joined by [&] after a
    question mark, and when there is no pair the URL has no question mark. *)
Theorem listing_query_strings fuel :
  (forall params,
      listTasks env self form_urlencode fuel params
      = request env self fuel
                ("/api/tasks"
                 ++ query_part (text_filter "category" (params ≫= lt_category)
                                ++ text_filter "status" (params ≫= lt_status)
                                ++ number_filter "limit" (params ≫= lt_limit)
                                ++ number_filter "offset" (params ≫= lt_offset))%list)
                no_options)
  /\ (forall params,
         listGigs env self form_urlencode fuel params
         = request env self fuel
                   ("/api/gigs"
                    ++ query_part (text_filter "category" (params ≫= lg_category)
                                   ++ number_filter "limit" (params ≫= lg_limit))%list)
                   no_options)
  /\ (forall s o,
         s <> "" -> number_truthy o = true ->
         listTasks env self form_urlencode fuel
                   (Some {| lt_category := None; lt_status := Some s;
                            lt_limit := Some 0%float; lt_offset := Some o |})
         = request env self fuel
                   ("/api/tasks?" ++ pair_text "status" s
                    ++ "&" ++ pair_text "offset" (Number_toString o))
                   no_options)
  /\ (forall params,
      skipped_text (params ≫= lt_category) ->
      skipped_text (params ≫= lt_status) ->
      skipped_number (params ≫= lt_limit) ->
      skipped_number (params ≫= lt_offset) ->
      listTasks env self form_urlencode fuel params
      = request env self fuel "/api/tasks" no_options)
  /\ (forall c s l o,
         c <> "" -> s <> "" -> number_truthy l = true -> number_truthy o = true ->
         listTasks env self form_urlencode fuel
                   (Some {| lt_category := Some c; lt_status := Some s;
                            lt_limit := Some l; lt_offset := Some o |})
         = request env self fuel
                   ("/api/tasks?" ++ pair_text "category" c
                    ++ "&" ++ pair_text "status" s
                    ++ "&" ++ pair_text "limit" (Number_toString l)
                    ++ "&" ++ pair_text "offset" (Number_toString o))
                   no_options)
  /\ (forall params,
         skipped_text (params ≫= lg_category) ->
         skipped_number (params ≫= lg_limit) ->
         listGigs env self form_urlencode fuel params
         = request env self fuel "/api/gigs" no_options)
  /\ (forall c l,
         c <> "" -> number_truthy l = true ->
         listGigs env self form_urlencode fuel
                  (Some {| lg_category := Some c; lg_limit := Some l |})
         = request env self fuel
                   ("/api/gigs?" ++ pair_text "category" c
                    ++ "&" ++ pair_text "limit" (Number_toString l))
                   no_options)
  /\ (forall l,
         number_truthy l = true ->
         listGigs env self form_urlencode fuel
                  (Some {| lg_category := None; lg_limit := Some l |})
         = request env self fuel
                   ("/api/gigs?" ++ pair_text "limit" (Number_toString l))
                   no_options)
  /\ (forall name,
         text_filter name None = []
         /\ text_filter name (Some "") = []
         /\ (forall s, s <> "" -> text_filter name (Some s) = [pair_text name s])
         /\ number_filter name None = []
         /\ (forall v, number_truthy v = false -> number_filter name (Some v) = [])
         /\ (forall v,
                number_truthy v = true ->
                number_filter name (Some v) = [pair_text name (Number_toString v)]))
  /\ query_part [] = ""
  /\ (forall p, query_part [p] = "?" ++ p)
  /\ (forall p q rest,
         query_part (p :: q :: rest) = "?" ++ p ++ "&" ++ join_with "&" (q :: rest)).
Proof.
  assert (forall params,
             listTasks env self form_urlencode fuel params
             = request env self fuel
                 ("/api/tasks"
                  ++ query_part (text_filter "category" (params ≫= lt_category)
                                 ++ text_filter "status" (params ≫= lt_status)
                                 ++ number_filter "limit" (params ≫= lt_limit)
                                 ++ number_filter "offset" (params ≫= lt_offset))%list)
                 no_options) as Htasks.
  { intros params. unfold listTasks. cbv zeta. f_equal. f_equal.
    apply query_part_of.
    - rewrite !encoded_append_number, !encoded_append_string. cbn [encoded map app].
      rewrite <- !app_assoc. reflexivity.
    - repeat apply Forall_app_2;
        first [apply text_filter_pairs | apply number_filter_pairs]. }
  split; [exact Htasks|]. split; [|split].
  - intros params. unfold listGigs. cbv zeta. f_equal. f_equal.
    apply query_part_of.
    + rewrite encoded_append_number, encoded_append_string. reflexivity.
    + apply Forall_app_2; [apply text_filter_pairs | apply number_filter_pairs].
  - intros s o Hs Ho. rewrite Htasks.
    cbn [mbind option_bind lt_category lt_status lt_limit lt_offset].
    unfold text_filter, number_filter.
    apply String.eqb_neq in Hs. rewrite Hs.
    unfold number_truthy in Ho. apply negb_true_iff in Ho. rewrite Ho.
    reflexivity.
  - split; [|split; [|split; [|split; [|split]]]].
    + intros params H1 H2 H3 H4. unfold listTasks.
      rewrite (append_string_skipped _ _ _ H1), (append_string_skipped _ _ _ H2),
        (append_number_skipped _ _ _ H3), (append_number_skipped _ _ _ H4).
      reflexivity.
    + intros c s l o Hc Hs Hl Ho. unfold listTasks.
      cbn [mbind option_bind lt_category lt_status lt_limit lt_offset].
      unfold append_string, append_number, string_truthy.
      apply String.eqb_neq in Hc, Hs. rewrite Hc, Hs, Hl, Ho.
      cbn [negb app]. unfold URLSearchParams_toString. cbn [map join_with fst snd].
      fold (pair_text "category" c). fold (pair_text "status" s).
      fold (pair_text "limit" (Number_toString l)).
      fold (pair_text "offset" (Number_toString o)).
      fold (string_truthy (pair_text "category" c ++ "&" ++ pair_text "status" s ++ "&"
                           ++ pair_text "limit" (Number_toString l) ++ "&"
                           ++ pair_text "offset" (Number_toString o))).
      rewrite pair_text_truthy. reflexivity.
    + intros params H1 H2. unfold listGigs.
      rewrite (append_string_skipped _ _ _ H1), (append_number_skipped _ _ _ H2).
      reflexivity.
    + intros c l Hc Hl. unfold listGigs.
      cbn [mbind option_bind lg_category lg_limit].
      unfold append_string, append_number, string_truthy.
      apply String.eqb_neq in Hc. rewrite Hc, Hl.
      cbn [negb app]. unfold URLSearchParams_toString. cbn [map join_with fst snd].
      fold (pair_text "category" c). fold (pair_text "limit" (Number_toString l)).
      fold (string_truthy (pair_text "category" c ++ "&"
                           ++ pair_text "limit" (Number_toString l))).
      rewrite pair_text_truthy. reflexivity.
    + intros l Hl. unfold listGigs.
      cbn [mbind option_bind lg_category lg_limit].
      unfold append_string, append_number. rewrite Hl.
      cbn [app]. unfold URLSearchParams_toString. cbn [map join_with fst snd].
      fold (pair_text "limit" (Number_toString l)).
      fold (string_truthy (pair_text "limit" (Number_toString l))).
      rewrite pair_text_alone_truthy. reflexivity.
    + split; [|repeat split].
      intros name. unfold text_filter, number_filter, number_truthy.
      split; [reflexivity|]. split; [reflexivity|].
      split; [intros s Hs; apply String.eqb_neq in Hs; rewrite Hs; reflexivity|].
      split; [reflexivity|].
      split; intros v Hv.
      * apply negb_false_iff in Hv. rewrite Hv. reflexivity.
      * apply negb_true_iff in Hv. rewrite Hv. reflexivity.
Qed.

End Queries.


(** *** Creating and funding a task in one go *)

Lemma request_answered_live fuel endpoint options w r :
  routes_to_x402 self endpoint = false ->
  authenticated (session w) = true ->
  server env (trace w)
         (endpoint_call self endpoint options (cookie_headers options (session w)))
  = Resolved r ->
  status r <> 401 ->
  request env self fuel endpoint options w
  = (outcome_of r,
     log (EvFetch (endpoint_call self endpoint options
                                 (cookie_headers options (session w)))
                  (Resolved r)) w).
Proof.
  intros Hr Ha E H401.
  rewrite request_eq, Hr, (ensure_authenticated_live env self w Ha). cbv zeta.
  rewrite E. apply Z.eqb_neq in H401. rewrite H401. apply conclude_eq.
Qed.

Lemma task_document params iso :
  match deadline params with
  | Some {| time_value := Some t |} => iso = Some (Date_toISOString t)
  | _ => iso = None
  end ->
  JSON_stringify
    [("title", Str (title params));
     ("description", Str (description params));
     ("category", Str (category params));
     ("payment_amount", Num (paymentAmount params));
     ("currency", Str (or_string (currency params) "USDC"));
     ("deadline", optional Str iso);
     ("workers_needed", Num (or_number (workersNeeded params) 1%float))]
  = task_payload "payment_amount" params.
Proof.
  unfold task_payload, task_fields_before, task_fields_after, deadline_field.
  destruct (deadline params) as [[[t|]]|]; intros ->; reflexivity.
Qed.

(** The create call of [createTask] on the session path, in the session of
    [wa], and the fund call for the task [id] after it. *)
Definition create_call (params : CreateTaskParams) (wa : World) : HttpCall :=
  {| url := apiUrl self ++ "/api/tasks/create";
     call_method := Some "POST";
     call_headers := cookie_headers no_options (session wa);
     call_body := Some (task_payload "payment_amount" params) |}.

Definition fund_call (taskId : string) (wa : World) : HttpCall :=
  {| url := apiUrl self ++ "/api/tasks/" ++ taskId ++ "/fund";
     call_method := Some "POST";
     call_headers := cookie_headers no_options (session wa);
     call_body := None |}.

Lemma createTask_answered fuel params w r j task :
  useX402 self = false ->
  can_authenticate env self w ->
  deadline params <> Some {| time_value := None |} ->
  answers_with (apiUrl self ++ "/api/tasks/create") r ->
  ok r = true ->
  body r = Parsed j ->
  get_prop (Some j) "task" = inr task ->
  exists wa hs,
    createTask env self fuel params w
    = (Return task, log (EvFetch (create_call params wa) (Resolved r)) wa)
    /\ authenticated (session wa) = true
    /\ trace wa = (hs ++ trace w)%list
    /\ Forall (handshake_event self) hs.
Proof.
  intros Hx Hc Hd Ha Hok Hb Ht.
  unfold createTask, deadline_toISOString. rewrite Hx.
  assert (exists iso,
             match deadline params with
             | Some {| time_value := Some t |} => ret (Some (Date_toISOString t))
             | Some {| time_value := None |} =>
                 throw (Native {| native_name := "RangeError";
                                  native_message := "Invalid time value" |})
             | None => ret None
             end = ret iso
             /\ match deadline params with
                | Some {| time_value := Some t |} => iso = Some (Date_toISOString t)
                | _ => iso = None
                end) as (iso & -> & Hiso).
  { destruct (deadline params) as [[[t|]]|]; [|congruence|]; eexists; split; reflexivity. }
  change (bind (ret iso) ?k) with (k iso). cbv beta.
  rewrite (task_document params iso Hiso).
  destruct (request_answered fuel "/api/tasks/create"
              {| method := Some "POST"; headers := None;
                 req_body := Some (task_payload "payment_amount" params) |}
              w r eq_refl Hc Ha (ok_status r Hok)) as (wa & hs & E & Hauth & Et & Hhs).
  exists wa, hs. split; [|split; [exact Hauth|split; [exact Et|exact Hhs]]].
  unfold bind. rewrite E, (outcome_of_ok r j Hok Hb), Ht. reflexivity.
Qed.

(** X17. [createAndFundTask] when the create call succeeds.  The task is
    created with the document of [createTask].  When the [id] of the task
    the create call returned converts to a text, the fund call goes to the
    URL made from that text, in the session the create call used, with no
    handshake in between; when the fund call succeeds too, the result is
    that task with [escrow_address] set to the [escrowAddress] of the fund
    response, and that address again beside it.  A text is its own
    conversion, and a task without an [id] is funded under the text
    [undefined].  When the conversion throws, as for an [id] that is an
    object with a [toString] property of its own, the method throws that
    [TypeError] after the create call and nothing is funded. *)
Theorem createAndFundTask_funds_the_created_task fuel params w r1 j1 task id :
  useX402 self = false ->
  can_authenticate env self w ->
  deadline params <> Some {| time_value := None |} ->
  answers_with (apiUrl self ++ "/api/tasks/create") r1 ->
  ok r1 = true ->
  body r1 = Parsed j1 ->
  get_prop (Some j1) "task" = inr task ->
  get_prop task "id" = inr id ->
  (forall taskId r2 j2 escrow,
      template_string id = inr taskId ->
      answers_with (apiUrl self ++ "/api/tasks/" ++ taskId ++ "/fund") r2 ->
      ok r2 = true ->
      body r2 = Parsed j2 ->
      destructure j2 "escrowAddress" = inr escrow ->
      exists wa hs,
        createAndFundTask env self fuel params w
        = (Return {| funded_task := {| spread_of := task; escrow_address := escrow |};
                     escrowAddress := escrow |},
           {| session := session wa;
              trace := EvFetch (fund_call taskId wa) (Resolved r2)
                       :: EvFetch (create_call params wa) (Resolved r1)
                       :: (hs ++ trace w)%list |})
        /\ Forall (handshake_event self) hs)
  /\ (forall e,
         template_string id = inl e ->
         exists wa hs,
           createAndFundTask env self fuel params w
           = (Throw e,
              {| session := session wa;
                 trace := EvFetch (create_call params wa) (Resolved r1)
                          :: (hs ++ trace w)%list |})
           /\ Forall (handshake_event self) hs)
  /\ template_string None = inr "undefined"
  /\ (forall s, template_string (Some (JStr s)) = inr s)
  /\ (forall fields v,
         obj_get "toString" fields = Some v ->
         template_string (Some (JObj fields))
         = inl (Native {| native_name := "TypeError";
                          native_message := "Cannot convert object to primitive value" |})).
Proof.
  intros Hx Hc Hd Ha1 Hok1 Hb1 Ht Hid.
  destruct (createTask_answered fuel params w r1 j1 task Hx Hc Hd Ha1 Hok1 Hb1 Ht)
    as (wa & hs & E & Hauth & Et & Hhs).
  split; [|split; [|split; [|split]]].
  - intros taskId r2 j2 escrow Hid' Ha2 Hok2 Hb2 He.
    exists wa, hs. split; [|exact Hhs].
    unfold createAndFundTask. unfold bind at 1. rewrite E.
    unfold bind at 1. rewrite Hid. cbn [lift ret].
    unfold bind at 1. rewrite Hid'. cbn [lift ret].
    unfold bind at 1, fundTask.
    rewrite (request_answered_live fuel ("/api/tasks/" ++ taskId ++ "/fund")
               (post None) (log (EvFetch (create_call params wa) (Resolved r1)) wa) r2
               eq_refl Hauth
               (Ha2 _ (endpoint_call self ("/api/tasks/" ++ taskId ++ "/fund")
                                     (post None) (cookie_headers (post None) (session wa)))
                    eq_refl)
               (ok_status r2 Hok2)).
    rewrite (outcome_of_ok r2 j2 Hok2 Hb2).
    unfold bind. rewrite He. cbn [lift ret]. unfold log. cbn [session trace].
    rewrite Et. reflexivity.
  - intros e Hid'. exists wa, hs. split; [|exact Hhs].
    unfold createAndFundTask. unfold bind at 1. rewrite E.
    unfold bind at 1. rewrite Hid. cbn [lift ret].
    unfold bind at 1. rewrite Hid'. cbn [lift throw]. unfold log. cbn [session trace].
    rewrite Et. reflexivity.
  - reflexivity.
  - reflexivity.
  - intros fields v Hv. unfold template_string, ToString. cbn [js_toString].
    rewrite Hv. reflexivity.
Qed.

(** X18. [createAndFundTask] when funding fails.  The create call has been
    answered with a success, the [id] of the task converts to a text, and
    the fund call is answered with an error status whose error text can be
    read: the method throws a [ZaphWorkError] with the status and that text
    (the [error] of the body when that is a non-empty text, [Unknown error]
    for a body that does not parse), and the fund call is the last thing it
    did.  The task stays created: no call follows that would cancel it. *)
Theorem createAndFundTask_does_not_roll_back
    fuel params w r1 j1 task id taskId r2 msg :
  useX402 self = false ->
  can_authenticate env self w ->
  deadline params <> Some {| time_value := None |} ->
  answers_with (apiUrl self ++ "/api/tasks/create") r1 ->
  ok r1 = true ->
  body r1 = Parsed j1 ->
  get_prop (Some j1) "task" = inr task ->
  get_prop task "id" = inr id ->
  template_string id = inr taskId ->
  answers_with (apiUrl self ++ "/api/tasks/" ++ taskId ++ "/fund") r2 ->
  ok r2 = false ->
  status r2 <> 401 ->
  api_error_message r2 = inr msg ->
  (exists wa hs,
      createAndFundTask env self fuel params w
      = (Throw (Zaph {| name := "ZaphWorkError";
                        message := msg;
                        statusCode := Some (status r2) |}),
         {| session := session wa;
            trace := EvFetch (fund_call taskId wa) (Resolved r2)
                     :: EvFetch (create_call params wa) (Resolved r1)
                     :: (hs ++ trace w)%list |})
      /\ Forall (handshake_event self) hs)
  /\ (forall fields s,
         body r2 = Parsed (JObj fields) -> obj_get "error" fields = Some (JStr s) ->
         s <> "" -> msg = s)
  /\ (forall e, body r2 = Malformed e -> msg = "Unknown error").
Proof.
  intros Hx Hc Hd Ha1 Hok1 Hb1 Ht Hid Hid' Ha2 Hok2 H401 Hmsg.
  destruct (createTask_answered fuel params w r1 j1 task Hx Hc Hd Ha1 Hok1 Hb1 Ht)
    as (wa & hs & E & Hauth & Et & Hhs).
  destruct (api_error_message_cases r2) as (Hm & Hs & _).
  split; [|split].
  - exists wa, hs. split; [|exact Hhs].
    unfold createAndFundTask. unfold bind at 1. rewrite E.
    unfold bind at 1. rewrite Hid. cbn [lift ret].
    unfold bind at 1. rewrite Hid'. cbn [lift ret].
    unfold bind at 1, fundTask.
    rewrite (request_answered_live fuel ("/api/tasks/" ++ taskId ++ "/fund")
               (post None) (log (EvFetch (create_call params wa) (Resolved r1)) wa) r2
               eq_refl Hauth
               (Ha2 _ (endpoint_call self ("/api/tasks/" ++ taskId ++ "/fund")
                                     (post None) (cookie_headers (post None) (session wa)))
                    eq_refl)
               H401).
    rewrite (outcome_of_error r2 msg Hok2 Hmsg).
    unfold log. cbn [session trace]. rewrite Et. reflexivity.
  - intros fields s Hb Hf Hne. rewrite (Hs fields s Hb Hf Hne) in Hmsg. congruence.
  - intros e Hb. rewrite (Hm e Hb) in Hmsg. congruence.
Qed.

End ResourceMethods.

(** ** The [useX402] flag *)

Section Flag.
Context {P : Platform}.
Variable env : Environment.
Variable form_urlencode : string -> string.

Lemma requestWithX402Payment_ignores_useX402 self b endpoint options w :
  requestWithX402Payment env (with_useX402 b self) endpoint options w
  = requestWithX402Payment env self endpoint options w.
Proof. reflexivity. Qed.

Lemma bind_ext {A B} (m1 m2 : M A) (k1 k2 : A -> M B) w :
  (forall w0, m1 w0 = m2 w0) -> (forall a w', k1 a w' = k2 a w') ->
  bind m1 k1 w = bind m2 k2 w.
Proof.
  intros Hm Hk. unfold bind. rewrite Hm. destruct (m2 w) as [[a| |] w']; auto.
Qed.

Lemma getTask_ignores_useX402 self fuel taskId : forall w,
  getTask env (with_useX402 true self) fuel taskId w
  = getTask env (with_useX402 false self) fuel taskId w.
Proof.
  intros w. unfold getTask, bind. rewrite request_ignores_useX402 by reflexivity. reflexivity.
Qed.

Lemma waitForTaskStatus_loop_ignores_useX402 self rfuel taskId targetStatus
    timeoutMs pollIntervalMs startTime fuel : forall w,
  waitForTaskStatus_loop env (with_useX402 true self) fuel rfuel taskId targetStatus
                         timeoutMs pollIntervalMs startTime w
  = waitForTaskStatus_loop env (with_useX402 false self) fuel rfuel taskId targetStatus
                           timeoutMs pollIntervalMs startTime w.
Proof.
  induction fuel as [|fuel IH]; intros w; cbn [waitForTaskStatus_loop].
  all: apply bind_ext; [reflexivity|]; intros now w1.
  all: destruct (now - startTime <? timeoutMs); [|reflexivity].
  all: apply bind_ext; [apply getTask_ignores_useX402|]; intros task w2.
  all: apply bind_ext; [reflexivity|]; intros st w3.
  all: destruct (status_is st targetStatus); [reflexivity|].
  all: apply bind_ext; [reflexivity|]; intros u w4.
  - reflexivity.
  - apply IH.
Qed.

Ltac flag_free :=
  intros;
  repeat match goal with
         | |- context [request env (with_useX402 true ?s) ?f ?ep ?o] =>
             rewrite (request_ignores_useX402 env s f ep o) by reflexivity
         end;
  reflexivity.

(** X19. The [useX402] flag changes nothing outside task creation.  Every
    method but [createTask] (and [createAndFundTask], which calls it) does
    the same with the flag set as without it: their endpoints are not under
    [/api/x402/], and the two methods that name the payment path themselves
    do not look at the flag. *)
Theorem useX402_matters_only_for_createTask self fuel w :
  getBalance env (with_useX402 true self) fuel w
  = getBalance env (with_useX402 false self) fuel w
  /\ claimFaucet env (with_useX402 true self) fuel w
     = claimFaucet env (with_useX402 false self) fuel w
  /\ (forall params,
         listTasks env (with_useX402 true self) form_urlencode fuel params w
         = listTasks env (with_useX402 false self) form_urlencode fuel params w)
  /\ (forall taskId,
         getTask env (with_useX402 true self) fuel taskId w
         = getTask env (with_useX402 false self) fuel taskId w)
  /\ (forall taskId,
         fundTask env (with_useX402 true self) fuel taskId w
         = fundTask env (with_useX402 false self) fuel taskId w)
  /\ (forall taskId message,
         applyToTask env (with_useX402 true self) fuel taskId message w
         = applyToTask env (with_useX402 false self) fuel taskId message w)
  /\ (forall applicationId,
         approveApplication env (with_useX402 true self) fuel applicationId w
         = approveApplication env (with_useX402 false self) fuel applicationId w)
  /\ (forall params,
         submitWork env (with_useX402 true self) fuel params w
         = submitWork env (with_useX402 false self) fuel params w)
  /\ (forall taskId,
         approveTask env (with_useX402 true self) fuel taskId w
         = approveTask env (with_useX402 false self) fuel taskId w)
  /\ (forall taskId reason,
         rejectTask env (with_useX402 true self) fuel taskId reason w
         = rejectTask env (with_useX402 false self) fuel taskId reason w)
  /\ (forall taskId,
         cancelTask env (with_useX402 true self) fuel taskId w
         = cancelTask env (with_useX402 false self) fuel taskId w)
  /\ (forall params,
         listGigs env (with_useX402 true self) form_urlencode fuel params w
         = listGigs env (with_useX402 false self) form_urlencode fuel params w)
  /\ (forall slug,
         getGig env (with_useX402 true self) fuel slug w
         = getGig env (with_useX402 false self) fuel slug w)
  /\ (forall params,
         createGig env (with_useX402 true self) fuel params w
         = createGig env (with_useX402 false self) fuel params w)
  /\ (forall gigId,
         purchaseGig env (with_useX402 true self) fuel gigId w
         = purchaseGig env (with_useX402 false self) fuel gigId w)
  /\ (forall orderId,
         fundGigOrder env (with_useX402 true self) fuel orderId w
         = fundGigOrder env (with_useX402 false self) fuel orderId w)
  /\ (forall orderId deliveryUrl notes,
         deliverGigOrder env (with_useX402 true self) fuel orderId deliveryUrl notes w
         = deliverGigOrder env (with_useX402 false self) fuel orderId deliveryUrl notes w)
  /\ (forall orderId,
         approveGigOrder env (with_useX402 true self) fuel orderId w
         = approveGigOrder env (with_useX402 false self) fuel orderId w)
  /\ (forall orderId feedback,
         requestGigRevision env (with_useX402 true self) fuel orderId feedback w
         = requestGigRevision env (with_useX402 false self) fuel orderId feedback w)
  /\ (forall taskId targetStatus timeoutMs pollIntervalMs,
         waitForTaskStatus env (with_useX402 true self) fuel taskId targetStatus
                           timeoutMs pollIntervalMs w
         = waitForTaskStatus env (with_useX402 false self) fuel taskId targetStatus
                             timeoutMs pollIntervalMs w)
  /\ (forall params,
         createTaskX402 env (with_useX402 true self) params w
         = createTaskX402 env (with_useX402 false self) params w)
  /\ (forall params,
         submitWorkX402 env (with_useX402 true self) params w
         = submitWorkX402 env (with_useX402 false self) params w).
Proof.
  repeat match goal with |- _ /\ _ => split end.
  - unfold getBalance, bind. flag_free.
  - unfold claimFaucet. cbn [network with_useX402]. destruct (network self); flag_free.
  - intros params. unfold listTasks. cbv zeta. flag_free.
  - intros taskId. apply getTask_ignores_useX402.
  - unfold fundTask. flag_free.
  - unfold applyToTask. flag_free.
  - unfold approveApplication, bind. flag_free.
  - unfold submitWork, bind. flag_free.
  - unfold approveTask. flag_free.
  - unfold rejectTask, bind. flag_free.
  - unfold cancelTask. flag_free.
  - intros params. unfold listGigs. cbv zeta. flag_free.
  - unfold getGig, bind. flag_free.
  - unfold createGig, bind. flag_free.
  - unfold purchaseGig, bind. flag_free.
  - unfold fundGigOrder. flag_free.
  - unfold deliverGigOrder, bind. flag_free.
  - unfold approveGigOrder. flag_free.
  - unfold requestGigRevision, bind. flag_free.
  - intros taskId targetStatus timeoutMs pollIntervalMs.
    unfold waitForTaskStatus, bind.
    destruct (Date_now env w) as [[now| |] w1]; try reflexivity.
    apply waitForTaskStatus_loop_ignores_useX402.
  - reflexivity.
  - reflexivity.
Qed.

(** X20. With the flag set, [createTask] takes the payment path: one call
    to [/api/x402/tasks], no handshake, and the session is not touched.  It
    sends the amount under [payment_amount], whereas [createTaskX402] sends
    it under [payment_per_task] to the same URL. *)
Theorem createTask_with_useX402_calls_the_x402_endpoint self fuel params w :
  useX402 self = true ->
  deadline params <> Some {| time_value := None |} ->
  (exists call answer,
      trace (snd (createTask env self fuel params w)) = EvFetch call answer :: trace w
      /\ url call = apiUrl self ++ "/api/x402/tasks"
      /\ call_method call = Some "POST"
      /\ call_body call = Some (task_payload "payment_amount" params))
  /\ session (snd (createTask env self fuel params w)) = session w
  /\ (exists call answer,
         trace (snd (createTaskX402 env self params w)) = EvFetch call answer :: trace w
         /\ url call = apiUrl self ++ "/api/x402/tasks"
         /\ call_method call = Some "POST"
         /\ call_body call = Some (task_payload "payment_per_task" params)).
Proof.
  intros Hx Hd.
  assert (forall key,
             exists iso,
               deadline_toISOString (deadline params) = ret iso
               /\ JSON_stringify
                    [("title", Str (title params));
                     ("description", Str (description params));
                     ("category", Str (category params));
                     (key, Num (paymentAmount params));
                     ("currency", Str (or_string (currency params) "USDC"));
                     ("deadline", optional Str iso);
                     ("workers_needed", Num (or_number (workersNeeded params) 1%float))]
                  = task_payload key params) as Hdoc.
  { intros key. unfold deadline_toISOString, task_payload, task_fields_before,
      task_fields_after, deadline_field.
    destruct (deadline params) as [[[t|]]|]; [|congruence|]; eexists; split; reflexivity. }
  assert (forall options,
             let run := bind (requestWithX402Payment env self "/api/x402/tasks" options)
                             (fun response => lift (get_prop (Some response) "task")) w in
             (exists call answer,
                 trace (snd run) = EvFetch call answer :: trace w
                 /\ url call = apiUrl self ++ "/api/x402/tasks"
                 /\ call_method call = method options
                 /\ call_body call = req_body options)
             /\ session (snd run) = session w) as Hrun.
  { intros options run. subst run. rewrite bind_lift_trace.
    destruct (requestWithX402Payment_calls_endpoint env self "/api/x402/tasks" options w)
      as (c & a & Et & Hu & Hm & Hb).
    split; [exists c, a; repeat split; assumption|].
    unfold bind. rewrite requestWithX402Payment_eq. cbv zeta.
    destruct (server env (trace w) _) as [e|r]; [reflexivity|].
    destruct (status r =? 402); [reflexivity|].
    destruct (outcome_of r) as [j| |]; try reflexivity.
    destruct (get_prop (Some j) "task"); reflexivity. }
  split; [|split].
  - destruct (Hdoc "payment_amount") as (iso & Ed & Ej).
    unfold createTask. rewrite Hx, Ed.
    change (bind (ret iso) ?k) with (k iso). cbv beta. rewrite Ej.
    assert (forall o, request env self fuel "/api/x402/tasks" o
                      = requestWithX402Payment env self "/api/x402/tasks" o) as Er.
    { intros o. destruct fuel; cbn [request]; rewrite Hx; reflexivity. }
    rewrite Er.
    apply (proj1 (Hrun {| method := Some "POST"; headers := None;
                          req_body := Some (task_payload "payment_amount" params) |})).
  - destruct (Hdoc "payment_amount") as (iso & Ed & Ej).
    unfold createTask. rewrite Hx, Ed.
    change (bind (ret iso) ?k) with (k iso). cbv beta. rewrite Ej.
    assert (forall o, request env self fuel "/api/x402/tasks" o
                      = requestWithX402Payment env self "/api/x402/tasks" o) as Er.
    { intros o. destruct fuel; cbn [request]; rewrite Hx; reflexivity. }
    rewrite Er.
    apply (proj2 (Hrun {| method := Some "POST"; headers := None;
                          req_body := Some (task_payload "payment_amount" params) |})).
  - destruct (Hdoc "payment_per_task") as (iso & Ed & Ej).
    unfold createTaskX402. rewrite Ed.
    change (bind (ret iso) ?k) with (k iso). cbv beta. rewrite Ej.
    apply (proj1 (Hrun {| method := Some "POST"; headers := None;
                          req_body := Some (task_payload "payment_per_task" params) |})).
Qed.

End Flag.

(** ** Construction with a good key *)

Lemma strip_trailing_slash_slash base : strip_trailing_slash (base ++ "/") = base.
Proof.
  induction base as [|a base IH]; [reflexivity|].
  rewrite append_String. cbn [strip_trailing_slash].
  destruct (base ++ "/") as [|b rest] eqn:E.
  - destruct base; discriminate E.
  - rewrite IH. reflexivity.
Qed.

Lemma strip_trailing_slash_other base c :
  c <> "/"%char -> strip_trailing_slash (base ++ String c "") = base ++ String c "".
Proof.
  intros Hc. induction base as [|a base IH].
  - change (strip_trailing_slash (String c "") = String c "").
    cbn [strip_trailing_slash]. apply Ascii.eqb_neq in Hc. rewrite Hc. reflexivity.
  - rewrite append_String. cbn [strip_trailing_slash].
    destruct (base ++ String c "") as [|b rest] eqn:E.
    + destruct base; discriminate E.
    + rewrite IH. reflexivity.
Qed.

Section GoodKey.
Context {P : Platform}.

(** X21. With a key that decodes and is accepted, the constructor returns
    a client with that key pair, sends nothing and starts the session empty
    and not authenticated.  The network defaults to devnet and the flag to
    off.  One slash at the end of the base URL is removed, so that the
    endpoints, which start with a slash, follow it directly; a base URL
    that ends otherwise, or is empty, is kept as it is. *)
Theorem constructor_builds_the_client config w key pair :
  bs58_decode (cfg_privateKey config) = Some key ->
  Keypair_fromSecretKey key = Some pair ->
  exists client,
    constructor config w
    = (Return client,
       {| session := {| sessionCookie := None; authenticated := false |};
          trace := trace w |})
    /\ keypair client = pair
    /\ network client = default devnet (cfg_network config)
    /\ useX402 client = default false (cfg_useX402 config)
    /\ platformWallet client = cfg_platformWallet config
    /\ getAddress client = bs58_encode (publicKey pair)
    /\ (forall base, cfg_apiUrl config = base ++ "/" ->
                     apiUrl client = base
                     /\ connect_url client = base ++ "/api/auth/wallet/connect")
    /\ (forall base c, cfg_apiUrl config = base ++ String c "" -> c <> "/"%char ->
                       apiUrl client = cfg_apiUrl config)
    /\ (cfg_apiUrl config = "" -> apiUrl client = "").
Proof.
  intros Ed Ek. unfold constructor, bind, set_sessionCookie, set_authenticated.
  cbv beta iota zeta. rewrite Ed, Ek.
  eexists. split; [reflexivity|]. cbn [keypair network useX402 platformWallet apiUrl].
  do 5 (split; [reflexivity|]). split; [|split].
  - intros base ->. unfold connect_url. cbn [apiUrl].
    rewrite strip_trailing_slash_slash. split; reflexivity.
  - intros base c -> Hc. apply strip_trailing_slash_other. exact Hc.
  - intros ->. reflexivity.
Qed.

End GoodKey.

(** ** Edges of polling and of task creation *)

Section Edges.
Context {P : Platform}.
Variable env : Environment.
Variable self : ZaphWorkClient.

(** X22. Waiting with no time left.  When the second clock reading is
    already a full timeout after the first (as it is for a timeout of zero
    or less on a clock that does not run backwards), [waitForTaskStatus]
    throws the timeout error after the two readings: the task is never
    fetched, nothing is sent and the session is not touched. *)
Theorem waitForTaskStatus_with_no_time_left
    fuel taskId targetStatus timeoutMs pollIntervalMs w :
  default 60000 timeoutMs
  <= clock env (EvNow (clock env (trace w)) :: trace w) - clock env (trace w) ->
  waitForTaskStatus env self fuel taskId targetStatus timeoutMs pollIntervalMs w
  = (Throw (Zaph {| name := "ZaphWorkError";
                    message := "Timeout waiting for task " ++ taskId
                               ++ " to reach status " ++ targetStatus;
                    statusCode := None |}),
     {| session := session w;
        trace := EvNow (clock env (EvNow (clock env (trace w)) :: trace w))
                 :: EvNow (clock env (trace w)) :: trace w |}).
Proof.
  intros H. unfold waitForTaskStatus. cbv zeta.
  unfold bind at 1, Date_now at 1. cbv beta iota zeta.
  rewrite loop_deadline; [reflexivity|].
  apply Z.ltb_ge. exact H.
Qed.

(** X23. A poll that fails ends the wait.  The client is authenticated and
    there is time left; the first fetch of the task is answered with an
    error status whose error text can be read: [waitForTaskStatus] throws a
    [ZaphWorkError] with the status and that text (the [error] of the body
    when that is a non-empty text, [Unknown error] for a body that does not
    parse) at once, without sleeping or fetching again.  A success whose
    body has no [task] ends it as well, with the [TypeError] of reading
    [status] from [undefined]. *)
Theorem waitForTaskStatus_stops_at_a_failed_poll
    fuel taskId targetStatus timeoutMs pollIntervalMs w r :
  authenticated (session w) = true ->
  clock env (EvNow (clock env (trace w)) :: trace w) - clock env (trace w)
  < default 60000 timeoutMs ->
  server env (EvNow (clock env (EvNow (clock env (trace w)) :: trace w))
              :: EvNow (clock env (trace w)) :: trace w)
         (getTask_call self taskId w)
  = Resolved r ->
  status r <> 401 ->
  (ok r = false ->
   forall msg,
     api_error_message r = inr msg ->
     waitForTaskStatus env self fuel taskId targetStatus timeoutMs pollIntervalMs w
     = (Throw (Zaph {| name := "ZaphWorkError";
                       message := msg;
                       statusCode := Some (status r) |}),
        {| session := session w;
           trace := EvFetch (getTask_call self taskId w) (Resolved r)
                    :: EvNow (clock env (EvNow (clock env (trace w)) :: trace w))
                    :: EvNow (clock env (trace w)) :: trace w |}))
  /\ (forall fields s,
         body r = Parsed (JObj fields) -> obj_get "error" fields = Some (JStr s) ->
         s <> "" -> api_error_message r = inr s)
  /\ (forall e, body r = Malformed e -> api_error_message r = inr "Unknown error")
  /\ (ok r = true ->
      forall fields,
        body r = Parsed (JObj fields) ->
        obj_get "task" fields = None ->
        waitForTaskStatus env self fuel taskId targetStatus timeoutMs pollIntervalMs w
        = (Throw (Native {| native_name := "TypeError";
                            native_message :=
                              "Cannot read properties of undefined (reading 'status')" |}),
           {| session := session w;
              trace := EvFetch (getTask_call self taskId w) (Resolved r)
                       :: EvNow (clock env (EvNow (clock env (trace w)) :: trace w))
                       :: EvNow (clock env (trace w)) :: trace w |})).
Proof.
  intros Ha Ht E H401.
  assert (forall rfuel,
             request env self rfuel ("/api/tasks/" ++ taskId) no_options
                     (log (EvNow (clock env (EvNow (clock env (trace w)) :: trace w)))
                          (log (EvNow (clock env (trace w))) w))
             = (outcome_of r,
                {| session := session w;
                   trace := EvFetch (getTask_call self taskId w) (Resolved r)
                            :: EvNow (clock env (EvNow (clock env (trace w)) :: trace w))
                            :: EvNow (clock env (trace w)) :: trace w |})) as Er.
  { intros rfuel. rewrite request_eq, task_endpoint_not_x402.
    unfold ensure_authenticated. cbn [log session trace]. rewrite Ha. cbv zeta.
    cbn [log session trace].
    change (endpoint_call self ("/api/tasks/" ++ taskId) no_options
                          (cookie_headers no_options (session w)))
      with (getTask_call self taskId w).
    rewrite E.
    apply Z.eqb_neq in H401. rewrite H401. rewrite conclude_eq. reflexivity. }
  assert (waitForTaskStatus env self fuel taskId targetStatus timeoutMs pollIntervalMs w
          = waitForTaskStatus_loop env self fuel fuel taskId targetStatus
              (default 60000 timeoutMs) (default 2000 pollIntervalMs)
              (clock env (trace w)) (log (EvNow (clock env (trace w))) w)) as Ew
      by reflexivity.
  apply Z.ltb_lt in Ht.
  destruct (api_error_message_cases r) as (Hmal & Htext & _).
  split; [|split; [exact Htext|split; [exact Hmal|]]].
  - intros Hok msg Hmsg. rewrite Ew.
    destruct fuel as [|fuel']; cbn [waitForTaskStatus_loop].
    all: unfold bind at 1, Date_now at 1; cbv beta iota zeta; cbn [log trace].
    all: rewrite Ht.
    all: unfold getTask; unfold bind at 1 2; rewrite Er, (outcome_of_error r msg Hok Hmsg).
    all: reflexivity.
  - intros Hok fields Hb Hf. rewrite Ew.
    destruct fuel as [|fuel']; cbn [waitForTaskStatus_loop].
    all: unfold bind at 1, Date_now at 1; cbv beta iota zeta; cbn [log trace].
    all: rewrite Ht.
    all: unfold getTask; unfold bind at 1 2; rewrite Er.
    all: unfold outcome_of; rewrite Hok, Hb; cbn [get_prop lift]; rewrite Hf.
    all: reflexivity.
Qed.

(** What a wait may add to the trace: the events of a handshake, fetches
    of the task, and sleeps of the polling interval. *)
Definition polling_event (taskId : string) (pollIntervalMs : Z) (ev : Event) : Prop :=
  handshake_event self ev
  \/ call_of (apiUrl self ++ "/api/tasks/" ++ taskId) None None ev
  \/ ev = EvSleep pollIntervalMs.

Lemma getTask_emits_polling rfuel taskId pollIntervalMs :
  emits (polling_event taskId pollIntervalMs) (getTask env self rfuel taskId).
Proof.
  unfold getTask. apply emits_bind; [|intros; apply emits_lift].
  eapply emits_weaken; [|apply (request_emits env self rfuel ("/api/tasks/" ++ taskId)
                                              no_options)].
  intros ev [H|H]; [left; exact H|right; left].
  destruct ev as [c a| |]; [exact H|destruct H|destruct H].
Qed.

Lemma waitForTaskStatus_loop_emits rfuel taskId targetStatus timeoutMs pollIntervalMs
    startTime fuel :
  emits (polling_event taskId pollIntervalMs)
        (waitForTaskStatus_loop env self fuel rfuel taskId targetStatus
                                timeoutMs pollIntervalMs startTime).
Proof.
  induction fuel as [|fuel IH]; cbn [waitForTaskStatus_loop].
  all: apply emits_bind; [apply emits_Date_now; intros t; left; exact I|]; intros now.
  all: destruct (now - startTime <? timeoutMs); [|apply emits_throw].
  all: apply emits_bind; [apply getTask_emits_polling|]; intros task.
  all: apply emits_bind; [apply emits_lift|]; intros st.
  all: destruct (status_is st targetStatus); [apply emits_ret|].
  all: apply emits_bind; [apply emits_sleep; right; right; reflexivity|]; intros _.
  - apply emits_out_of_fuel.
  - exact IH.
Qed.

(** X24. What a wait does to the outside.  Whatever the server answers and
    however it ends, [waitForTaskStatus] only reads the clock, shakes hands,
    fetches the task it was asked about (no method, no body) and sleeps, and
    every sleep lasts exactly the polling interval, 2000 ms when none was
    given. *)
Theorem waitForTaskStatus_only_polls_and_sleeps
    fuel taskId targetStatus timeoutMs pollIntervalMs w :
  exists new,
    trace (snd (waitForTaskStatus env self fuel taskId targetStatus
                                  timeoutMs pollIntervalMs w))
    = (new ++ trace w)%list
    /\ Forall (fun ev =>
                 match ev with
                 | EvFetch c _ =>
                     url c = connect_url self \/ url c = session_url self
                     \/ (url c = apiUrl self ++ "/api/tasks/" ++ taskId
                         /\ call_method c = None /\ call_body c = None)
                 | EvNow _ => True
                 | EvSleep ms => ms = default 2000 pollIntervalMs
                 end) new.
Proof.
  assert (emits (polling_event taskId (default 2000 pollIntervalMs))
                (waitForTaskStatus env self fuel taskId targetStatus
                                   timeoutMs pollIntervalMs)) as H.
  { unfold waitForTaskStatus. cbv zeta.
    apply emits_bind; [apply emits_Date_now; intros t; left; exact I|]; intros startTime.
    apply waitForTaskStatus_loop_emits. }
  destruct (H w) as (new & Et & Hnew).
  exists new. split; [exact Et|].
  eapply Forall_impl; [exact Hnew|].
  intros [c a|t|ms] Hev; [|exact I|].
  - destruct Hev as [Hh|[Hc|He]]; [|right; right; exact Hc|discriminate He].
    destruct Hh as [Hh|Hh]; [left|right; left]; exact Hh.
  - destruct Hev as [Hh|[Hc|He]]; [destruct Hh|destruct Hc|].
    injection He as ->. reflexivity.
Qed.

(** X25. An invalid date as deadline.  [toISOString] throws a [RangeError]
    while the document is being built, so [createTask], [createTaskX402]
    and [createAndFundTask] throw it before anything is sent: no handshake,
    no call, and the session is as it was. *)
Theorem invalid_deadline_throws_before_sending fuel params w :
  deadline params = Some {| time_value := None |} ->
  createTask env self fuel params w
  = (Throw (Native {| native_name := "RangeError";
                      native_message := "Invalid time value" |}), w)
  /\ createTaskX402 env self params w
     = (Throw (Native {| native_name := "RangeError";
                         native_message := "Invalid time value" |}), w)
  /\ createAndFundTask env self fuel params w
     = (Throw (Native {| native_name := "RangeError";
                         native_message := "Invalid time value" |}), w).
Proof.
  intros Hd.
  assert (createTask env self fuel params w
          = (Throw (Native {| native_name := "RangeError";
                              native_message := "Invalid time value" |}), w)) as E.
  { unfold createTask, deadline_toISOString. rewrite Hd. reflexivity. }
  split; [exact E|]. split.
  - unfold createTaskX402, deadline_toISOString. rewrite Hd. reflexivity.
  - unfold createAndFundTask, bind. rewrite E. reflexivity.
Qed.

(** The fields of a document. *)
Definition fields_of (j : Json) : list (string * Json) :=
  match j with
  | JObj fields => fields
  | _ => []
  end.

(** X26. Values the task document replaces.  An explicit currency that is
    the empty text is sent as [USDC], and an explicit number of workers that
    is zero or NaN is sent as 1, exactly as if they had not been given; an
    amount that is NaN or infinite is sent as [null].  The document [createTask]
    sends on the session path shows it. *)
Theorem createTask_replaces_falsy_values fuel params w :
  can_authenticate env self w ->
  deadline params <> Some {| time_value := None |} ->
  exists new call answer fields,
    trace (snd (createTask env self fuel params w)) = (new ++ trace w)%list
    /\ In (EvFetch call answer) new
    /\ call_method call = Some "POST"
    /\ call_body call = Some (JObj fields)
    /\ (currency params = None \/ currency params = Some "" ->
        obj_get "currency" fields = Some (JStr "USDC"))
    /\ (workersNeeded params = None
        \/ (exists x, workersNeeded params = Some x /\ number_truthy x = false) ->
        obj_get "workers_needed" fields = Some (JNum 1%float))
    /\ (PrimFloat.is_finite (paymentAmount params) = false ->
        obj_get "payment_amount" fields = Some JNull).
Proof.
  intros Hc Hd.
  destruct (createTask_calls env self fuel params w Hc Hd)
    as (new & call & answer & Et & Hin & Hm & Hb).
  exists new, call, answer, (fields_of (task_payload "payment_amount" params)).
  split; [exact Et|]. split; [exact Hin|]. split; [exact Hm|]. split; [exact Hb|].
  unfold task_payload, task_fields_before, task_fields_after, deadline_field, fields_of.
  destruct (deadline params) as [[[t|]]|]; [|congruence|].
  all: cbn [app obj_get String.eqb Ascii.eqb Bool.eqb].
  all: split; [intros [E|E]; rewrite E; reflexivity|].
  all: split; [intros [E|(x & E & Hx)]; rewrite E; [reflexivity|];
               unfold or_number; rewrite Hx; reflexivity|].
  all: intros Hf; unfold JSON_number; rewrite Hf; reflexivity.
Qed.

End Edges.

(** ** The claims about failures, retries, polling and the task document *)

Section Claims.
Context {P : Platform}.
Variable env : Environment.
Variable self : ZaphWorkClient.






(** C2 (amended). A response that is neither a success nor the status its
    dispatcher retries on (401 on the session path, 402 on the payment
    path) makes [request] fail.  When the error text of the response can
    be read, the failure is a [ZaphWorkError] carrying the HTTP status and
    that text: the [error] field of the body when that is a non-empty text,
    the status line when the parsed body has no [error] field or a falsy
    one or is not an object, and [Unknown error] when the body is not
    parseable JSON.  When it cannot be read, because the body is the JSON
    [null] or because [error] is an object with a [toString] property of
    its own, [request] throws the [TypeError] of the failed read or
    conversion instead. *)
Theorem request_failure_is_api_error fuel endpoint options w r :
  ok r = false ->
  (routes_to_x402 self endpoint = false ->
   forall wa,
     ensure_authenticated env self w = (Return tt, wa) ->
     server env (trace wa)
            (endpoint_call self endpoint options (cookie_headers options (session wa)))
     = Resolved r ->
     status r <> 401 ->
     (forall msg,
         api_error_message r = inr msg ->
         request env self fuel endpoint options w
         = (Throw (Zaph {| name := "ZaphWorkError"; message := msg;
                           statusCode := Some (status r) |}),
            log (EvFetch (endpoint_call self endpoint options
                                        (cookie_headers options (session wa)))
                         (Resolved r)) wa))
     /\ (forall e,
            api_error_message r = inl e ->
            request env self fuel endpoint options w
            = (Throw e,
               log (EvFetch (endpoint_call self endpoint options
                                           (cookie_headers options (session wa)))
                            (Resolved r)) wa)))
  /\ (routes_to_x402 self endpoint = true ->
      server env (trace w) (endpoint_call self endpoint options (with_json_headers options))
      = Resolved r ->
      status r <> 402 ->
      (forall msg,
          api_error_message r = inr msg ->
          request env self fuel endpoint options w
          = (Throw (Zaph {| name := "ZaphWorkError"; message := msg;
                            statusCode := Some (status r) |}),
             log (EvFetch (endpoint_call self endpoint options (with_json_headers options))
                          (Resolved r)) w))
      /\ (forall e,
             api_error_message r = inl e ->
             request env self fuel endpoint options w
             = (Throw e,
                log (EvFetch (endpoint_call self endpoint options
                                            (with_json_headers options))
                             (Resolved r)) w)))
  /\ (forall e, body r = Malformed e -> api_error_message r = inr "Unknown error")
  /\ (forall fields s,
         body r = Parsed (JObj fields) -> obj_get "error" fields = Some (JStr s) -> s <> "" ->
         api_error_message r = inr s)
  /\ (forall fields,
         body r = Parsed (JObj fields) -> obj_get "error" fields = None ->
         api_error_message r = inr ("Request failed: " ++ statusText r))
  /\ (forall fields e,
         body r = Parsed (JObj fields) -> obj_get "error" fields = Some e ->
         truthy (Some e) = false ->
         api_error_message r = inr ("Request failed: " ++ statusText r))
  /\ (forall j,
         body r = Parsed j -> j <> JNull -> (forall fields, j <> JObj fields) ->
         api_error_message r = inr ("Request failed: " ++ statusText r))
  /\ (forall fields inner v,
         body r = Parsed (JObj fields) -> obj_get "error" fields = Some (JObj inner) ->
         obj_get "toString" inner = Some v ->
         api_error_message r
         = inl (Native {| native_name := "TypeError";
                          native_message := "Cannot convert object to primitive value" |}))
  /\ (body r = Parsed JNull ->
      api_error_message r
      = inl (Native {| native_name := "TypeError";
                       native_message :=
                         "Cannot read properties of null (reading 'error')" |})).
Proof.
  intros Hok.
  split; [|split; [|exact (api_error_message_cases r)]].
  - intros Hroute wa Ea Es Hs.
    assert (request env self fuel endpoint options w
            = (outcome_of r,
               log (EvFetch (endpoint_call self endpoint options
                                           (cookie_headers options (session wa)))
                            (Resolved r)) wa)) as E.
    { rewrite request_eq, Hroute, Ea. cbv zeta. rewrite Es.
      apply Z.eqb_neq in Hs. rewrite Hs. apply conclude_eq. }
    rewrite E, (outcome_of_failure r Hok).
    split; [intros msg Hm | intros e He].
    + rewrite Hm. reflexivity.
    + rewrite He. reflexivity.
  - intros Hroute Es Hs.
    assert (request env self fuel endpoint options w
            = (outcome_of r,
               log (EvFetch (endpoint_call self endpoint options
                                           (with_json_headers options))
                            (Resolved r)) w)) as E.
    { rewrite request_eq, Hroute, requestWithX402Payment_eq. cbv zeta. rewrite Es.
      apply Z.eqb_neq in Hs. rewrite Hs. reflexivity. }
    rewrite E, (outcome_of_failure r Hok).
    split; [intros msg Hm | intros e He].
    + rewrite Hm. reflexivity.
    + rewrite He. reflexivity.
Qed.




Section Polling.
Variables (rfuel : nat) (taskId targetStatus : string).
Variables (timeoutMs pollIntervalMs startTime : Z).



End Polling.


(** C8. [createTask] posts the document with the snake_case fields
    [title], [description], [category], [payment_amount], [currency],
    [deadline] (when there is one) and [workers_needed], in this order and
    no others: the three texts and the amount as they are given, the
    currency that is given or "USDC" when there is none, the number of
    workers that is given or 1 when there is none, and the deadline as its
    ISO text.  Every call it makes besides the handshake carries that
    document, and with a session that is live or can be established and a
    usable deadline the call is made.  For the parameters
    [{title: "t", description: "d", category: "data", paymentAmount: 5.0}]
    the document has [payment_amount] 5, [currency] "USDC" and
    [workers_needed] 1. *)
Theorem createTask_wire_body fuel params w :
  task_payload "payment_amount" params
  = JObj ([("title", JStr (title params));
           ("description", JStr (description params));
           ("category", JStr (category params));
           ("payment_amount", JSON_number (paymentAmount params));
           ("currency", JStr (or_string (currency params) "USDC"))]
          ++ deadline_field params
          ++ [("workers_needed",
               JSON_number (or_number (workersNeeded params) 1%float))])%list
  /\ (exists new,
        trace (snd (createTask env self fuel params w)) = (new ++ trace w)%list
        /\ Forall (fun ev => handshake_event self ev
                             \/ sends (task_payload "payment_amount" params) ev) new)
  /\ (can_authenticate env self w ->
      deadline params <> Some {| time_value := None |} ->
      exists new c a,
        trace (snd (createTask env self fuel params w)) = (new ++ trace w)%list
        /\ In (EvFetch c a) new
        /\ sends (task_payload "payment_amount" params) (EvFetch c a))
  /\ or_string None "USDC" = "USDC"
  /\ or_number None 1%float = 1%float
  /\ task_payload "payment_amount"
                  {| title := "t"; description := "d"; category := "data";
                     paymentAmount := 5%float; currency := None; deadline := None;
                     workersNeeded := None |}
     = JObj [("title", JStr "t"); ("description", JStr "d"); ("category", JStr "data");
             ("payment_amount", JNum 5%float); ("currency", JStr "USDC");
             ("workers_needed", JNum 1%float)]
  /\ (can_authenticate env self w ->
      deadline params <> Some {| time_value := None |} ->
      exists new c a fields,
        trace (snd (createTask env self fuel params w)) = (new ++ trace w)%list
        /\ In (EvFetch c a) new
        /\ call_method c = Some "POST"
        /\ call_body c = Some (JObj fields)
        /\ map fst fields
           = (["title"; "description"; "category"; "payment_amount"; "currency"]
              ++ match deadline params with Some _ => ["deadline"] | None => [] end
              ++ ["workers_needed"])%list
        /\ obj_get "title" fields = Some (JStr (title params))
        /\ obj_get "description" fields = Some (JStr (description params))
        /\ obj_get "category" fields = Some (JStr (category params))
        /\ (PrimFloat.is_finite (paymentAmount params) = true ->
            PrimFloat.is_zero (paymentAmount params) = false ->
            obj_get "payment_amount" fields = Some (JNum (paymentAmount params)))
        /\ (currency params = None -> obj_get "currency" fields = Some (JStr "USDC"))
        /\ (forall c0,
               currency params = Some c0 -> c0 <> "" ->
               obj_get "currency" fields = Some (JStr c0))
        /\ (workersNeeded params = None ->
            obj_get "workers_needed" fields = Some (JNum 1%float))
        /\ (forall x,
               workersNeeded params = Some x ->
               PrimFloat.is_finite x = true ->
               PrimFloat.is_zero x = false ->
               obj_get "workers_needed" fields = Some (JNum x))
        /\ (deadline params = None -> obj_get "deadline" fields = None)
        /\ (forall t,
               deadline params = Some {| time_value := Some t |} ->
               obj_get "deadline" fields = Some (JStr (Date_toISOString t)))).
Proof.
  split; [reflexivity|].
  split; [exact (createTask_emits env self fuel params w)|].
  split; [apply createTask_calls|].
  split; [reflexivity|]. split; [reflexivity|]. split; [reflexivity|].
  intros Hc Hd.
  destruct (createTask_calls env self fuel params w Hc Hd)
    as (new & c & a & Et & Hin & Hm & Hb).
  exists new, c, a, (fields_of (task_payload "payment_amount" params)).
  split; [exact Et|]. split; [exact Hin|]. split; [exact Hm|]. split; [exact Hb|].
  unfold task_payload, task_fields_before, task_fields_after, deadline_field, fields_of.
  destruct (deadline params) as [[[t|]]|]; [|congruence|].
  all: cbn [app map fst obj_get String.eqb Ascii.eqb Bool.eqb].
  all: split; [reflexivity|].
  all: split; [reflexivity|]. all: split; [reflexivity|]. all: split; [reflexivity|].
  all: split; [intros Hf Hz; unfold JSON_number; rewrite Hf, Hz; reflexivity|].
  all: split; [intros E; rewrite E; reflexivity|].
  all: split; [intros c0 E Hc0; rewrite E; unfold or_string, string_truthy;
               apply String.eqb_neq in Hc0; rewrite Hc0; reflexivity|].
  all: split; [intros E; rewrite E; reflexivity|].
  all: split; [intros x E Hf Hz; rewrite E; unfold or_number, number_truthy;
               assert (PrimFloat.is_nan x = false) as Hn
                 by (unfold PrimFloat.is_finite in Hf;
                     apply negb_true_iff, orb_false_iff in Hf; apply Hf);
               rewrite Hz, Hn; cbn [orb negb]; unfold JSON_number;
               rewrite Hf, Hz; reflexivity|].
  all: split; [intros E; try discriminate E; reflexivity|].
  all: intros t' E; try discriminate E; injection E as ->; reflexivity.
Qed.

End Claims.

(** ** More concrete runs *)

Module MoreRuns.
Import Fixture.

Definition ok_response (j : Json) : Response := response 200 "OK" (Parsed j).

(** A success without content. *)
Definition no_content : Response :=
  response 204 "No Content"
           (Malformed {| native_name := "SyntaxError";
                         native_message := "Unexpected end of JSON input" |}).

Definition empty_bodies : Environment :=
  {| server := scripted [] (Resolved no_content); clock := ticking |}.

(** The session has expired and the server refuses new handshakes. *)
Definition refusing : Environment :=
  {| server := fun tr c =>
                 if String.eqb (url c) balance_url then unauthorized
                 else reply 503 "Service Unavailable" (Parsed (JObj []));
     clock := ticking |}.

Definition fund_url : string := "https://zaph.work/api/tasks/t1/fund".

Definition funded_response : Response :=
  ok_response (JObj [("signature", JStr "5sig"); ("escrowAddress", JStr "Esc1")]).

Definition insufficient_response : Response :=
  response 400 "Bad Request" (Parsed (JObj [("error", JStr "Insufficient funds")])).

(** Tasks are created; funding is answered with [answer]. *)
Definition funding (answer : Response) : Environment :=
  {| server := fun tr c =>
                 if String.eqb (url c) fund_url then Resolved answer
                 else scripted [] (Resolved (task_response "open")) tr c;
     clock := ticking |}.

Definition invalid_deadline_params : CreateTaskParams :=
  {| title := "t"; description := "d"; category := "data"; paymentAmount := 5%float;
     currency := None; deadline := Some {| time_value := None |}; workersNeeded := None |}.

Definition falsy_params : CreateTaskParams :=
  {| title := "t"; description := "d"; category := "data"; paymentAmount := 5%float;
     currency := Some ""; deadline := None; workersNeeded := Some 0%float |}.

Lemma scripted_answers r clk u :
  u <> "https://zaph.work/api/auth/wallet/connect" ->
  u <> "https://zaph.work/api/auth/session" ->
  answers_with {| server := scripted [] (Resolved r); clock := clk |} u r.
Proof.
  intros H1 H2 tr c Hu. cbn [server]. unfold scripted. rewrite Hu.
  apply String.eqb_neq in H1, H2. rewrite H1, H2.
  destruct (calls_to u tr); reflexivity.
Qed.

Lemma funding_handshake answer : handshake_succeeds (funding answer) client.
Proof.
  intros tr c [H|H]; cbn [server funding]; unfold scripted; rewrite H.
  - exists (response 200 "OK" (Parsed (JObj []))). split; reflexivity.
  - exists {| status := 200; statusText := "OK";
              set_cookie := Some "session=abc123; Path=/; HttpOnly";
              body := Parsed (JObj [("success", JBool true)]) |}.
    split; reflexivity.
Qed.

Lemma funding_answers_create answer :
  answers_with (funding answer) "https://zaph.work/api/tasks/create" (task_response "open").
Proof.
  intros tr c Hu. cbn [server funding]. rewrite Hu. cbn [String.eqb Ascii.eqb Bool.eqb].
  unfold scripted. rewrite Hu. cbn [String.eqb Ascii.eqb Bool.eqb].
  destruct (calls_to _ tr); reflexivity.
Qed.

Lemma funding_answers_fund answer : answers_with (funding answer) fund_url answer.
Proof. intros tr c Hu. cbn [server funding]. rewrite Hu. reflexivity. Qed.

(** X1, witness: the header the session endpoint of the test server sends. *)
Lemma match_session_extracts_the_value_witness :
  match_session "session=abc123; Path=/; HttpOnly" = Some "abc123".
Proof.
  apply (proj1 match_session_extracts_the_value "abc123" "; Path=/; HttpOnly").
  - split; [discriminate|]. intros c Hc. cbn in Hc.
    repeat (destruct Hc as [<-|Hc]; [discriminate|]). destruct Hc.
  - right. eexists. reflexivity.
Defined.

(** X3, witness: the handshake against the test server. *)
Lemma authenticate_signs_the_message_it_sends_witness :
  exists w',
    authenticate accepting client fresh = (Return tt, w')
    /\ authenticated (session w') = true
    /\ sessionCookie (session w') = Some "abc123"
    /\ calls_to "https://zaph.work/api/auth/session" (trace w') = 1%nat.
Proof.
  destruct (authenticate_signs_the_message_it_sends
              accepting client fresh
              (response 200 "OK" (Parsed (JObj [])))
              {| status := 200; statusText := "OK";
                 set_cookie := Some "session=abc123; Path=/; HttpOnly";
                 body := Parsed (JObj [("success", JBool true)]) |}
              eq_refl eq_refl eq_refl eq_refl)
    as (t & message & w' & E & _ & _ & Et & Ha & Hc).
  exists w'. split; [exact E|]. split; [exact Ha|]. split.
  - rewrite Hc. reflexivity.
  - rewrite Et. reflexivity.
Defined.

(** X5, witness: a call in a live session with the cookie [abc123]. *)
Lemma request_sends_the_session_cookie_witness :
  exists call answer new,
    trace (snd (request accepting client 1 balance no_options logged_in))
    = (new ++ [EvFetch call answer])%list
    /\ call_headers call !! "Cookie" = Some "session=abc123"
    /\ call_headers call !! "Content-Type" = Some "application/json".
Proof.
  destruct (request_sends_the_session_cookie accepting client 1 balance no_options
              logged_in eq_refl eq_refl)
    as (call & answer & new & Et & _ & _ & _ & Hc & _ & Hct & _).
  exists call, answer, new. split; [exact Et|]. split.
  - apply (Hc "abc123"); [reflexivity|discriminate].
  - exact Hct.
Defined.

(** X7, witness: the session has expired and the handshake is refused. *)
Lemma request_401_then_failed_handshake_witness :
  fst (request refusing client 1 balance no_options logged_in)
  = Throw (Zaph {| name := "AuthenticationError"; message := "Failed to connect wallet";
                   statusCode := Some 401 |})
  /\ session (snd (request refusing client 1 balance no_options logged_in))
     = {| sessionCookie := None; authenticated := false |}.
Proof.
  destruct (request_401_then_failed_handshake
              refusing client 0 balance no_options logged_in
              (response 401 "Unauthorized" (Parsed (JObj [("error", JStr "Session expired")])))
              (Zaph (new_AuthenticationError "Failed to connect wallet"))
              (snd (authenticate refusing client
                      (clear_session
                         (log (EvFetch (endpoint_call client balance no_options
                                          (cookie_headers no_options (session logged_in)))
                                       unauthorized) logged_in))))
              eq_refl eq_refl eq_refl eq_refl eq_refl)
    as (E & Hs & _).
  rewrite E. split; [reflexivity|exact Hs].
Defined.

(** X10, witness: a first request, handshake included. *)
Lemma request_leaves_the_session_in_place_witness :
  match request accepting client 1 balance no_options fresh with
  | (Return _, w') => authenticated (session w') = true
  | (Throw e, w') =>
      authenticated (session w') = true
      \/ exists msg, e = Zaph {| name := "AuthenticationError"; message := msg;
                                 statusCode := Some 401 |}
  | (OutOfFuel, w') => session w' = {| sessionCookie := None; authenticated := false |}
  end.
Proof.
  apply (request_leaves_the_session_in_place accepting client 1 balance no_options fresh).
  reflexivity.
Defined.

(** X11, witness: the server sends a task where a balance is expected. *)
Lemma unwrapping_methods_do_not_check_the_response_witness :
  fst (getBalance accepting client 1 fresh) = Return None.
Proof.
  rewrite (proj1 (unwrapping_methods_do_not_check_the_response
                    accepting client 1 fresh (task_response "open")
                    (JObj [("task", task_json "open")])
                    (or_intror (Runs.scripted_handshake _ _ _)) eq_refl eq_refl)).
  - reflexivity.
  - apply scripted_answers; discriminate.
Defined.

(** X12, witness: an approval answered with 204 and no body. *)
Lemma void_methods_still_parse_the_body_witness :
  fst (approveApplication empty_bodies client 1 "a1" logged_in)
  = Throw (Native {| native_name := "SyntaxError";
                     native_message := "Unexpected end of JSON input" |})
  /\ exists call rest,
       trace (snd (approveApplication empty_bodies client 1 "a1" logged_in))
       = EvFetch call (Resolved no_content) :: rest.
Proof.
  destruct (proj1 (void_methods_still_parse_the_body
                     empty_bodies client 1 logged_in no_content
                     (or_introl eq_refl) eq_refl) "a1") as (E & Ht).
  - apply scripted_answers; discriminate.
  - rewrite E. split; [reflexivity|exact Ht].
Defined.

(** X17, witness: the task [t1] is created and funded. *)
Lemma createAndFundTask_funds_the_created_task_witness :
  fst (createAndFundTask (funding funded_response) client 1 example_params fresh)
  = Return {| funded_task := {| spread_of := Some (task_json "open");
                                escrow_address := Some (JStr "Esc1") |};
              escrowAddress := Some (JStr "Esc1") |}
  /\ exists call rest,
       trace (snd (createAndFundTask (funding funded_response) client 1
                                     example_params fresh))
       = EvFetch call (Resolved funded_response) :: rest
       /\ url call = fund_url.
Proof.
  destruct (proj1 (createAndFundTask_funds_the_created_task
                     (funding funded_response) client 1 example_params fresh
                     (task_response "open") (JObj [("task", task_json "open")])
                     (Some (task_json "open")) (Some (JStr "t1"))
                     eq_refl (or_intror (funding_handshake _)) ltac:(discriminate)
                     (funding_answers_create _) eq_refl eq_refl eq_refl eq_refl)
                  "t1" funded_response
                  (JObj [("signature", JStr "5sig"); ("escrowAddress", JStr "Esc1")])
                  (Some (JStr "Esc1"))
                  eq_refl (funding_answers_fund _) eq_refl eq_refl eq_refl)
    as (wa & hs & E & Hhs).
  rewrite E. split; [reflexivity|].
  cbn [snd trace]. eexists _, _. split; reflexivity.
Defined.

(** X18, witness: the task [t1] is created and its funding is refused. *)
Lemma createAndFundTask_does_not_roll_back_witness :
  fst (createAndFundTask (funding insufficient_response) client 1 example_params fresh)
  = Throw (Zaph {| name := "ZaphWorkError"; message := "Insufficient funds";
                   statusCode := Some 400 |})
  /\ exists call call' rest,
       trace (snd (createAndFundTask (funding insufficient_response) client 1
                                     example_params fresh))
       = EvFetch call (Resolved insufficient_response)
         :: EvFetch call' (Resolved (task_response "open")) :: rest
       /\ url call = fund_url
       /\ url call' = "https://zaph.work/api/tasks/create".
Proof.
  destruct (proj1 (createAndFundTask_does_not_roll_back
                     (funding insufficient_response) client 1 example_params fresh
                     (task_response "open") (JObj [("task", task_json "open")])
                     (Some (task_json "open")) (Some (JStr "t1")) "t1"
                     insufficient_response "Insufficient funds"
                     eq_refl (or_intror (funding_handshake _)) ltac:(discriminate)
                     (funding_answers_create _) eq_refl eq_refl eq_refl eq_refl eq_refl
                     (funding_answers_fund _) eq_refl ltac:(discriminate) eq_refl))
    as (wa & hs & E & Hhs).
  rewrite E. split; [reflexivity|].
  cbn [snd trace]. eexists _, _, _. split; [reflexivity|]. split; reflexivity.
Defined.

(** X20, witness: a client with the flag set. *)
Lemma createTask_with_useX402_calls_the_x402_endpoint_witness :
  exists call answer,
    trace (snd (createTask paywalled x402_client 1 example_params fresh))
    = [EvFetch call answer]
    /\ url call = "https://zaph.work/api/x402/tasks"
    /\ call_body call
       = Some (JObj [("title", JStr "t"); ("description", JStr "d");
                     ("category", JStr "data"); ("payment_amount", JNum 5%float);
                     ("currency", JStr "USDC"); ("workers_needed", JNum 1%float)]).
Proof.
  destruct (proj1 (createTask_with_useX402_calls_the_x402_endpoint
                     paywalled x402_client 1 example_params fresh
                     eq_refl ltac:(discriminate)))
    as (call & answer & Et & Hu & _ & Hb).
  exists call, answer. split; [exact Et|]. split; [exact Hu|exact Hb].
Defined.

(** X21, witness: the configuration of the test client. *)
Lemma constructor_builds_the_client_witness :
  exists c,
    constructor config logged_in = (Return c, fresh)
    /\ apiUrl c = "https://zaph.work"
    /\ network c = devnet
    /\ useX402 c = false.
Proof.
  destruct (constructor_builds_the_client (P:=platform)
              config logged_in (list_byte_of_string key64)
              {| publicKey := drop 32 (list_byte_of_string key64);
                 secretKey := list_byte_of_string key64 |}
              eq_refl eq_refl)
    as (c & E & _ & Hn & Hx & _ & _ & Hu & _).
  exists c. split; [exact E|]. split; [|split; [exact Hn|exact Hx]].
  apply (Hu "https://zaph.work"). reflexivity.
Defined.

(** X22, witness: a timeout of zero on a clock that ticks. *)
Lemma waitForTaskStatus_with_no_time_left_witness :
  waitForTaskStatus never_completed client 5 "t1" "completed" (Some 0) None logged_in
  = (Throw (Zaph {| name := "ZaphWorkError";
                    message := "Timeout waiting for task t1 to reach status completed";
                    statusCode := None |}),
     {| session := session logged_in; trace := [EvNow 1000; EvNow 0] |}).
Proof.
  apply (waitForTaskStatus_with_no_time_left never_completed client 5 "t1" "completed"
                                             (Some 0) None logged_in).
  vm_compute. discriminate.
Defined.

(** X23, witness: the server answers the first poll with a 500. *)
Lemma waitForTaskStatus_stops_at_a_failed_poll_witness :
  fst (waitForTaskStatus broken client 5 "t1" "completed" None None logged_in)
  = Throw (Zaph {| name := "ZaphWorkError"; message := "Unknown error";
                   statusCode := Some 500 |})
  /\ calls_to task1_url
              (trace (snd (waitForTaskStatus broken client 5 "t1" "completed" None None
                                             logged_in)))
     = 1%nat.
Proof.
  rewrite (proj1 (waitForTaskStatus_stops_at_a_failed_poll
                    broken client 5 "t1" "completed" None None logged_in broken_response
                    eq_refl eq_refl eq_refl ltac:(discriminate))
                 eq_refl "Unknown error" eq_refl).
  split; reflexivity.
Defined.

(** X25, witness: a deadline that is an invalid date. *)
Lemma invalid_deadline_throws_before_sending_witness :
  createTask accepting client 1 invalid_deadline_params fresh
  = (Throw (Native {| native_name := "RangeError";
                      native_message := "Invalid time value" |}), fresh)
  /\ createTaskX402 accepting client invalid_deadline_params fresh
     = (Throw (Native {| native_name := "RangeError";
                         native_message := "Invalid time value" |}), fresh)
  /\ createAndFundTask accepting client 1 invalid_deadline_params fresh
     = (Throw (Native {| native_name := "RangeError";
                         native_message := "Invalid time value" |}), fresh).
Proof.
  apply (invalid_deadline_throws_before_sending accepting client 1
                                                invalid_deadline_params fresh).
  reflexivity.
Defined.

(** X26, witness: an empty currency and zero workers. *)
Lemma createTask_replaces_falsy_values_witness :
  exists new call answer fields,
    trace (snd (createTask accepting client 1 falsy_params fresh)) = (new ++ [])%list
    /\ In (EvFetch call answer) new
    /\ call_body call = Some (JObj fields)
    /\ obj_get "currency" fields = Some (JStr "USDC")
    /\ obj_get "workers_needed" fields = Some (JNum 1%float).
Proof.
  destruct (createTask_replaces_falsy_values accepting client 1 falsy_params fresh
              (or_intror (Runs.scripted_handshake _ _ _)) ltac:(discriminate))
    as (new & call & answer & fields & Et & Hin & _ & Hb & Hc & Hw & _).
  exists new, call, answer, fields.
  split; [exact Et|]. split; [exact Hin|]. split; [exact Hb|]. split.
  - apply Hc. right. reflexivity.
  - apply Hw. right. exists 0%float. split; reflexivity.
Defined.

(** A live session with a cookie the server no longer accepts. *)
Definition stale : World :=
  {| session := {| sessionCookie := Some "stale0"; authenticated := true |}; trace := [] |}.

Definition once_unauthorized : Environment :=
  {| server := scripted [unauthorized] (Resolved balance_response); clock := ticking |}.

(** X9, witness: the stale cookie is rejected once and replaced. *)
Lemma retry_after_401_uses_the_renewed_cookie_witness :
  exists first retry answer new rest,
    trace (snd (request once_unauthorized client 1 balance no_options stale))
    = (new ++ EvFetch retry answer :: rest ++ [EvFetch first unauthorized])%list
    /\ call_headers first !! "Cookie" = Some "session=stale0"
    /\ url retry = balance_url
    /\ call_headers retry !! "Cookie" = Some "session=abc123".
Proof.
  destruct (retry_after_401_uses_the_renewed_cookie
              once_unauthorized client 0 balance no_options stale
              (endpoint_call client balance no_options
                             (cookie_headers no_options (session stale)))
              [EvFetch (endpoint_call client balance no_options
                                      (cookie_headers no_options (session stale)))
                       unauthorized]
              (response 401 "Unauthorized" (Parsed (JObj [("error", JStr "Session expired")])))
              (response 200 "OK" (Parsed (JObj [])))
              2000
              {| status := 200; statusText := "OK";
                 set_cookie := Some "session=abc123; Path=/; HttpOnly";
                 body := Parsed (JObj [("success", JBool true)]) |}
              eq_refl eq_refl eq_refl eq_refl eq_refl eq_refl eq_refl eq_refl eq_refl
              eq_refl eq_refl)
    as (retry & answer & new & Et & Hu & _ & _ & Hc).
  exists (endpoint_call client balance no_options
                        (cookie_headers no_options (session stale))),
         retry, answer, new,
         [EvFetch (session_call client 2000)
                  (Resolved {| status := 200; statusText := "OK";
                               set_cookie := Some "session=abc123; Path=/; HttpOnly";
                               body := Parsed (JObj [("success", JBool true)]) |});
          EvNow 2000;
          EvFetch (connect_call client) (Resolved (response 200 "OK" (Parsed (JObj []))))].
  split; [exact Et|]. split; [|split; [exact Hu|rewrite Hc; reflexivity]].
  apply (proj1 (cookie_headers_lookup no_options (session stale)) "stale0");
    [reflexivity|discriminate].
Defined.

(** X8, witness: the first request of a client that has just been built. *)
Lemma unauthenticated_request_starts_with_connect_witness :
  exists c w0 answer new,
    constructor config logged_in = (Return c, w0)
    /\ trace (snd (request accepting c 1 balance no_options w0))
       = (new ++ [EvFetch (connect_call c) answer])%list.
Proof.
  exists client, fresh.
  destruct (proj1 (unauthenticated_request_starts_with_connect
                     accepting client 1 balance no_options fresh eq_refl eq_refl))
    as (answer & new & Et).
  exists answer, new. split; [reflexivity|exact Et].
Defined.

(** *** The claims about failures, retries, polling and the task document *)


(** A failure whose [error] field cannot be converted to a text. *)
Definition unreadable_response : Response :=
  response 500 "Internal Server Error"
           (Parsed (JObj [("error", JObj [("toString", JNum 1%float)])])).

Definition unreadable : Environment :=
  {| server := scripted [] (Resolved unreadable_response); clock := ticking |}.

(** C2, witness: the same 500 answer on the session path and on the
    payment path, and a 500 answer whose error text cannot be read. *)
Lemma request_failure_is_api_error_witness :
  request broken client 0 balance no_options logged_in
  = (Throw (Zaph {| name := "ZaphWorkError"; message := "Unknown error";
                    statusCode := Some 500 |}),
     log (EvFetch (endpoint_call client balance no_options
                     (cookie_headers no_options (session logged_in)))
                  (Resolved broken_response)) logged_in)
  /\ request broken x402_client 0 "/api/x402/tasks" no_options logged_in
     = (Throw (Zaph {| name := "ZaphWorkError"; message := "Unknown error";
                       statusCode := Some 500 |}),
        log (EvFetch (endpoint_call x402_client "/api/x402/tasks" no_options
                        (with_json_headers no_options))
                     (Resolved broken_response)) logged_in)
  /\ request unreadable client 0 balance no_options logged_in
     = (Throw (Native {| native_name := "TypeError";
                         native_message := "Cannot convert object to primitive value" |}),
        log (EvFetch (endpoint_call client balance no_options
                        (cookie_headers no_options (session logged_in)))
                     (Resolved unreadable_response)) logged_in).
Proof.
  split; [|split].
  - apply (proj1 (proj1 (request_failure_is_api_error
                           (P:=platform) broken client 0 balance no_options logged_in
                           broken_response eq_refl)
                        eq_refl logged_in eq_refl eq_refl ltac:(discriminate))
                 "Unknown error" eq_refl).
  - apply (proj1 (proj1 (proj2 (request_failure_is_api_error
                                  (P:=platform) broken x402_client 0 "/api/x402/tasks"
                                  no_options logged_in broken_response eq_refl))
                        eq_refl eq_refl ltac:(discriminate))
                 "Unknown error" eq_refl).
  - apply (proj2 (proj1 (request_failure_is_api_error
                           (P:=platform) unreadable client 0 balance no_options logged_in
                           unreadable_response eq_refl)
                        eq_refl logged_in eq_refl eq_refl ltac:(discriminate))
                 _ eq_refl).
Defined.




(** C8, witness: the fresh client and a server that accepts everything. *)
Lemma createTask_wire_body_witness :
  (exists new c a,
      trace (snd (createTask accepting client 1 example_params fresh)) = (new ++ [])%list
      /\ In (EvFetch c a) new
      /\ sends (JObj [("title", JStr "t"); ("description", JStr "d");
                      ("category", JStr "data"); ("payment_amount", JNum 5%float);
                      ("currency", JStr "USDC"); ("workers_needed", JNum 1%float)])
               (EvFetch c a))
  /\ (exists new c a fields,
        trace (snd (createTask accepting client 1 example_params fresh)) = (new ++ [])%list
        /\ In (EvFetch c a) new
        /\ call_method c = Some "POST"
        /\ call_body c = Some (JObj fields)
        /\ map fst fields
           = ["title"; "description"; "category"; "payment_amount"; "currency";
              "workers_needed"]
        /\ obj_get "title" fields = Some (JStr "t")
        /\ obj_get "payment_amount" fields = Some (JNum 5%float)
        /\ obj_get "currency" fields = Some (JStr "USDC")
        /\ obj_get "workers_needed" fields = Some (JNum 1%float)
        /\ obj_get "deadline" fields = None).
Proof.
  split.
  - apply (proj1 (proj2 (proj2 (createTask_wire_body (P:=platform) accepting client 1
                                                     example_params fresh)))).
    + right. apply Runs.scripted_handshake.
    + discriminate.
  - destruct (proj2 (proj2 (proj2 (proj2 (proj2 (proj2
                (createTask_wire_body (P:=platform) accepting client 1
                                      example_params fresh))))))
                (or_intror (Runs.scripted_handshake _ _ _)) ltac:(discriminate))
      as (new & c & a & fields & Et & Hin & Hm & Hb & Hk & Ht & _ & _ & Hp & Hc & _
          & Hw & _ & Hd & _).
    exists new, c, a, fields.
    split; [exact Et|]. split; [exact Hin|]. split; [exact Hm|]. split; [exact Hb|].
    split; [exact Hk|]. split; [exact Ht|].
    split; [exact (Hp eq_refl eq_refl)|]. split; [exact (Hc eq_refl)|].
    split; [exact (Hw eq_refl)|]. exact (Hd eq_refl).
Defined.

End MoreRuns.
